(** * kp-backend: ledger, purchase/expense linker and reporting

    A shallow embedding of the request handlers of the trading backend
    ([models.py], [schemas.py], [routers/buyers.py], [routers/sales.py],
    [routers/purchases.py], [routers/analytics.py]) and the properties
    its specification states about them, followed by the remaining
    handlers ([routers/expenses.py], [routers/product_types.py],
    [seed_data.py]) and further properties of all of them.

    Modelling conventions.
    - Monetary amounts and quantities are [Float] columns.  The handlers
      are embedded over the exact rationals [Q]: what they state about a
      stored or returned amount is the expression the code evaluates,
      read without rounding.  Where a property compares two different
      ways of adding the same amounts, rounding decides; the balances of
      a buyer and of the ledger are therefore embedded a second time
      over an arbitrary arithmetic ([Section Arithmetic]) and run in
      binary64, the arithmetic of the program.
    - A table is the list of its rows in insertion (primary key) order
      together with the next value of its id sequence.  [.first()] takes
      the first matching row of that list, [order_by] and [list.sort]
      are stable sorts.
    - An ORM relationship ([buyer.sales], [buyer.payments]) is the list of
      rows whose foreign key is the owner's id.
    - The [Optional] fields of the update schemas are read through
      [dict(exclude_unset=True)]: [None] stands for a field the request
      does not supply, [Some v] for a supplied value (a field sent as an
      explicit null is outside the model).
    - The database itself is not among the sources.  [LIKE] is embedded
      with exact comparison of characters and without an escape
      character; a database that folds the case of letters or reads a
      backslash as an escape matches differently on such input.
    - A handler returns [Ok (response, store')] or [Err e]; a raised
      [HTTPException] leaves the store as it was.
    - Server timestamps ([created_at], [updated_at]) and users play no
      part in the properties below and are left out. *)

From Stdlib Require Import QArith Lqa Ascii String Sorted.
From Stdlib Require SpecFloat.
From stdpp Require Import base list strings gmap pretty.

Local Open Scope string_scope.
Local Open Scope Z_scope.

(** ** Python built-ins *)

(** [sum(xs)]: a left fold that starts from [0]. *)
Definition sum (xs : list Q) : Q := fold_left Qplus xs 0%Q.

(** Stable insertion sort under a boolean "may stay in front of" test.
    [list.sort(key=k)] is [sort_by] with [k x <= k y], and
    [list.sort(key=k, reverse=True)] is [sort_by] with [k x >= k y]:
    both keep rows with equal keys in their original order. *)
Section Sorting.
Context {A : Type} (le : A -> A -> bool).

Fixpoint insert_by (x : A) (l : list A) : list A :=
    match l with
    | [] => [x]
    | y :: l' => if le x y then x :: y :: l' else y :: insert_by x l'
    end.

Definition sort_by (l : list A) : list A := foldr insert_by [] l.
End Sorting.

(** [xs[:n]] for an integer [n], negative values counting from the end. *)
Definition slice_to {A} (n : Z) (xs : list A) : list A :=
  if n <? 0 then take (Z.to_nat (Z.of_nat (length xs) + n)) xs
  else take (Z.to_nat n) xs.

(** ** [datetime.date] *)

Module datetime.
Record date := mkdate { year : Z; month : Z; day : Z }.

Definition eqb (a b : date) : bool :=
    (year a =? year b) && (month a =? month b) && (day a =? day b).

  (** [a <= b], lexicographic on (year, month, day). *)
Definition leb (a b : date) : bool :=
    (year a <? year b)
    || ((year a =? year b)
        && ((month a <? month b)
            || ((month a =? month b) && (day a <=? day b)))).

  (** [d.replace(day=1)] and friends. *)
Definition replace_day (d : date) (x : Z) : date := mkdate (year d) (month d) x.
Definition replace_month (d : date) (m : Z) : date := mkdate (year d) m (day d).
Definition replace_year_month (d : date) (y m : Z) : date := mkdate y m (day d).
End datetime.

(** ** models.py *)

Inductive PaymentType := PAID | PARTIAL | CREDIT.

Definition PaymentType_value (t : PaymentType) : string :=
  match t with PAID => "Paid" | PARTIAL => "Partial" | CREDIT => "Credit" end.

Inductive ExpenseCategory :=
  RENT | ELECTRICITY | WATER | LABOUR | TRANSPORT | TAX | OTHER.

Definition ExpenseCategory_eqb (a b : ExpenseCategory) : bool :=
  match a, b with
  | RENT, RENT | ELECTRICITY, ELECTRICITY | WATER, WATER | LABOUR, LABOUR
  | TRANSPORT, TRANSPORT | TAX, TAX | OTHER, OTHER => true
  | _, _ => false
  end.

Module Buyer.
Record t := mk {
    id : Z;
    name : string;
    phone : option string;
    address : option string;
    notes : option string;
    opening_balance : Q
  }.
End Buyer.

Module Purchase.
Record t := mk {
    id : Z;
    date : datetime.date;
    seller_name : string;
    seller_phone : option string;
    pickup_location : option string;
    scrap_type : option string;
    transport_service : option string;
    transport_cost : Q;
    quantity : Q;
    unit : string;
    price_per_unit : Q;
    total_purchase_cost : Q;
    notes : option string
  }.
End Purchase.

Module Sale.
Record t := mk {
    id : Z;
    date : datetime.date;
    buyer_id : Z;
    payment_type : PaymentType;
    payment_received_now : Q;
    total_amount : Q;
    notes : option string
  }.
End Sale.

Module SaleItem.
Record t := mk {
    id : Z;
    sale_id : Z;
    product_type_id : Z;
    quantity : Q;
    unit : string;
    price_per_unit : Q;
    total_price : Q
  }.
End SaleItem.

Module Payment.
Record t := mk {
    id : Z;
    date : datetime.date;
    buyer_id : Z;
    amount : Q;
    payment_method : string;
    notes : option string
  }.
End Payment.

Module Expense.
Record t := mk {
    id : Z;
    date : datetime.date;
    category : ExpenseCategory;
    amount : Q;
    description : option string
  }.
End Expense.

(** ** The store *)

(** A table: rows in insertion order and the next id of its sequence. *)
Record table (A : Type) := mk_table { rows : list A; next_id : Z }.
Arguments mk_table {A} _ _.
Arguments rows {A} _.
Arguments next_id {A} _.

(** [db.add(row)] followed by a flush: the row gets the next id and goes
    last. *)
Definition add {A} (mk : Z -> A) (tb : table A) : table A :=
  mk_table (rows tb ++ [mk (next_id tb)])%list (next_id tb + 1).

Record Session := mk_db {
  buyers : table Buyer.t;
  purchases : table Purchase.t;
  sales : table Sale.t;
  sale_items : table SaleItem.t;
  payments : table Payment.t;
  expenses : table Expense.t
}.

(** [query.first()]: the first row that passes the filter. *)
Definition first {A} (p : A -> bool) (l : list A) : option A := List.find p l.

(** Relationships of [Buyer]. *)
Definition Buyer_sales (db : Session) (b : Buyer.t) : list Sale.t :=
  List.filter (fun s => Sale.buyer_id s =? Buyer.id b) (rows (sales db)).

Definition Buyer_payments (db : Session) (b : Buyer.t) : list Payment.t :=
  List.filter (fun p => Payment.buyer_id p =? Buyer.id b) (rows (payments db)).

(** The three properties of [Buyer]. *)
Definition total_sales (db : Session) (b : Buyer.t) : Q :=
  sum (map Sale.total_amount (Buyer_sales db b)).

Definition total_payments (db : Session) (b : Buyer.t) : Q :=
  sum (map Payment.amount (Buyer_payments db b)).

Definition outstanding_balance (db : Session) (b : Buyer.t) : Q :=
  (Buyer.opening_balance b + total_sales db b - total_payments db b)%Q.

(** ** Handler results *)

Inductive error :=
| HTTPException (status_code : Z) (detail : string)
| IndexError.

Inductive result (A : Type) := Ok (a : A) | Err (e : error).
Arguments Ok {A} _.
Arguments Err {A} _.

(** The store a request leaves behind: the committed one, or the one it
    found when the handler raised. *)
Definition store_after {A} (db : Session) (r : result (A * Session)) : Session :=
  match r with
  | Ok (_, db') => db'
  | Err _ => db
  end.

(** The error classes of the specification. *)
Definition NotFound (e : error) : Prop :=
  match e with HTTPException c _ => c = 404 | _ => False end.
Definition Conflict (e : error) : Prop :=
  match e with HTTPException c _ => c = 400 | _ => False end.

(** [x < y] on amounts, as a boolean. *)
Definition Qltb (x y : Q) : bool := negb (Qle_bool y x).

(** ** SQL [LIKE]

    [like pattern s]: [%] stands for any run of characters, [_] for any
    one character, every other character for itself.  Characters are
    compared exactly, as under a case-sensitive collation, and no
    character escapes another.  SQLite compares ASCII letters without
    case in [LIKE]; PostgreSQL and MySQL read a backslash in the pattern
    as an escape. *)
Fixpoint like (pattern s : string) : bool :=
  match pattern with
  | EmptyString => match s with EmptyString => true | _ => false end
  | String c pattern' =>
      if Ascii.eqb c "%"%char then
        (fix skip (s : string) : bool :=
           like pattern' s
           || match s with EmptyString => false | String _ s' => skip s' end) s
      else if Ascii.eqb c "_"%char then
        match s with EmptyString => false | String _ s' => like pattern' s' end
      else
        match s with
        | EmptyString => false
        | String d s' => Ascii.eqb c d && like pattern' s'
        end
  end.

(** [column.like(pattern)] on a nullable column: [NULL] never matches. *)
Definition column_like (col : option string) (pattern : string) : bool :=
  match col with Some s => like pattern s | None => false end.

(** ** routers/buyers.py *)

(** [schemas.BuyerResponse], read from the ORM object with
    [from_attributes]: the columns plus the three properties. *)
Module BuyerResponse.
Record t := mk {
  id : Z;
  name : string;
  phone : option string;
  address : option string;
  notes : option string;
  opening_balance : Q;
  total_sales : Q;
  total_payments : Q;
  outstanding_balance : Q
}.
End BuyerResponse.

Definition BuyerResponse_of (db : Session) (b : Buyer.t) : BuyerResponse.t :=
  BuyerResponse.mk (Buyer.id b) (Buyer.name b) (Buyer.phone b)
    (Buyer.address b) (Buyer.notes b) (Buyer.opening_balance b)
    (total_sales db b) (total_payments db b) (outstanding_balance db b).

(** [db.query(models.Buyer).filter(models.Buyer.id == buyer_id).first()] *)
Definition buyer_by_id (db : Session) (buyer_id : Z) : option Buyer.t :=
  first (fun b => Buyer.id b =? buyer_id) (rows (buyers db)).

(** [order_by(models.Buyer.name)] *)
Definition order_by_name (l : list Buyer.t) : list Buyer.t :=
  sort_by (fun a b => String.leb (Buyer.name a) (Buyer.name b)) l.

Module BuyerListResponse.
Record t := mk {
  id : Z;
  name : string;
  phone : option string;
  outstanding_balance : Q
}.
End BuyerListResponse.

Definition get_buyers_list (db : Session) : list BuyerListResponse.t :=
  map (fun buyer =>
         let total_sales := sum (map Sale.total_amount (Buyer_sales db buyer)) in
         let total_payments := sum (map Payment.amount (Buyer_payments db buyer)) in
         let outstanding :=
           (Buyer.opening_balance buyer + total_sales - total_payments)%Q in
         BuyerListResponse.mk (Buyer.id buyer) (Buyer.name buyer)
           (Buyer.phone buyer) outstanding)
      (order_by_name (rows (buyers db))).

Definition get_buyer (db : Session) (buyer_id : Z) : result BuyerResponse.t :=
  match buyer_by_id db buyer_id with
  | None => Err (HTTPException 404 "Buyer not found")
  | Some buyer => Ok (BuyerResponse_of db buyer)
  end.

(** [db.delete(row)]: the row with that primary key goes. *)
Definition delete_buyer_row (b : Buyer.t) (tb : table Buyer.t) : table Buyer.t :=
  mk_table (List.filter (fun r => negb (Buyer.id r =? Buyer.id b)) (rows tb))
           (next_id tb).

Definition is_nonempty {A} (l : list A) : bool :=
  match l with [] => false | _ => true end.

Definition delete_buyer (db : Session) (buyer_id : Z) : result (string * Session) :=
  match buyer_by_id db buyer_id with
  | None => Err (HTTPException 404 "Buyer not found")
  | Some db_buyer =>
      if is_nonempty (Buyer_sales db db_buyer)
         || is_nonempty (Buyer_payments db db_buyer)
      then Err (HTTPException 400
                  "Cannot delete buyer with existing sales or payments")
      else Ok ("Buyer deleted successfully",
               mk_db (delete_buyer_row db_buyer (buyers db)) (purchases db)
                     (sales db) (sale_items db) (payments db) (expenses db))
  end.

(** ASCII case folding, for [ilike]. *)
Definition lower_char (c : ascii) : ascii :=
  let n := nat_of_ascii c in
  if (65 <=? n)%nat && (n <=? 90)%nat then ascii_of_nat (n + 32) else c.

Fixpoint lower (s : string) : string :=
  match s with
  | EmptyString => EmptyString
  | String c s' => String (lower_char c) (lower s')
  end.

Definition column_ilike (col : option string) (pattern : string) : bool :=
  match col with Some s => like (lower pattern) (lower s) | None => false end.

Definition get_buyers (db : Session) (skip limit : nat) (search : option string)
  : list BuyerResponse.t :=
  let query :=
    match search with
    | Some (String c q) =>
        let pat := "%" +:+ String c q +:+ "%" in
        List.filter (fun b => column_ilike (Some (Buyer.name b)) pat
                              || column_ilike (Buyer.phone b) pat)
                    (rows (buyers db))
    | _ => rows (buyers db)
    end in
  map (BuyerResponse_of db) (take limit (drop skip (order_by_name query))).

(** *** The ledger *)

Module LedgerEntry.
Record t := mk {
  date : datetime.date;
  type : string;
  description : string;
  debit : Q;
  credit : Q;
  balance : Q
}.
End LedgerEntry.

Module BuyerLedgerResponse.
Record t := mk {
  buyer : BuyerResponse.t;
  entries : list LedgerEntry.t;
  opening_balance : Q;
  closing_balance : Q
}.
End BuyerLedgerResponse.

(** The dictionaries of [transactions] (the ["obj"] entry is never read). *)
Module txn.
Record t := mk {
  date : datetime.date;
  type : string;
  description : string;
  debit : Q;
  credit : Q
}.
End txn.

(** [if start_date: query = query.filter(col >= start_date)] and the same
    for [end_date]. *)
Definition in_range (start_date end_date : option datetime.date)
    (d : datetime.date) : bool :=
  match start_date with Some s => datetime.leb s d | None => true end
  && match end_date with Some e => datetime.leb d e | None => true end.

Definition ledger_sales (db : Session) (buyer_id : Z)
    (start_date end_date : option datetime.date) : list Sale.t :=
  sort_by (fun a b => datetime.leb (Sale.date a) (Sale.date b))
    (List.filter (fun s => in_range start_date end_date (Sale.date s))
       (List.filter (fun s => Sale.buyer_id s =? buyer_id) (rows (sales db)))).

Definition ledger_payments (db : Session) (buyer_id : Z)
    (start_date end_date : option datetime.date) : list Payment.t :=
  sort_by (fun a b => datetime.leb (Payment.date a) (Payment.date b))
    (List.filter (fun p => in_range start_date end_date (Payment.date p))
       (List.filter (fun p => Payment.buyer_id p =? buyer_id)
          (rows (payments db)))).

Definition sale_txn (sale : Sale.t) : txn.t :=
  txn.mk (Sale.date sale) "SALE"
    ("Sale #" +:+ pretty (Sale.id sale) +:+ " - "
       +:+ PaymentType_value (Sale.payment_type sale))
    (Sale.total_amount sale) 0%Q.

Definition payment_txn (payment : Payment.t) : txn.t :=
  txn.mk (Payment.date payment) "PAYMENT"
    ("Payment - " +:+ Payment.payment_method payment)
    0%Q (Payment.amount payment).

(** One turn of [for txn in transactions]: the state is
    [(running_balance, entries)]. *)
Definition ledger_step (st : Q * list LedgerEntry.t) (t : txn.t)
  : Q * list LedgerEntry.t :=
  let running_balance := (fst st + (txn.debit t - txn.credit t))%Q in
  (running_balance,
   (snd st ++ [LedgerEntry.mk (txn.date t) (txn.type t) (txn.description t)
                 (txn.debit t) (txn.credit t) running_balance])%list).

Definition get_buyer_ledger (db : Session) (buyer_id : Z)
    (start_date end_date : option datetime.date)
  : result BuyerLedgerResponse.t :=
  match buyer_by_id db buyer_id with
  | None => Err (HTTPException 404 "Buyer not found")
  | Some buyer =>
      let sales := ledger_sales db buyer_id start_date end_date in
      let payments := ledger_payments db buyer_id start_date end_date in
      let transactions :=
        sort_by (fun a b => datetime.leb (txn.date a) (txn.date b))
          (map sale_txn sales ++ map payment_txn payments)%list in
      let entries :=
        snd (fold_left ledger_step transactions
               (Buyer.opening_balance buyer, [])) in
      let total_sales := sum (map Sale.total_amount sales) in
      let total_payments := sum (map Payment.amount payments) in
      let closing_balance :=
        (Buyer.opening_balance buyer + total_sales - total_payments)%Q in
      Ok (BuyerLedgerResponse.mk (BuyerResponse_of db buyer) entries
            (Buyer.opening_balance buyer) closing_balance)
  end.

(** ** routers/sales.py *)

Module SaleItemCreate.
Record t := mk {
  product_type_id : Z;
  quantity : Q;
  unit : string;
  price_per_unit : Q
}.
End SaleItemCreate.

Module SaleCreate.
Record t := mk {
  date : datetime.date;
  buyer_id : Z;
  payment_type : PaymentType;
  payment_received_now : Q;
  notes : option string;
  sale_items : list SaleItemCreate.t
}.
End SaleCreate.

(** [schemas.SaleUpdate].  Its [date: Optional[Union[date, str]] = None]
    is read with the name [date] bound to [None], which leaves
    [Optional[str]]: the request carries the date as a string, and
    [date] below is the date that string denotes, as the [Date] column
    takes it. *)
Module SaleUpdate.
Record t := mk {
  date : option datetime.date;
  buyer_id : option Z;
  payment_type : option PaymentType;
  payment_received_now : option Q;
  notes : option string
}.
End SaleUpdate.

(** [for item in sale.sale_items: total_amount += item.quantity * item.price_per_unit] *)
Definition items_total (items : list SaleItemCreate.t) : Q :=
  fold_left
    (fun total_amount item =>
       (total_amount
        + SaleItemCreate.quantity item * SaleItemCreate.price_per_unit item)%Q)
    items 0%Q.

(** [for item in sale.sale_items: db.add(models.SaleItem(...))] *)
Definition add_sale_items (sale_id : Z) (items : list SaleItemCreate.t)
    (tb : table SaleItem.t) : table SaleItem.t :=
  fold_left
    (fun tb item =>
       add (fun id =>
              SaleItem.mk id sale_id (SaleItemCreate.product_type_id item)
                (SaleItemCreate.quantity item) (SaleItemCreate.unit item)
                (SaleItemCreate.price_per_unit item)
                (SaleItemCreate.quantity item
                 * SaleItemCreate.price_per_unit item)%Q)
           tb)
    items tb.

Definition create_sale (db : Session) (sale : SaleCreate.t) : Sale.t * Session :=
  let total_amount := items_total (SaleCreate.sale_items sale) in
  let sale_id := next_id (sales db) in
  let db_sale :=
    Sale.mk sale_id (SaleCreate.date sale) (SaleCreate.buyer_id sale)
      (SaleCreate.payment_type sale) (SaleCreate.payment_received_now sale)
      total_amount (SaleCreate.notes sale) in
  let sales' := add (fun _ => db_sale) (sales db) in
  let sale_items' :=
    add_sale_items sale_id (SaleCreate.sale_items sale) (sale_items db) in
  let payments' :=
    if Qltb 0 (SaleCreate.payment_received_now sale) then
      add (fun id =>
             Payment.mk id (SaleCreate.date sale) (SaleCreate.buyer_id sale)
               (SaleCreate.payment_received_now sale) "Cash"
               (Some ("Payment for Sale #" +:+ pretty sale_id)))
          (payments db)
    else payments db in
  (db_sale,
   mk_db (buyers db) (purchases db) sales' sale_items' payments' (expenses db)).

(** [update_data.get(key, current)] for one field. *)
Definition get {A} (field : option A) (current : A) : A :=
  match field with Some v => v | None => current end.

(** [key in update_data] for one field. *)
Definition has_key {A} (field : option A) : bool :=
  match field with Some _ => true | None => false end.

(** A nullable column under [setattr]: a supplied value replaces the
    current one. *)
Definition set_nullable {A} (field : option A) (current : option A) : option A :=
  match field with Some v => Some v | None => current end.

(** [for key, value in update_data.items(): setattr(db_sale, key, value)] *)
Definition Sale_setattrs (u : SaleUpdate.t) (s : Sale.t) : Sale.t :=
  Sale.mk (Sale.id s)
    (get (SaleUpdate.date u) (Sale.date s))
    (get (SaleUpdate.buyer_id u) (Sale.buyer_id s))
    (get (SaleUpdate.payment_type u) (Sale.payment_type s))
    (get (SaleUpdate.payment_received_now u) (Sale.payment_received_now s))
    (Sale.total_amount s)
    (set_nullable (SaleUpdate.notes u) (Sale.notes s)).

(** The [UPDATE ... WHERE id = pk] a commit issues for a changed object:
    the assignments [set] reach the row with that primary key, which
    stays where it stands. *)
Definition update_where {A} (id : A -> Z) (pk : Z) (set : A -> A)
    (tb : table A) : table A :=
  mk_table (map (fun r => if id r =? pk then set r else r) (rows tb))
           (next_id tb).

Definition sale_by_id (db : Session) (sale_id : Z) : option Sale.t :=
  first (fun s => Sale.id s =? sale_id) (rows (sales db)).

Definition update_sale (db : Session) (sale_id : Z) (sale_update : SaleUpdate.t)
  : result (Sale.t * Session) :=
  match sale_by_id db sale_id with
  | None => Err (HTTPException 404 "Sale not found")
  | Some db_sale =>
      Ok (Sale_setattrs sale_update db_sale,
          mk_db (buyers db) (purchases db)
                (update_where Sale.id (Sale.id db_sale)
                   (Sale_setattrs sale_update) (sales db))
                (sale_items db) (payments db) (expenses db))
  end.

(** ** routers/purchases.py *)

Module PurchaseCreate.
Record t := mk {
  date : datetime.date;
  seller_name : string;
  seller_phone : option string;
  pickup_location : option string;
  transport_service : option string;
  transport_cost : Q;
  quantity : Q;
  unit : string;
  price_per_unit : Q;
  notes : option string
}.
End PurchaseCreate.

(** [schemas.PurchaseUpdate]; its [date] is declared and read as that of
    [schemas.SaleUpdate]. *)
Module PurchaseUpdate.
Record t := mk {
  date : option datetime.date;
  seller_name : option string;
  seller_phone : option string;
  pickup_location : option string;
  transport_service : option string;
  transport_cost : option Q;
  quantity : option Q;
  unit : option string;
  price_per_unit : option Q;
  notes : option string
}.
End PurchaseUpdate.

(** [f"Transport cost for purchase from {seller_name}"
     + (f" ({transport_service})" if transport_service else "")];
    an empty service name is falsy. *)
Definition transport_description (seller_name : string)
    (transport_service : option string) : string :=
  "Transport cost for purchase from " +:+ seller_name
  +:+ match transport_service with
      | Some (String c s) => " (" +:+ String c s +:+ ")"
      | _ => ""
      end.

Definition create_purchase (db : Session) (purchase : PurchaseCreate.t)
  : Purchase.t * Session :=
  let total_cost :=
    (PurchaseCreate.quantity purchase * PurchaseCreate.price_per_unit purchase
     + PurchaseCreate.transport_cost purchase)%Q in
  let new_purchase id :=
    Purchase.mk id (PurchaseCreate.date purchase)
      (PurchaseCreate.seller_name purchase)
      (PurchaseCreate.seller_phone purchase)
      (PurchaseCreate.pickup_location purchase) None
      (PurchaseCreate.transport_service purchase)
      (PurchaseCreate.transport_cost purchase)
      (PurchaseCreate.quantity purchase) (PurchaseCreate.unit purchase)
      (PurchaseCreate.price_per_unit purchase) total_cost
      (PurchaseCreate.notes purchase) in
  let db_purchase := new_purchase (next_id (purchases db)) in
  let expenses' :=
    if Qltb 0 (PurchaseCreate.transport_cost purchase) then
      add (fun id =>
             Expense.mk id (PurchaseCreate.date purchase) TRANSPORT
               (PurchaseCreate.transport_cost purchase)
               (Some (transport_description
                        (PurchaseCreate.seller_name purchase)
                        (PurchaseCreate.transport_service purchase))))
          (expenses db)
    else expenses db in
  (db_purchase,
   mk_db (buyers db) (add new_purchase (purchases db)) (sales db)
         (sale_items db) (payments db) expenses').

Definition purchase_by_id (db : Session) (purchase_id : Z) : option Purchase.t :=
  first (fun p => Purchase.id p =? purchase_id) (rows (purchases db)).

(** The three keys that make [update_purchase] recompute the total. *)
Definition touches_total (u : PurchaseUpdate.t) : bool :=
  has_key (PurchaseUpdate.quantity u)
  || has_key (PurchaseUpdate.price_per_unit u)
  || has_key (PurchaseUpdate.transport_cost u).

(** [update_data["total_purchase_cost"] = (quantity * price_per_unit)
    + transport_cost] when one of the three keys is present; the three
    values are the supplied ones, else those of [db_purchase]. *)
Definition new_total (u : PurchaseUpdate.t) (db_purchase : Purchase.t)
  : option Q :=
  let quantity :=
    get (PurchaseUpdate.quantity u) (Purchase.quantity db_purchase) in
  let price_per_unit :=
    get (PurchaseUpdate.price_per_unit u) (Purchase.price_per_unit db_purchase) in
  let transport_cost :=
    get (PurchaseUpdate.transport_cost u) (Purchase.transport_cost db_purchase) in
  if touches_total u
  then Some (quantity * price_per_unit + transport_cost)%Q
  else None.

(** [for key, value in update_data.items(): setattr(db_purchase, key, value)],
    [total] being the entry ["total_purchase_cost"] of [update_data]. *)
Definition Purchase_setattrs (u : PurchaseUpdate.t) (total : option Q)
    (p : Purchase.t) : Purchase.t :=
  Purchase.mk (Purchase.id p)
    (get (PurchaseUpdate.date u) (Purchase.date p))
    (get (PurchaseUpdate.seller_name u) (Purchase.seller_name p))
    (set_nullable (PurchaseUpdate.seller_phone u) (Purchase.seller_phone p))
    (set_nullable (PurchaseUpdate.pickup_location u) (Purchase.pickup_location p))
    (Purchase.scrap_type p)
    (set_nullable (PurchaseUpdate.transport_service u) (Purchase.transport_service p))
    (get (PurchaseUpdate.transport_cost u) (Purchase.transport_cost p))
    (get (PurchaseUpdate.quantity u) (Purchase.quantity p))
    (get (PurchaseUpdate.unit u) (Purchase.unit p))
    (get (PurchaseUpdate.price_per_unit u) (Purchase.price_per_unit p))
    (get total (Purchase.total_purchase_cost p))
    (set_nullable (PurchaseUpdate.notes u) (Purchase.notes p)).

(** The lookup of the expense that mirrors a purchase:
    [filter(Expense.date == date, Expense.category == TRANSPORT,
            Expense.description.like(f"%purchase from {seller_name}%")).first()] *)
Definition linked_expense_filter (date : datetime.date) (seller_name : string)
    (e : Expense.t) : bool :=
  datetime.eqb (Expense.date e) date
  && ExpenseCategory_eqb (Expense.category e) TRANSPORT
  && column_like (Expense.description e)
       ("%purchase from " +:+ seller_name +:+ "%").

Definition find_transport_expense (db : Session) (p : Purchase.t)
  : option Expense.t :=
  first (linked_expense_filter (Purchase.date p) (Purchase.seller_name p))
        (rows (expenses db)).

Definition delete_expense_row (e : Expense.t) (tb : table Expense.t)
  : table Expense.t :=
  mk_table (List.filter (fun r => negb (Expense.id r =? Expense.id e)) (rows tb))
           (next_id tb).

(** The expense linker of [update_purchase], run on the store that
    already holds the updated purchase. *)
Definition sync_transport_expense (db : Session) (db_purchase : Purchase.t)
    (transport_cost : Q) : table Expense.t :=
  let description :=
    transport_description (Purchase.seller_name db_purchase)
      (Purchase.transport_service db_purchase) in
  match find_transport_expense db db_purchase with
  | Some existing_expense =>
      if Qltb 0 transport_cost then
        update_where Expense.id (Expense.id existing_expense)
          (fun e => Expense.mk (Expense.id e) (Expense.date e)
                      (Expense.category e) transport_cost (Some description))
          (expenses db)
      else delete_expense_row existing_expense (expenses db)
  | None =>
      if Qltb 0 transport_cost then
        add (fun id =>
               Expense.mk id (Purchase.date db_purchase) TRANSPORT
                 transport_cost (Some description))
            (expenses db)
      else expenses db
  end.

Definition update_purchase (db : Session) (purchase_id : Z)
    (purchase_update : PurchaseUpdate.t) : result (Purchase.t * Session) :=
  match purchase_by_id db purchase_id with
  | None => Err (HTTPException 404 "Purchase not found")
  | Some old =>
      let transport_cost_changed :=
        has_key (PurchaseUpdate.transport_cost purchase_update) in
      let transport_cost :=
        get (PurchaseUpdate.transport_cost purchase_update)
            (Purchase.transport_cost old) in
      let total := new_total purchase_update old in
      let db_purchase := Purchase_setattrs purchase_update total old in
      let db1 :=
        mk_db (buyers db)
              (update_where Purchase.id (Purchase.id old)
                 (Purchase_setattrs purchase_update total) (purchases db))
              (sales db) (sale_items db) (payments db) (expenses db) in
      let expenses' :=
        if transport_cost_changed
        then sync_transport_expense db1 db_purchase transport_cost
        else expenses db1 in
      Ok (db_purchase,
          mk_db (buyers db1) (purchases db1) (sales db1) (sale_items db1)
                (payments db1) expenses')
  end.

(** ** routers/analytics.py *)

(** [Query(default=d, ge=lo, le=hi)] on an integer parameter: the default
    when the request leaves it out, a validation error (status 422) when
    the value is out of range. *)
Definition Query (default ge le : Z) (param : option Z) : result Z :=
  match param with
  | None => Ok default
  | Some v =>
      if (ge <=? v) && (v <=? le) then Ok v
      else Err (HTTPException 422 "Unprocessable Entity")
  end.

Module DashboardSummary.
Record t := mk {
  today_purchases : Q;
  today_sales : Q;
  today_expenses : Q;
  total_purchases : Q;
  total_sales : Q;
  total_expenses : Q;
  total_profit : Q;
  total_receivable : Q
}.
End DashboardSummary.

(** [db.query(func.sum(col)).filter(date == today).scalar() or 0]: the
    sum over no row is [NULL], which [or 0] turns into [0]. *)
Definition sum_on {A} (date : A -> datetime.date) (amount : A -> Q)
    (today : datetime.date) (l : list A) : Q :=
  sum (map amount (List.filter (fun r => datetime.eqb (date r) today) l)).

Definition get_dashboard_summary (db : Session) (today : datetime.date)
  : DashboardSummary.t :=
  let today_purchases :=
    sum_on Purchase.date Purchase.total_purchase_cost today (rows (purchases db)) in
  let today_sales :=
    sum_on Sale.date Sale.total_amount today (rows (sales db)) in
  let today_expenses :=
    sum_on Expense.date Expense.amount today (rows (expenses db)) in
  let total_purchases :=
    sum (map Purchase.total_purchase_cost (rows (purchases db))) in
  let total_sales := sum (map Sale.total_amount (rows (sales db))) in
  let total_expenses := sum (map Expense.amount (rows (expenses db))) in
  let total_profit := (total_sales - total_purchases - total_expenses)%Q in
  let total_receivable :=
    fold_left
      (fun total_receivable buyer =>
         let total_sales_buyer :=
           sum (map Sale.total_amount (Buyer_sales db buyer)) in
         let total_payments_buyer :=
           sum (map Payment.amount (Buyer_payments db buyer)) in
         (total_receivable
          + (Buyer.opening_balance buyer + total_sales_buyer
             - total_payments_buyer))%Q)
      (rows (buyers db)) 0%Q in
  DashboardSummary.mk today_purchases today_sales today_expenses
    total_purchases total_sales total_expenses total_profit total_receivable.

(** *** Monthly statistics *)

Module MonthlyStats.
Record t := mk {
  month : string;
  purchases : Q;
  sales : Q;
  expenses : Q;
  profit : Q
}.
End MonthlyStats.

(** The loop that fills [month_list]: [n] turns left, [curr] the month
    at hand. *)
Fixpoint month_list_loop (n : nat) (curr : datetime.date)
    (month_list : list (Z * Z)) : list (Z * Z) :=
  match n with
  | O => month_list
  | S n' =>
      let month_list' :=
        (month_list ++ [(datetime.year curr, datetime.month curr)])%list in
      let curr' :=
        if datetime.month curr =? 1
        then datetime.replace_year_month curr (datetime.year curr - 1) 12
        else datetime.replace_month curr (datetime.month curr - 1) in
      month_list_loop n' curr' month_list'
  end.

(** [month_list] after [month_list.reverse()]. *)
Definition month_list (end_date : datetime.date) (months : Z) : list (Z * Z) :=
  reverse (month_list_loop (Z.to_nat months) (datetime.replace_day end_date 1) []).

(** [f"{m:02d}"] *)
Definition fmt_02d (m : Z) : string :=
  if (0 <=? m) && (m <? 10) then "0" +:+ pretty m else pretty m.

(** [f"{year}-{month:02d}"] *)
Definition month_key (year month : Z) : string :=
  pretty year +:+ "-" +:+ fmt_02d month.

(** [extract("year", col) == year] and [extract("month", col) == month]:
    [d] falls in the given year and month. *)
Definition in_month (year month : Z) (d : datetime.date) : bool :=
  (datetime.year d =? year) && (datetime.month d =? month).

(** One grouped query: rows on or after [start_date], grouped by the year
    and the month of their date, with the sum of each group. *)
Definition monthly_totals {A} (date : A -> datetime.date) (amount : A -> Q)
    (start_date : datetime.date) (l : list A) : list (Z * Z * Q) :=
  let kept := List.filter (fun r => datetime.leb start_date (date r)) l in
  map (fun ym : Z * Z =>
         (ym,
          sum (map amount
                 (List.filter (fun r => in_month (fst ym) (snd ym) (date r))
                    kept))))
      (remove_dups
         (map (fun r => (datetime.year (date r), datetime.month (date r))) kept)).

(** [{f"{int(r.year)}-{int(r.month):02d}": r.total for r in results}] *)
Definition results_dict (results : list (Z * Z * Q)) : gmap string Q :=
  fold_left (fun d r => <[month_key (fst (fst r)) (snd (fst r)) := snd r]> d)
            results ∅.

(** [strftime("%b")] in the C locale. *)
Definition month_abbr (m : Z) : string :=
  match m with
  | 1 => "Jan" | 2 => "Feb" | 3 => "Mar" | 4 => "Apr" | 5 => "May" | 6 => "Jun"
  | 7 => "Jul" | 8 => "Aug" | 9 => "Sep" | 10 => "Oct" | 11 => "Nov"
  | 12 => "Dec" | _ => ""
  end.

(** [date(year, month, 1).strftime("%b %Y")] *)
Definition strftime_b_Y (year month : Z) : string :=
  month_abbr month +:+ " " +:+ pretty year.

(** [d.get(key, 0)] *)
Definition dict_get (d : gmap string Q) (key : string) : Q :=
  default 0%Q (d !! key).

(** The body of [for year, month in month_list]. *)
Definition monthly_entry (purchase_dict sales_dict expense_dict : gmap string Q)
    (ym : Z * Z) : MonthlyStats.t :=
  let month_key := month_key (fst ym) (snd ym) in
  let purchases := dict_get purchase_dict month_key in
  let sales := dict_get sales_dict month_key in
  let expenses := dict_get expense_dict month_key in
  let profit := (sales - purchases - expenses)%Q in
  MonthlyStats.mk (strftime_b_Y (fst ym) (snd ym))
    purchases sales expenses profit.

(** [today] is the value of [date.today()]; [month_list[0]] raises
    [IndexError] on an empty list. *)
Definition get_monthly_stats (db : Session) (today : datetime.date) (months : Z)
  : result (list MonthlyStats.t) :=
  let month_list := month_list today months in
  match month_list with
  | [] => Err IndexError
  | (y0, m0) :: _ =>
      let start_date := datetime.mkdate y0 m0 1 in
      let purchase_dict :=
        results_dict
          (monthly_totals Purchase.date Purchase.total_purchase_cost
             start_date (rows (purchases db))) in
      let sales_dict :=
        results_dict
          (monthly_totals Sale.date Sale.total_amount start_date
             (rows (sales db))) in
      let expense_dict :=
        results_dict
          (monthly_totals Expense.date Expense.amount start_date
             (rows (expenses db))) in
      Ok (map (monthly_entry purchase_dict sales_dict expense_dict) month_list)
  end.

(** [GET /api/analytics/monthly-stats?months=...], with
    [months: int = Query(default=12, ge=1, le=24)]; [today] is
    [date.today()]. *)
Definition monthly_stats_route (db : Session) (today : datetime.date)
    (months : option Z) : result (list MonthlyStats.t) :=
  match Query 12 1 24 months with
  | Ok months => get_monthly_stats db today months
  | Err e => Err e
  end.

(** *** Top buyers *)

Module TopBuyerStats.
Record t := mk { buyer_name : string; outstanding_amount : Q }.
End TopBuyerStats.

Definition buyer_stats (db : Session) : list TopBuyerStats.t :=
  flat_map
    (fun buyer =>
       let total_sales := sum (map Sale.total_amount (Buyer_sales db buyer)) in
       let total_payments :=
         sum (map Payment.amount (Buyer_payments db buyer)) in
       let outstanding :=
         (Buyer.opening_balance buyer + total_sales - total_payments)%Q in
       if Qltb 0 outstanding
       then [TopBuyerStats.mk (Buyer.name buyer) outstanding]
       else [])
    (rows (buyers db)).

(** [buyer_stats.sort(key=lambda x: x["outstanding_amount"], reverse=True)] *)
Definition sort_outstanding_desc (l : list TopBuyerStats.t) : list TopBuyerStats.t :=
  sort_by (fun a b => Qle_bool (TopBuyerStats.outstanding_amount b)
                               (TopBuyerStats.outstanding_amount a)) l.

Definition get_top_buyers (db : Session) (limit : Z) : list TopBuyerStats.t :=
  slice_to limit (sort_outstanding_desc (buyer_stats db)).

(** [GET /api/analytics/top-buyers?limit=...], with
    [limit: int = Query(default=10, ge=1, le=50)]. *)
Definition top_buyers_route (db : Session) (limit : option Z)
  : result (list TopBuyerStats.t) :=
  match Query 10 1 50 limit with
  | Ok limit => Ok (get_top_buyers db limit)
  | Err e => Err e
  end.

(** Orders of a ranking by [outstanding_amount]: every entry at least as
    large as, or larger than, all entries after it. *)
Definition descending (l : list TopBuyerStats.t) : Prop :=
  StronglySorted
    (fun a b => (TopBuyerStats.outstanding_amount b
                 <= TopBuyerStats.outstanding_amount a)%Q) l.

Definition strictly_descending (l : list TopBuyerStats.t) : Prop :=
  StronglySorted
    (fun a b => (TopBuyerStats.outstanding_amount b
                 < TopBuyerStats.outstanding_amount a)%Q) l.

(** ** The other handlers of the routers *)

(** [query.offset(skip).limit(limit)] *)
Definition page {A} (skip limit : nat) (l : list A) : list A :=
  take limit (drop skip l).

(** *** routers/buyers.py, continued *)

Module BuyerCreate.
Record t := mk {
  name : string;
  phone : option string;
  address : option string;
  notes : option string;
  opening_balance : Q
}.
End BuyerCreate.

Module BuyerUpdate.
Record t := mk {
  name : option string;
  phone : option string;
  address : option string;
  notes : option string;
  opening_balance : option Q
}.
End BuyerUpdate.

Definition create_buyer (db : Session) (buyer : BuyerCreate.t)
  : Buyer.t * Session :=
  let new_buyer id :=
    Buyer.mk id (BuyerCreate.name buyer) (BuyerCreate.phone buyer)
      (BuyerCreate.address buyer) (BuyerCreate.notes buyer)
      (BuyerCreate.opening_balance buyer) in
  (new_buyer (next_id (buyers db)),
   mk_db (add new_buyer (buyers db)) (purchases db) (sales db)
         (sale_items db) (payments db) (expenses db)).

Definition Buyer_setattrs (u : BuyerUpdate.t) (b : Buyer.t) : Buyer.t :=
  Buyer.mk (Buyer.id b)
    (get (BuyerUpdate.name u) (Buyer.name b))
    (set_nullable (BuyerUpdate.phone u) (Buyer.phone b))
    (set_nullable (BuyerUpdate.address u) (Buyer.address b))
    (set_nullable (BuyerUpdate.notes u) (Buyer.notes b))
    (get (BuyerUpdate.opening_balance u) (Buyer.opening_balance b)).

Definition update_buyer (db : Session) (buyer_id : Z) (buyer_update : BuyerUpdate.t)
  : result (Buyer.t * Session) :=
  match buyer_by_id db buyer_id with
  | None => Err (HTTPException 404 "Buyer not found")
  | Some db_buyer =>
      Ok (Buyer_setattrs buyer_update db_buyer,
          mk_db (update_where Buyer.id (Buyer.id db_buyer)
                   (Buyer_setattrs buyer_update) (buyers db))
                (purchases db) (sales db) (sale_items db) (payments db)
                (expenses db))
  end.

Module PaymentCreate.
Record t := mk {
  date : datetime.date;
  buyer_id : Z;
  amount : Q;
  payment_method : string;
  notes : option string
}.
End PaymentCreate.

(** The payment is entered for the buyer of the path; the [buyer_id] of
    the body is not read. *)
Definition add_payment (db : Session) (buyer_id : Z) (payment : PaymentCreate.t)
  : result (Payment.t * Session) :=
  match buyer_by_id db buyer_id with
  | None => Err (HTTPException 404 "Buyer not found")
  | Some _ =>
      let db_payment id :=
        Payment.mk id (PaymentCreate.date payment) buyer_id
          (PaymentCreate.amount payment) (PaymentCreate.payment_method payment)
          (PaymentCreate.notes payment) in
      Ok (db_payment (next_id (payments db)),
          mk_db (buyers db) (purchases db) (sales db) (sale_items db)
                (add db_payment (payments db)) (expenses db))
  end.

Definition get_buyer_payments (db : Session) (buyer_id : Z)
  : result (list Payment.t) :=
  match buyer_by_id db buyer_id with
  | None => Err (HTTPException 404 "Buyer not found")
  | Some _ =>
      Ok (sort_by (fun a b => datetime.leb (Payment.date b) (Payment.date a))
            (List.filter (fun p => Payment.buyer_id p =? buyer_id)
               (rows (payments db))))
  end.

(** *** routers/sales.py, continued *)

Definition PaymentType_eqb (a b : PaymentType) : bool :=
  match a, b with
  | PAID, PAID | PARTIAL, PARTIAL | CREDIT, CREDIT => true
  | _, _ => false
  end.

(** The filters of [get_sales]; [if buyer_id:] is false for [None] and
    for [0]. *)
Definition sales_filter (start_date end_date : option datetime.date)
    (buyer_id : option Z) (payment_type : option PaymentType) (s : Sale.t)
  : bool :=
  in_range start_date end_date (Sale.date s)
  && match buyer_id with
     | Some b => if b =? 0 then true else Sale.buyer_id s =? b
     | None => true
     end
  && match payment_type with
     | Some t => PaymentType_eqb (Sale.payment_type s) t
     | None => true
     end.

Definition get_sales (db : Session) (skip limit : nat)
    (start_date end_date : option datetime.date) (buyer_id : option Z)
    (payment_type : option PaymentType) : list Sale.t :=
  page skip limit
    (sort_by (fun a b => datetime.leb (Sale.date b) (Sale.date a))
       (List.filter (sales_filter start_date end_date buyer_id payment_type)
          (rows (sales db)))).

Definition get_sale (db : Session) (sale_id : Z) : result Sale.t :=
  match sale_by_id db sale_id with
  | None => Err (HTTPException 404 "Sale not found")
  | Some sale => Ok sale
  end.

(** [db.delete(db_sale)]: the relationship [sale_items] cascades
    ([cascade="all, delete-orphan"]), so the items of the sale go with
    it. *)
Definition delete_sale (db : Session) (sale_id : Z) : result (string * Session) :=
  match sale_by_id db sale_id with
  | None => Err (HTTPException 404 "Sale not found")
  | Some db_sale =>
      Ok ("Sale deleted successfully",
          mk_db (buyers db) (purchases db)
                (mk_table
                   (List.filter (fun r => negb (Sale.id r =? Sale.id db_sale))
                      (rows (sales db)))
                   (next_id (sales db)))
                (mk_table
                   (List.filter
                      (fun r => negb (SaleItem.sale_id r =? Sale.id db_sale))
                      (rows (sale_items db)))
                   (next_id (sale_items db)))
                (payments db) (expenses db))
  end.

Definition get_today_sales_stats (db : Session) (today : datetime.date) : Q :=
  sum_on Sale.date Sale.total_amount today (rows (sales db)).

(** *** routers/purchases.py, continued *)

Definition get_purchases (db : Session) (skip limit : nat)
    (start_date end_date : option datetime.date) (seller_name : option string)
  : list Purchase.t :=
  page skip limit
    (sort_by (fun a b => datetime.leb (Purchase.date b) (Purchase.date a))
       (List.filter
          (fun p =>
             in_range start_date end_date (Purchase.date p)
             && match seller_name with
                | Some (String c n) =>
                    column_ilike (Some (Purchase.seller_name p))
                      ("%" +:+ String c n +:+ "%")
                | _ => true
                end)
          (rows (purchases db)))).

Definition get_purchase (db : Session) (purchase_id : Z) : result Purchase.t :=
  match purchase_by_id db purchase_id with
  | None => Err (HTTPException 404 "Purchase not found")
  | Some purchase => Ok purchase
  end.

Definition delete_purchase (db : Session) (purchase_id : Z)
  : result (string * Session) :=
  match purchase_by_id db purchase_id with
  | None => Err (HTTPException 404 "Purchase not found")
  | Some db_purchase =>
      let expenses' :=
        if Qltb 0 (Purchase.transport_cost db_purchase) then
          match find_transport_expense db db_purchase with
          | Some existing_expense =>
              delete_expense_row existing_expense (expenses db)
          | None => expenses db
          end
        else expenses db in
      Ok ("Purchase deleted successfully",
          mk_db (buyers db)
                (mk_table
                   (List.filter
                      (fun r => negb (Purchase.id r =? Purchase.id db_purchase))
                      (rows (purchases db)))
                   (next_id (purchases db)))
                (sales db) (sale_items db) (payments db) expenses')
  end.

Definition get_today_purchases_stats (db : Session) (today : datetime.date) : Q :=
  sum_on Purchase.date Purchase.total_purchase_cost today (rows (purchases db)).

(** *** routers/expenses.py *)

Module ExpenseCreate.
Record t := mk {
  date : datetime.date;
  category : ExpenseCategory;
  amount : Q;
  description : option string
}.
End ExpenseCreate.

(** [schemas.ExpenseUpdate].  Its class body reads
    [date: Optional[date] = None]: the assignment binds the name [date]
    to [None] before the annotation is read, so the type of the field is
    [Optional[None]] and it admits no date.  The handler sees the other
    three fields; what becomes of a request that carries a date is
    [update_expense_route] below. *)
Module ExpenseUpdate.
Record t := mk {
  category : option ExpenseCategory;
  amount : option Q;
  description : option string
}.
End ExpenseUpdate.

(** The body of [PUT /api/expenses/{expense_id}] as it is sent. *)
Module ExpenseUpdateBody.
Record t := mk {
  date : option datetime.date;
  category : option ExpenseCategory;
  amount : option Q;
  description : option string
}.
End ExpenseUpdateBody.

Definition expense_by_id (db : Session) (expense_id : Z) : option Expense.t :=
  first (fun e => Expense.id e =? expense_id) (rows (expenses db)).

Definition get_expenses (db : Session) (skip limit : nat)
    (start_date end_date : option datetime.date)
    (category : option ExpenseCategory) : list Expense.t :=
  page skip limit
    (sort_by (fun a b => datetime.leb (Expense.date b) (Expense.date a))
       (List.filter
          (fun e =>
             in_range start_date end_date (Expense.date e)
             && match category with
                | Some c => ExpenseCategory_eqb (Expense.category e) c
                | None => true
                end)
          (rows (expenses db)))).

Definition get_expense (db : Session) (expense_id : Z) : result Expense.t :=
  match expense_by_id db expense_id with
  | None => Err (HTTPException 404 "Expense not found")
  | Some expense => Ok expense
  end.

Definition create_expense (db : Session) (expense : ExpenseCreate.t)
  : Expense.t * Session :=
  let db_expense id :=
    Expense.mk id (ExpenseCreate.date expense) (ExpenseCreate.category expense)
      (ExpenseCreate.amount expense) (ExpenseCreate.description expense) in
  (db_expense (next_id (expenses db)),
   mk_db (buyers db) (purchases db) (sales db) (sale_items db) (payments db)
         (add db_expense (expenses db))).

Definition Expense_setattrs (u : ExpenseUpdate.t) (e : Expense.t) : Expense.t :=
  Expense.mk (Expense.id e)
    (Expense.date e)
    (get (ExpenseUpdate.category u) (Expense.category e))
    (get (ExpenseUpdate.amount u) (Expense.amount e))
    (set_nullable (ExpenseUpdate.description u) (Expense.description e)).

Definition update_expense (db : Session) (expense_id : Z)
    (expense_update : ExpenseUpdate.t) : result (Expense.t * Session) :=
  match expense_by_id db expense_id with
  | None => Err (HTTPException 404 "Expense not found")
  | Some db_expense =>
      Ok (Expense_setattrs expense_update db_expense,
          mk_db (buyers db) (purchases db) (sales db) (sale_items db)
                (payments db)
                (update_where Expense.id (Expense.id db_expense)
                   (Expense_setattrs expense_update) (expenses db)))
  end.

(** The route with its validation: a body that carries a date does not
    pass [schemas.ExpenseUpdate] and is answered with status 422 before
    the handler is called. *)
Definition update_expense_route (db : Session) (expense_id : Z)
    (body : ExpenseUpdateBody.t) : result (Expense.t * Session) :=
  match ExpenseUpdateBody.date body with
  | Some _ => Err (HTTPException 422 "Unprocessable Entity")
  | None =>
      update_expense db expense_id
        (ExpenseUpdate.mk (ExpenseUpdateBody.category body)
           (ExpenseUpdateBody.amount body)
           (ExpenseUpdateBody.description body))
  end.

Definition delete_expense (db : Session) (expense_id : Z)
  : result (string * Session) :=
  match expense_by_id db expense_id with
  | None => Err (HTTPException 404 "Expense not found")
  | Some db_expense =>
      Ok ("Expense deleted successfully",
          mk_db (buyers db) (purchases db) (sales db) (sale_items db)
                (payments db) (delete_expense_row db_expense (expenses db)))
  end.

Definition get_today_expenses_stats (db : Session) (today : datetime.date) : Q :=
  sum_on Expense.date Expense.amount today (rows (expenses db)).

Definition ExpenseCategory_value (c : ExpenseCategory) : string :=
  match c with
  | RENT => "Rent" | ELECTRICITY => "Electricity" | WATER => "Water"
  | LABOUR => "Labour" | TRANSPORT => "Transport" | TAX => "Tax"
  | OTHER => "Other"
  end.

#[global] Instance ExpenseCategory_eq_dec : EqDecision ExpenseCategory.
Proof. solve_decision. Defined.

(** The grouped query of [get_expenses_by_category]: one row per category
    that occurs among the expenses in range, with the sum of its
    amounts. *)
Definition category_totals (db : Session)
    (start_date end_date : option datetime.date)
  : list (ExpenseCategory * Q) :=
  let kept :=
    List.filter (fun e => in_range start_date end_date (Expense.date e))
      (rows (expenses db)) in
  map (fun c =>
         (c, sum (map Expense.amount
                    (List.filter
                       (fun e => ExpenseCategory_eqb (Expense.category e) c)
                       kept))))
      (remove_dups (map Expense.category kept)).

Definition get_expenses_by_category (db : Session)
    (start_date end_date : option datetime.date) : list (string * Q) :=
  map (fun r => (ExpenseCategory_value (fst r), snd r))
      (category_totals db start_date end_date).

(** *** routers/product_types.py *)

Module ProductType.
Record t := mk {
  id : Z;
  name : string;
  description : option string
}.
End ProductType.

(** [schemas.ProductTypeCreate], the body of create and of update. *)
Module ProductTypeCreate.
Record t := mk {
  name : string;
  description : option string
}.
End ProductTypeCreate.

(** The store with its table of product types, which the handlers above
    never read. *)
Record Catalog := mk_catalog {
  product_types : table ProductType.t;
  session : Session
}.

Definition product_type_by_id (cat : Catalog) (product_type_id : Z)
  : option ProductType.t :=
  first (fun t => ProductType.id t =? product_type_id)
        (rows (product_types cat)).

Definition product_type_by_name (cat : Catalog) (name : string)
  : option ProductType.t :=
  first (fun t => String.eqb (ProductType.name t) name)
        (rows (product_types cat)).

Definition get_product_types (cat : Catalog) : list ProductType.t :=
  sort_by (fun a b => String.leb (ProductType.name a) (ProductType.name b))
          (rows (product_types cat)).

Definition get_product_type (cat : Catalog) (product_type_id : Z)
  : result ProductType.t :=
  match product_type_by_id cat product_type_id with
  | None => Err (HTTPException 404 "Product type not found")
  | Some product_type => Ok product_type
  end.

Definition create_product_type (cat : Catalog) (product_type : ProductTypeCreate.t)
  : result (ProductType.t * Catalog) :=
  match product_type_by_name cat (ProductTypeCreate.name product_type) with
  | Some _ => Err (HTTPException 400 "Product type already exists")
  | None =>
      let db_product_type id :=
        ProductType.mk id (ProductTypeCreate.name product_type)
          (ProductTypeCreate.description product_type) in
      Ok (db_product_type (next_id (product_types cat)),
          mk_catalog (add db_product_type (product_types cat)) (session cat))
  end.

Definition update_product_type (cat : Catalog) (product_type_id : Z)
    (product_type_update : ProductTypeCreate.t)
  : result (ProductType.t * Catalog) :=
  match product_type_by_id cat product_type_id with
  | None => Err (HTTPException 404 "Product type not found")
  | Some db_product_type =>
      let set t :=
        ProductType.mk (ProductType.id t)
          (ProductTypeCreate.name product_type_update)
          (ProductTypeCreate.description product_type_update) in
      let updated :=
        Ok (set db_product_type,
            mk_catalog
              (update_where ProductType.id (ProductType.id db_product_type)
                 set (product_types cat))
              (session cat)) in
      if negb (String.eqb (ProductTypeCreate.name product_type_update)
                 (ProductType.name db_product_type))
      then
        match product_type_by_name cat
                (ProductTypeCreate.name product_type_update) with
        | Some _ => Err (HTTPException 400 "Product type name already exists")
        | None => updated
        end
      else updated
  end.

(** The relationship [product_type.sale_items]. *)
Definition ProductType_sale_items (cat : Catalog) (t : ProductType.t)
  : list SaleItem.t :=
  List.filter (fun i => SaleItem.product_type_id i =? ProductType.id t)
              (rows (sale_items (session cat))).

Definition delete_product_type (cat : Catalog) (product_type_id : Z)
  : result (string * Catalog) :=
  match product_type_by_id cat product_type_id with
  | None => Err (HTTPException 404 "Product type not found")
  | Some db_product_type =>
      if is_nonempty (ProductType_sale_items cat db_product_type)
      then Err (HTTPException 400
                  "Cannot delete product type that is used in sales")
      else
        Ok ("Product type deleted successfully",
            mk_catalog
              (mk_table
                 (List.filter
                    (fun r => negb (ProductType.id r
                                    =? ProductType.id db_product_type))
                    (rows (product_types cat)))
                 (next_id (product_types cat)))
              (session cat))
  end.

(** *** seed_data.py *)

Definition default_products : list (string * string) :=
  [("Ply", "Plywood sheets"); ("Lafa", "Lafa wood pieces");
   ("Jalav", "Jalav wood"); ("Sheet", "Wood sheets");
   ("Chavi", "Chavi wood"); ("Khili", "Khili wood pieces")].

(** One turn of [for product_data in default_products]. *)
Definition seed_product (cat : Catalog) (product_data : string * string)
  : Catalog :=
  match product_type_by_name cat (fst product_data) with
  | Some _ => cat
  | None =>
      mk_catalog
        (add (fun id => ProductType.mk id (fst product_data)
                          (Some (snd product_data)))
             (product_types cat))
        (session cat)
  end.

Definition seed_product_types (cat : Catalog) : Catalog :=
  fold_left seed_product default_products cat.

(** *** routers/analytics.py, continued *)

Module ProductSales.
Record t := mk {
  product_name : string;
  total_quantity : Q;
  total_amount : Q
}.
End ProductSales.

(** The two inner joins of [get_product_sales_stats]: one row for every
    product type, every sale item of that type and every sale the item
    belongs to. *)
Definition product_sales_join (cat : Catalog)
  : list (ProductType.t * SaleItem.t * Sale.t) :=
  flat_map
    (fun pt =>
       flat_map
         (fun si =>
            map (fun s => (pt, si, s))
                (List.filter (fun s => SaleItem.sale_id si =? Sale.id s)
                             (rows (sales (session cat)))))
         (List.filter
            (fun si => ProductType.id pt =? SaleItem.product_type_id si)
            (rows (sale_items (session cat)))))
    (rows (product_types cat)).

(** [group_by(models.ProductType.name)]: one row per name among the
    joined rows in range, with the sums of the quantities and of the
    prices of its rows. *)
Definition get_product_sales_stats (cat : Catalog)
    (start_date end_date : option datetime.date) : list ProductSales.t :=
  let query :=
    List.filter (fun r => in_range start_date end_date (Sale.date (snd r)))
                (product_sales_join cat) in
  map (fun name =>
         let group :=
           List.filter
             (fun r => String.eqb (ProductType.name (fst (fst r))) name)
             query in
         ProductSales.mk name
           (sum (map (fun r => SaleItem.quantity (snd (fst r))) group))
           (sum (map (fun r => SaleItem.total_price (snd (fst r))) group)))
      (remove_dups (map (fun r => ProductType.name (fst (fst r))) query)).

(** ** The sums of the specification *)

(** [Sigma f l] is the sum of [f x] over the rows [x] of [l], the
    mathematical sum the specification writes with a capital sigma. *)
Fixpoint Sigma {A} (f : A -> Q) (l : list A) : Q :=
  match l with
  | [] => 0%Q
  | x :: l' => (f x + Sigma f l')%Q
  end.

(** What one ledger transaction adds to the running balance. *)
Definition net (t : txn.t) : Q := (txn.debit t - txn.credit t)%Q.

(** [contains needle s]: [needle] occurs in [s] as a run of consecutive
    characters. *)
Definition contains (needle s : string) : Prop :=
  exists pre post : string, s = pre +:+ needle +:+ post.

(** The same as a test: [needle] is a prefix of [s], or occurs further on. *)
Fixpoint starts_with (needle s : string) : bool :=
  match needle with
  | EmptyString => true
  | String c needle' =>
      match s with
      | EmptyString => false
      | String d s' => Ascii.eqb c d && starts_with needle' s'
      end
  end.

Fixpoint containsb (needle s : string) : bool :=
  starts_with needle s
  || match s with EmptyString => false | String _ s' => containsb needle s' end.

(** No character of [s] is a wildcard of [LIKE]. *)
Fixpoint wildcard_free (s : string) : bool :=
  match s with
  | EmptyString => true
  | String c s' =>
      negb (Ascii.eqb c "%"%char) && negb (Ascii.eqb c "_"%char)
      && wildcard_free s'
  end.

(** What links a requested item to the row stored for it. *)
Definition stored_as (sale_id : Z) (item : SaleItemCreate.t) (row : SaleItem.t)
  : Prop :=
  SaleItem.sale_id row = sale_id
  /\ SaleItem.product_type_id row = SaleItemCreate.product_type_id item
  /\ SaleItem.quantity row = SaleItemCreate.quantity item
  /\ SaleItem.unit row = SaleItemCreate.unit item
  /\ SaleItem.price_per_unit row = SaleItemCreate.price_per_unit item
  /\ SaleItem.total_price row
     = (SaleItemCreate.quantity item * SaleItemCreate.price_per_unit item)%Q.

(** ** Calendar months *)

(** Calendar months counted from month 1 of year 0, and back. *)
Definition month_index (year month : Z) : Z := 12 * year + (month - 1).

Definition month_of_index (i : Z) : Z * Z := (i / 12, i mod 12 + 1).

(** What every [datetime.date] object satisfies (the length of the month
    apart). *)
Definition date_ok (d : datetime.date) : bool :=
  (1 <=? datetime.year d) && (datetime.year d <=? 9999)
  && (1 <=? datetime.month d) && (datetime.month d <=? 12)
  && (1 <=? datetime.day d) && (datetime.day d <=? 31).

Definition dates_ok (db : Session) : bool :=
  forallb (fun r => date_ok (Purchase.date r)) (rows (purchases db))
  && forallb (fun r => date_ok (Sale.date r)) (rows (sales db))
  && forallb (fun r => date_ok (Expense.date r)) (rows (expenses db)).

(** The sum of [amount] over the rows of [l] dated in the given month. *)
Definition month_total {A} (date : A -> datetime.date) (amount : A -> Q)
    (ym : Z * Z) (l : list A) : Q :=
  Sigma amount (List.filter (fun r => in_month (fst ym) (snd ym) (date r)) l).

(** ** Sample stores *)

Definition empty_table {A} : table A := mk_table [] 1.

Definition empty_db : Session :=
  mk_db empty_table empty_table empty_table empty_table empty_table empty_table.

(** One buyer with an opening balance of 100, a sale of 500 in January,
    a payment of 200 in February and a sale of 56 in March 2024. *)
Definition ravi : Buyer.t := Buyer.mk 1 "Ravi" None None None 100%Q.

Definition ledger_db : Session :=
  mk_db (mk_table [ravi] 2) empty_table
    (mk_table [Sale.mk 1 (datetime.mkdate 2024 1 10) 1 CREDIT 0%Q 500%Q None;
               Sale.mk 2 (datetime.mkdate 2024 3 5) 1 CREDIT 0%Q 56%Q None] 3)
    empty_table
    (mk_table [Payment.mk 1 (datetime.mkdate 2024 2 1) 1 200%Q "Cash" None] 2)
    empty_table.

(** The purchase of the specification: 10 kg at 5 from Acme, transport
    cost 50, entered into an empty store. *)
Definition acme_purchase : PurchaseCreate.t :=
  PurchaseCreate.mk (datetime.mkdate 2024 3 5) "Acme" None None None
    50%Q 10%Q "kg" 5%Q None.

Definition acme_db : Session := snd (create_purchase empty_db acme_purchase).

(** An update that supplies [transport_cost] alone. *)
Definition only_transport_cost (c : Q) : PurchaseUpdate.t :=
  PurchaseUpdate.mk None None None None None (Some c) None None None None.

(** Two purchases of one day: the first from "AXB" with a transport cost
    of 40, the second from "A_B" without transport cost. *)
Definition wildcard_db : Session :=
  snd (create_purchase
         (snd (create_purchase empty_db
                 (PurchaseCreate.mk (datetime.mkdate 2024 3 5) "AXB" None None
                    None 40%Q 10%Q "kg" 5%Q None)))
         (PurchaseCreate.mk (datetime.mkdate 2024 3 5) "A_B" None None None
            0%Q 10%Q "kg" 5%Q None)).

(** The sale of the specification: 10 units at 5 and 2 units at 3 for
    Ravi, 20 received at once. *)
Definition ravi_sale : SaleCreate.t :=
  SaleCreate.mk (datetime.mkdate 2024 3 5) 1 PARTIAL 20%Q None
    [SaleItemCreate.mk 1 10%Q "kg" 5%Q; SaleItemCreate.mk 2 2%Q "kg" 3%Q].

(** Two buyers who owe the same amount, and one who owes nothing. *)
Definition tie_db : Session :=
  mk_db (mk_table [Buyer.mk 1 "Asha" None None None 100%Q;
                   Buyer.mk 2 "Bina" None None None 100%Q;
                   Buyer.mk 3 "Chetan" None None None 0%Q] 4)
        empty_table empty_table empty_table empty_table empty_table.

(** ** Primary keys *)

(** The primary keys of a table are pairwise distinct and below the next
    value of its sequence. *)
Definition table_ok {A} (id : A -> Z) (tb : table A) : Prop :=
  NoDup (map id (rows tb)) /\ Forall (fun r => id r < next_id tb) (rows tb).

(** All tables of the store have sound keys, and no sale item refers to
    a sale id the sequence has not handed out yet. *)
Definition store_ok (db : Session) : Prop :=
  table_ok Buyer.id (buyers db)
  /\ table_ok Purchase.id (purchases db)
  /\ table_ok Sale.id (sales db)
  /\ table_ok SaleItem.id (sale_items db)
  /\ table_ok Payment.id (payments db)
  /\ table_ok Expense.id (expenses db)
  /\ Forall (fun i => SaleItem.sale_id i < next_id (sales db))
            (rows (sale_items db)).

(** Dates in descending order, as [order_by(col.desc())] leaves them. *)
Definition dates_descending {A} (date : A -> datetime.date) (l : list A) : Prop :=
  StronglySorted (fun a b => datetime.leb (date b) (date a) = true) l.

Definition dates_ascending {A} (date : A -> datetime.date) (l : list A) : Prop :=
  StronglySorted (fun a b => datetime.leb (date a) (date b) = true) l.

(** ** Product type names *)

(** No two product types share a name (the [unique=True] of the column). *)
Definition names_unique (cat : Catalog) : Prop :=
  NoDup (map ProductType.name (rows (product_types cat))).

(** A product type of that name is in the table. *)
Definition has_product (cat : Catalog) (name : string) : Prop :=
  exists t, t ∈ rows (product_types cat) /\ ProductType.name t = name.

Definition empty_catalog : Catalog := mk_catalog empty_table empty_db.

(** The default product types, and Ravi's sale of two of them. *)
Definition sold_catalog : Catalog :=
  mk_catalog (product_types (seed_product_types empty_catalog))
             (snd (create_sale acme_db ravi_sale)).

(** ** Running balances *)

(** The ledger rows for a list of transactions, written as a recursion on
    the list: each row carries the balance before it plus its debit minus
    its credit. *)
Fixpoint ledger_entries (balance : Q) (txns : list txn.t) : list LedgerEntry.t :=
  match txns with
  | [] => []
  | t :: txns' =>
      let balance' := (balance + (txn.debit t - txn.credit t))%Q in
      LedgerEntry.mk (txn.date t) (txn.type t) (txn.description t)
        (txn.debit t) (txn.credit t) balance'
      :: ledger_entries balance' txns'
  end.

(** Every row continues the balance of the row before it, the first one
    the balance [b]. *)
Fixpoint running_from (b : Q) (l : list LedgerEntry.t) : Prop :=
  match l with
  | [] => True
  | e :: l' =>
      LedgerEntry.balance e
      = (b + (LedgerEntry.debit e - LedgerEntry.credit e))%Q
      /\ running_from (LedgerEntry.balance e) l'
  end.

(** A ledger row is a sale (a debit) or a payment (a credit). *)
Definition sale_or_payment (e : LedgerEntry.t) : Prop :=
  (LedgerEntry.type e = "SALE" /\ LedgerEntry.credit e = 0%Q)
  \/ (LedgerEntry.type e = "PAYMENT" /\ LedgerEntry.debit e = 0%Q).

(** The transaction a ledger row was written from: the row without its
    balance. *)
Definition entry_txn (e : LedgerEntry.t) : txn.t :=
  txn.mk (LedgerEntry.date e) (LedgerEntry.type e) (LedgerEntry.description e)
    (LedgerEntry.debit e) (LedgerEntry.credit e).

(** ** The arithmetic of the amounts *)

(** The amount columns are [Float]s: a column holds the binary64 number
    nearest to the amount it was given, and Python adds and subtracts
    these numbers with rounding.  [binary64] is that arithmetic, taken
    from the specification of IEEE 754 in the standard library. *)
Module binary64.
Definition t : Type := SpecFloat.spec_float.
Definition prec : Z := 53.
Definition emax : Z := 1024.

Definition of_Z (z : Z) : t := SpecFloat.binary_normalize prec emax z 0 false.

(** What a [Float] column holds for the amount [q]: numerator and
    denominator are exact below [2^53], and their quotient is rounded
    once, to the nearest binary64 number. *)
Definition of_Q (q : Q) : t :=
  SpecFloat.SFdiv prec emax (of_Z (Qnum q)) (of_Z (Z.pos (Qden q))).

Definition add : t -> t -> t := SpecFloat.SFadd prec emax.
Definition sub : t -> t -> t := SpecFloat.SFsub prec emax.

(** [==] on floats. *)
Definition eqb : t -> t -> bool := SpecFloat.SFeqb.

(** [x] itself, with [0.0] for [-0.0]. *)
Definition positive_zero (x : t) : t :=
  match x with
  | SpecFloat.S754_zero _ => SpecFloat.S754_zero false
  | _ => x
  end.
End binary64.

(** The balances of [models.Buyer] and of [get_buyer_ledger] once more,
    over an arbitrary arithmetic: [column q] is what the column holds for
    the amount [q] (and [column 0] the integer [0] of the code), [add]
    and [sub] are [+] and [-].  Taken with the rationals these are the
    definitions above; taken with [binary64] they are what the program
    computes. *)
Section Arithmetic.
Context {num : Type}.
Variable column : Q -> num.
Variables add sub : num -> num -> num.

(** [sum(xs)] *)
Definition sum_in (xs : list num) : num := fold_left add xs (column 0%Q).

Definition total_sales_in (db : Session) (b : Buyer.t) : num :=
  sum_in (map (fun sale => column (Sale.total_amount sale)) (Buyer_sales db b)).

Definition total_payments_in (db : Session) (b : Buyer.t) : num :=
  sum_in (map (fun payment => column (Payment.amount payment))
              (Buyer_payments db b)).

Definition outstanding_balance_in (db : Session) (b : Buyer.t) : num :=
  sub (add (column (Buyer.opening_balance b)) (total_sales_in db b))
      (total_payments_in db b).

(** [running_balance += txn["debit"] - txn["credit"]] *)
Definition balance_step_in (running_balance : num) (t : txn.t) : num :=
  add running_balance (sub (column (txn.debit t)) (column (txn.credit t))).

(** One turn of [for txn in transactions]; the state is
    [(running_balance, balances)], the balances of the entries written
    so far. *)
Definition ledger_step_in (st : num * list num) (t : txn.t) : num * list num :=
  let running_balance := balance_step_in (fst st) t in
  (running_balance, (snd st ++ [running_balance])%list).

(** [get_buyer_ledger], returning the [balance] of each entry and the
    [closing_balance]. *)
Definition get_buyer_ledger_in (db : Session) (buyer_id : Z)
    (start_date end_date : option datetime.date)
  : result (list num * num) :=
  match buyer_by_id db buyer_id with
  | None => Err (HTTPException 404 "Buyer not found")
  | Some buyer =>
      let sales := ledger_sales db buyer_id start_date end_date in
      let payments := ledger_payments db buyer_id start_date end_date in
      let transactions :=
        sort_by (fun a b => datetime.leb (txn.date a) (txn.date b))
          (map sale_txn sales ++ map payment_txn payments)%list in
      let balances :=
        snd (fold_left ledger_step_in transactions
               (column (Buyer.opening_balance buyer), [])) in
      let total_sales :=
        sum_in (map (fun sale => column (Sale.total_amount sale)) sales) in
      let total_payments :=
        sum_in (map (fun payment => column (Payment.amount payment)) payments) in
      let closing_balance :=
        sub (add (column (Buyer.opening_balance buyer)) total_sales)
            total_payments in
      Ok (balances, closing_balance)
  end.
End Arithmetic.

(** The program's own arithmetic. *)
Definition outstanding_balance_binary64 : Session -> Buyer.t -> binary64.t :=
  outstanding_balance_in binary64.of_Q binary64.add binary64.sub.

Definition get_buyer_ledger_binary64
  : Session -> Z -> option datetime.date -> option datetime.date ->
    result (list binary64.t * binary64.t) :=
  get_buyer_ledger_in binary64.of_Q binary64.add binary64.sub.

(** Tara, opening balance 0.1, with sales of 0.4 in January, 0.2 in
    February and 0.3 in March 2024. *)
Definition tara : Buyer.t := Buyer.mk 1 "Tara" None None None (1#10).

Definition rounding_db : Session :=
  mk_db (mk_table [tara] 2) empty_table
    (mk_table [Sale.mk 1 (datetime.mkdate 2024 1 10) 1 CREDIT 0%Q (2#5) None;
               Sale.mk 2 (datetime.mkdate 2024 2 5) 1 CREDIT 0%Q (1#5) None;
               Sale.mk 3 (datetime.mkdate 2024 3 5) 1 CREDIT 0%Q (3#10) None] 4)
    empty_table empty_table empty_table.

(** ** Sale items that count *)

(** The sale items of a known product type whose sale is stored and
    dated within the range. *)
Definition counted_items (cat : Catalog)
    (start_date end_date : option datetime.date) : list SaleItem.t :=
  List.filter
    (fun si =>
       existsb (fun pt => ProductType.id pt =? SaleItem.product_type_id si)
               (rows (product_types cat))
       && existsb (fun s => (Sale.id s =? SaleItem.sale_id si)
                            && in_range start_date end_date (Sale.date s))
                  (rows (sales (session cat))))
    (rows (sale_items (session cat))).

(** * Properties *)

(** ** Arithmetic of [sum] *)

Lemma fold_left_Qplus_acc (l : list Q) (a : Q) :
  (fold_left Qplus l a == a + fold_left Qplus l 0)%Q.
Proof.
  revert a. induction l as [|x l IH]; intros a; simpl.
  - ring.
  - rewrite (IH (a + x)%Q), (IH (0 + x)%Q). ring.
Qed.

Lemma sum_nil : sum [] = 0%Q.
Proof. reflexivity. Qed.

Lemma sum_cons (x : Q) (l : list Q) : (sum (x :: l) == x + sum l)%Q.
Proof.
  unfold sum; simpl. rewrite fold_left_Qplus_acc. ring.
Qed.

Lemma sum_app (l1 l2 : list Q) : (sum (l1 ++ l2) == sum l1 + sum l2)%Q.
Proof.
  induction l1 as [|x l1 IH]; simpl.
  - rewrite sum_nil. ring.
  - rewrite !sum_cons, IH. ring.
Qed.

Lemma sum_map_Sigma {A} (f : A -> Q) (l : list A) :
  (sum (map f l) == Sigma f l)%Q.
Proof.
  induction l as [|x l IH]; simpl.
  - reflexivity.
  - rewrite sum_cons, IH. reflexivity.
Qed.

Lemma Sigma_app {A} (f : A -> Q) (l1 l2 : list A) :
  (Sigma f (l1 ++ l2) == Sigma f l1 + Sigma f l2)%Q.
Proof.
  induction l1 as [|x l1 IH]; simpl; [ring | rewrite IH; ring].
Qed.

Lemma Sigma_Permutation {A} (f : A -> Q) (l1 l2 : list A) :
  Permutation l1 l2 -> (Sigma f l1 == Sigma f l2)%Q.
Proof.
  induction 1 as [|x l1 l2 _ IH|x y l|l1 l2 l3 _ IH1 _ IH2]; simpl.
  - reflexivity.
  - rewrite IH. reflexivity.
  - ring.
  - rewrite IH1. exact IH2.
Qed.

Lemma Sigma_ext {A} (f g : A -> Q) (l : list A) :
  (forall x, (f x == g x)%Q) -> (Sigma f l == Sigma g l)%Q.
Proof.
  intros H. induction l as [|x l IH]; simpl; [reflexivity|].
  rewrite H, IH. reflexivity.
Qed.

(** ** The stable sort *)

Section SortingFacts.
Context {A : Type} (le : A -> A -> bool).

Lemma insert_by_Permutation (x : A) (l : list A) :
  Permutation (insert_by le x l) (x :: l).
Proof.
  induction l as [|y l IH]; simpl; [reflexivity|].
  destruct (le x y); [reflexivity|].
  rewrite IH. apply perm_swap.
Qed.

Lemma sort_by_Permutation (l : list A) : Permutation (sort_by le l) l.
Proof.
  induction l as [|x l IH]; simpl; [reflexivity|].
  rewrite insert_by_Permutation. by constructor.
Qed.

Lemma sort_by_length (l : list A) : length (sort_by le l) = length l.
Proof. apply Permutation_length, sort_by_Permutation. Qed.

Lemma sort_by_nil_inv (l : list A) : sort_by le l = [] -> l = [].
Proof.
  intros H. apply Permutation_nil. rewrite <- H.
  apply sort_by_Permutation.
Qed.

(** Sortedness needs the test to be total and transitive. *)
Hypothesis le_total : forall x y, le x y = true \/ le y x = true.
Hypothesis le_trans : forall x y z, le x y = true -> le y z = true -> le x z = true.

Lemma insert_by_sorted (x : A) (l : list A) :
  StronglySorted (fun a b => le a b = true) l ->
  StronglySorted (fun a b => le a b = true) (insert_by le x l).
Proof.
  induction 1 as [|y l Hs IH Hy]; simpl.
  - repeat constructor.
  - destruct (le x y) eqn:Hxy.
    + constructor; [by constructor|].
      constructor; [done|].
      eapply Forall_impl; [exact Hy|]. intros z Hz. by eapply le_trans.
    + constructor; [done|].
      assert (Hyx : le y x = true) by (destruct (le_total x y); congruence).
      eapply Permutation_Forall; [symmetry; apply insert_by_Permutation|].
      by constructor.
Qed.

Lemma sort_by_sorted (l : list A) :
  StronglySorted (fun a b => le a b = true) (sort_by le l).
Proof.
  induction l as [|x l IH]; simpl; [constructor|].
  by apply insert_by_sorted.
Qed.
End SortingFacts.

(** ** Outstanding balance *)

Lemma fold_left_plus_Sigma {A} (f : A -> Q) (l : list A) (a : Q) :
  (fold_left (fun acc x => acc + f x) l a == a + Sigma f l)%Q.
Proof.
  revert a. induction l as [|x l IH]; intros a; simpl.
  - ring.
  - rewrite IH. ring.
Qed.

Lemma outstanding_balance_Sigma (db : Session) (b : Buyer.t) :
  (outstanding_balance db b ==
     Buyer.opening_balance b
     + Sigma Sale.total_amount (Buyer_sales db b)
     - Sigma Payment.amount (Buyer_payments db b))%Q.
Proof.
  unfold outstanding_balance, total_sales, total_payments.
  rewrite !sum_map_Sigma. reflexivity.
Qed.

Lemma first_Some {A} (p : A -> bool) (l : list A) (x : A) :
  first p l = Some x -> x ∈ l /\ p x = true.
Proof.
  unfold first. intros H. apply find_some in H as [Hin Hp].
  split; [by apply list_elem_of_In | done].
Qed.

Lemma buyer_by_id_Some (db : Session) (buyer_id : Z) (b : Buyer.t) :
  buyer_by_id db buyer_id = Some b ->
  b ∈ rows (buyers db) /\ Buyer.id b = buyer_id.
Proof.
  intros H. apply first_Some in H as [Hin Hp]. split; [done | lia].
Qed.

Lemma elem_of_sort_by {A} (le : A -> A -> bool) (x : A) (l : list A) :
  x ∈ sort_by le l <-> x ∈ l.
Proof. by rewrite (sort_by_Permutation le l). Qed.

Lemma elem_of_slice_to {A} (n : Z) (x : A) (l : list A) :
  x ∈ slice_to n l -> x ∈ l.
Proof.
  unfold slice_to. destruct (n <? 0); apply subseteq_take.
Qed.

Lemma elem_of_buyer_stats (db : Session) (e : TopBuyerStats.t) :
  e ∈ buyer_stats db <->
  exists b, b ∈ rows (buyers db)
    /\ (0 < outstanding_balance db b)%Q
    /\ e = TopBuyerStats.mk (Buyer.name b) (outstanding_balance db b).
Proof.
  unfold buyer_stats. rewrite list_elem_of_In, in_flat_map. split.
  - intros (b & Hb & He). exists b. apply list_elem_of_In in Hb.
    fold (total_sales db b) (total_payments db b) (outstanding_balance db b) in He.
    unfold Qltb in He.
    destruct (Qle_bool (outstanding_balance db b) 0) eqn:Hle; simpl in He; [done|].
    destruct He as [<-|[]]. split_and!; [done| |done].
    apply Qnot_le_lt. rewrite <- Qle_bool_iff. congruence.
  - intros (b & Hb & Hpos & ->). exists b. split; [by apply list_elem_of_In|].
    fold (total_sales db b) (total_payments db b) (outstanding_balance db b).
    unfold Qltb.
    destruct (Qle_bool (outstanding_balance db b) 0) eqn:Hle; simpl; [|by left].
    apply Qle_bool_iff in Hle. exfalso. by apply (Qlt_not_le _ _ Hpos).
Qed.

Lemma first_is_Some {A} (p : A -> bool) (l : list A) (x : A) :
  x ∈ l -> p x = true -> exists y, first p l = Some y.
Proof.
  intros Hin Hp. unfold first.
  destruct (List.find p l) as [y|] eqn:Hfind; [by exists y|].
  apply list_elem_of_In in Hin.
  by rewrite (find_none _ _ Hfind x Hin) in Hp.
Qed.

Lemma NoDup_map_same {A B} (f : A -> B) (l : list A) (x y : A) :
  NoDup (map f l) -> x ∈ l -> y ∈ l -> f x = f y -> x = y.
Proof.
  induction l as [|z l IH]; simpl; intros Hnd Hx Hy Hf.
  - by apply elem_of_nil in Hx.
  - apply NoDup_cons in Hnd as [Hz Hnd].
    apply elem_of_cons in Hx as [->|Hx]; apply elem_of_cons in Hy as [->|Hy].
    + done.
    + exfalso. apply Hz. apply list_elem_of_fmap. by exists y.
    + exfalso. apply Hz. apply list_elem_of_fmap. by exists x.
    + by apply IH.
Qed.

(** C1. In every store, a buyer's outstanding balance is the opening
    balance plus the sum of [total_amount] over all sales carrying the
    buyer's id minus the sum of [amount] over all payments carrying it;
    and the buyer detail, both buyer lists, the top-buyers ranking and the
    dashboard's [total_receivable] each report exactly that value,
    computed from the tables when the request is served.  Every stored
    buyer is served by the buyer detail, is in both buyer lists when the
    page takes in the whole table, and is in the ranking when the
    balance is above 0 and the limit takes in all buyers. *)
Theorem outstanding_balance_on_read (db : Session) :
  (forall b : Buyer.t,
     (outstanding_balance db b ==
        Buyer.opening_balance b
        + Sigma Sale.total_amount
            (List.filter (fun s => Sale.buyer_id s =? Buyer.id b)
               (rows (sales db)))
        - Sigma Payment.amount
            (List.filter (fun p => Payment.buyer_id p =? Buyer.id b)
               (rows (payments db))))%Q)
  /\ (forall buyer_id : Z,
        match get_buyer db buyer_id with
        | Ok r =>
            exists b, b ∈ rows (buyers db) /\ Buyer.id b = buyer_id
              /\ BuyerResponse.outstanding_balance r = outstanding_balance db b
        | Err e => NotFound e
        end)
  /\ (forall (skip limit : nat) (search : option string) (r : BuyerResponse.t),
        r ∈ get_buyers db skip limit search ->
        exists b, b ∈ rows (buyers db) /\ BuyerResponse.id r = Buyer.id b
          /\ BuyerResponse.outstanding_balance r = outstanding_balance db b)
  /\ get_buyers_list db =
       map (fun b => BuyerListResponse.mk (Buyer.id b) (Buyer.name b)
                       (Buyer.phone b) (outstanding_balance db b))
           (order_by_name (rows (buyers db)))
  /\ (forall (limit : Z) (e : TopBuyerStats.t),
        e ∈ get_top_buyers db limit ->
        exists b, b ∈ rows (buyers db)
          /\ TopBuyerStats.buyer_name e = Buyer.name b
          /\ TopBuyerStats.outstanding_amount e = outstanding_balance db b)
  /\ (forall today : datetime.date,
        (DashboardSummary.total_receivable (get_dashboard_summary db today)
         == Sigma (outstanding_balance db) (rows (buyers db)))%Q)
  /\ (forall b : Buyer.t,
        b ∈ rows (buyers db) ->
        exists r b',
          get_buyer db (Buyer.id b) = Ok r
          /\ BuyerResponse.id r = Buyer.id b
          /\ b' ∈ rows (buyers db)
          /\ Buyer.id b' = Buyer.id b
          /\ BuyerResponse.outstanding_balance r = outstanding_balance db b'
          /\ (NoDup (map Buyer.id (rows (buyers db))) -> b' = b))
  /\ (forall skip limit : nat,
        length (get_buyers db skip limit None)
        = Nat.min limit (length (rows (buyers db)) - skip))
  /\ (forall (limit : nat) (b : Buyer.t),
        (length (rows (buyers db)) <= limit)%nat ->
        b ∈ rows (buyers db) ->
        exists r,
          r ∈ get_buyers db 0 limit None
          /\ BuyerResponse.id r = Buyer.id b
          /\ BuyerResponse.name r = Buyer.name b
          /\ BuyerResponse.outstanding_balance r = outstanding_balance db b)
  /\ length (get_buyers_list db) = length (rows (buyers db))
  /\ (forall b : Buyer.t,
        b ∈ rows (buyers db) ->
        BuyerListResponse.mk (Buyer.id b) (Buyer.name b) (Buyer.phone b)
          (outstanding_balance db b) ∈ get_buyers_list db)
  /\ (forall (limit : Z) (b : Buyer.t),
        Z.of_nat (length (rows (buyers db))) <= limit ->
        b ∈ rows (buyers db) ->
        (0 < outstanding_balance db b)%Q ->
        TopBuyerStats.mk (Buyer.name b) (outstanding_balance db b)
          ∈ get_top_buyers db limit).
Proof.
  split_and!.
  - intros b. apply outstanding_balance_Sigma.
  - intros buyer_id. unfold get_buyer.
    destruct (buyer_by_id db buyer_id) as [b|] eqn:Hb; [|done].
    apply buyer_by_id_Some in Hb as [Hin Hid]. by exists b.
  - intros skip limit search r Hr. unfold get_buyers in Hr.
    apply list_elem_of_fmap in Hr as (b & -> & Hb).
    exists b. split; [|done].
    apply subseteq_take, subseteq_drop in Hb. apply elem_of_sort_by in Hb.
    destruct search as [[|c q]|]; try done.
    apply list_elem_of_In, filter_In in Hb as [Hb _]. by apply list_elem_of_In.
  - reflexivity.
  - intros limit e He. unfold get_top_buyers in He.
    apply elem_of_slice_to, elem_of_sort_by, elem_of_buyer_stats in He
      as (b & Hb & _ & ->).
    by exists b.
  - intros today. unfold get_dashboard_summary; simpl.
    rewrite (fold_left_plus_Sigma
               (fun buyer =>
                  Buyer.opening_balance buyer
                  + sum (map Sale.total_amount (Buyer_sales db buyer))
                  - sum (map Payment.amount (Buyer_payments db buyer)))%Q).
    rewrite Qplus_0_l. reflexivity.
  - intros b Hin.
    destruct (first_is_Some (fun x => Buyer.id x =? Buyer.id b)
                (rows (buyers db)) b Hin (Z.eqb_refl _)) as [b' Hb'].
    pose proof (buyer_by_id_Some db (Buyer.id b) b' Hb') as [Hin' Hid'].
    exists (BuyerResponse_of db b'), b'. unfold get_buyer, buyer_by_id.
    rewrite Hb'. split_and!; try done.
    intros Hnd. by apply (NoDup_map_same Buyer.id (rows (buyers db))).
  - intros skip limit. unfold get_buyers.
    rewrite length_map, length_take, length_drop.
    unfold order_by_name. by rewrite sort_by_length.
  - intros limit b Hlimit Hin. exists (BuyerResponse_of db b).
    split; [|done]. unfold get_buyers. apply list_elem_of_fmap.
    exists b. split; [done|].
    rewrite drop_0, take_ge
      by (unfold order_by_name; by rewrite sort_by_length).
    by apply elem_of_sort_by.
  - unfold get_buyers_list, order_by_name.
    by rewrite length_map, sort_by_length.
  - intros b Hin. unfold get_buyers_list. apply list_elem_of_fmap.
    exists b. split; [done|]. by apply elem_of_sort_by.
  - intros limit b Hlimit Hin Hpos. unfold get_top_buyers, slice_to.
    assert (Hlen : (length (sort_outstanding_desc (buyer_stats db))
                    <= length (rows (buyers db)))%nat).
    { unfold sort_outstanding_desc. rewrite sort_by_length.
      unfold buyer_stats. clear.
      induction (rows (buyers db)) as [|x l IH]; simpl; [done|].
      rewrite length_app.
      destruct (Qltb 0 _); simpl; lia. }
    replace (limit <? 0) with false by lia.
    rewrite take_ge by lia.
    apply elem_of_sort_by, elem_of_buyer_stats. by exists b.
Qed.

(** ** The ledger *)

Lemma ledger_fold_balance (txns : list txn.t) (st : Q * list LedgerEntry.t) :
  (fst (fold_left ledger_step txns st) == fst st + Sigma net txns)%Q.
Proof.
  revert st. induction txns as [|t txns IH]; intros st; simpl.
  - ring.
  - rewrite IH. unfold net; simpl. ring.
Qed.

Lemma ledger_fold_length (txns : list txn.t) (st : Q * list LedgerEntry.t) :
  length (snd (fold_left ledger_step txns st))
  = (length (snd st) + length txns)%nat.
Proof.
  revert st. induction txns as [|t txns IH]; intros st; simpl.
  - lia.
  - rewrite IH. simpl. rewrite length_app. simpl. lia.
Qed.

(** The loop invariant: the entry written last carries the running
    balance. *)
Lemma ledger_fold_last (txns : list txn.t) (st : Q * list LedgerEntry.t) :
  (forall e, last (snd st) = Some e -> LedgerEntry.balance e = fst st) ->
  forall e, last (snd (fold_left ledger_step txns st)) = Some e ->
            LedgerEntry.balance e = fst (fold_left ledger_step txns st).
Proof.
  revert st. induction txns as [|t txns IH]; intros st Hinv; simpl; [done|].
  apply IH. simpl. intros e. rewrite last_snoc. by intros [= <-].
Qed.

Lemma Sigma_net_sales (l : list Sale.t) :
  (Sigma net (map sale_txn l) == Sigma Sale.total_amount l)%Q.
Proof.
  induction l as [|s l IH]; simpl; [reflexivity|].
  rewrite IH. unfold net; simpl. ring.
Qed.

Lemma Sigma_net_payments (l : list Payment.t) :
  (Sigma net (map payment_txn l) == - Sigma Payment.amount l)%Q.
Proof.
  induction l as [|p l IH]; simpl; [reflexivity|].
  rewrite IH. unfold net; simpl. ring.
Qed.

Lemma ledger_running_total (ob : Q) (ss : list Sale.t) (ps : list Payment.t) :
  (fst (fold_left ledger_step
          (sort_by (fun a b => datetime.leb (txn.date a) (txn.date b))
             (map sale_txn ss ++ map payment_txn ps))
          (ob, []))
   == ob + sum (map Sale.total_amount ss) - sum (map Payment.amount ps))%Q.
Proof.
  rewrite ledger_fold_balance; simpl.
  rewrite (Sigma_Permutation net _ _ (sort_by_Permutation _ _)).
  rewrite Sigma_app, Sigma_net_sales, Sigma_net_payments, !sum_map_Sigma.
  ring.
Qed.

(** Whatever the date range, the balance of the last entry is the closing
    balance of the response. *)
Lemma ledger_last_is_closing (db : Session) (buyer_id : Z)
    (start_date end_date : option datetime.date)
    (r : BuyerLedgerResponse.t) (e : LedgerEntry.t) :
  get_buyer_ledger db buyer_id start_date end_date = Ok r ->
  last (BuyerLedgerResponse.entries r) = Some e ->
  (LedgerEntry.balance e == BuyerLedgerResponse.closing_balance r)%Q.
Proof.
  unfold get_buyer_ledger.
  destruct (buyer_by_id db buyer_id) as [b|]; [|done].
  intros [= <-]; simpl. intros Hlast.
  apply ledger_fold_last in Hlast; [|done].
  rewrite Hlast. apply ledger_running_total.
Qed.

Lemma filter_all {A} (p : A -> bool) (l : list A) :
  (forall x, p x = true) -> List.filter p l = l.
Proof.
  intros Hp. induction l as [|x l IH]; simpl; [done|].
  by rewrite Hp, IH.
Qed.

Lemma ledger_sales_unfiltered (db : Session) (b : Buyer.t) :
  Permutation (ledger_sales db (Buyer.id b) None None) (Buyer_sales db b).
Proof.
  unfold ledger_sales, Buyer_sales. rewrite sort_by_Permutation.
  by rewrite filter_all.
Qed.

Lemma ledger_payments_unfiltered (db : Session) (b : Buyer.t) :
  Permutation (ledger_payments db (Buyer.id b) None None) (Buyer_payments db b).
Proof.
  unfold ledger_payments, Buyer_payments. rewrite sort_by_Permutation.
  by rewrite filter_all.
Qed.

Lemma ledger_closing_unfiltered (db : Session) (b : Buyer.t) :
  (Buyer.opening_balance b
   + sum (map Sale.total_amount (ledger_sales db (Buyer.id b) None None))
   - sum (map Payment.amount (ledger_payments db (Buyer.id b) None None))
   == outstanding_balance db b)%Q.
Proof.
  rewrite outstanding_balance_Sigma, !sum_map_Sigma.
  rewrite (Sigma_Permutation _ _ _ (ledger_sales_unfiltered db b)).
  rewrite (Sigma_Permutation _ _ _ (ledger_payments_unfiltered db b)).
  reflexivity.
Qed.

(** With exact sums: for an existing buyer the ledger without a date
    filter is served, the running balance of its last entry is the
    buyer's outstanding balance (opening balance plus all sales minus all
    payments), it has one entry per sale and per payment of the buyer,
    and for a buyer with no sale and no payment the entry list is empty
    and the closing balance is the opening balance. *)
Lemma ledger_unfiltered_exact
    (db : Session) (buyer_id : Z) (b : Buyer.t) :
  buyer_by_id db buyer_id = Some b ->
  exists r,
    get_buyer_ledger db buyer_id None None = Ok r
    /\ (forall e, last (BuyerLedgerResponse.entries r) = Some e ->
                  (LedgerEntry.balance e == outstanding_balance db b)%Q)
    /\ (BuyerLedgerResponse.closing_balance r == outstanding_balance db b)%Q
    /\ length (BuyerLedgerResponse.entries r)
        = (length (Buyer_sales db b) + length (Buyer_payments db b))%nat
    /\ (Buyer_sales db b = [] -> Buyer_payments db b = [] ->
        BuyerLedgerResponse.entries r = []
        /\ (BuyerLedgerResponse.closing_balance r
            == Buyer.opening_balance b)%Q).
Proof.
  intros Hb. destruct (buyer_by_id_Some _ _ _ Hb) as [_ <-].
  eexists. split.
  { unfold get_buyer_ledger. rewrite Hb. reflexivity. }
  simpl.
  assert (Hlen :
    length (snd (fold_left ledger_step
       (sort_by (fun a b0 => datetime.leb (txn.date a) (txn.date b0))
          (map sale_txn (ledger_sales db (Buyer.id b) None None)
           ++ map payment_txn (ledger_payments db (Buyer.id b) None None)))
       (Buyer.opening_balance b, [])))
    = (length (Buyer_sales db b) + length (Buyer_payments db b))%nat).
  { rewrite ledger_fold_length, sort_by_length, length_app, !length_map; simpl.
    by rewrite (Permutation_length (ledger_sales_unfiltered db b)),
               (Permutation_length (ledger_payments_unfiltered db b)). }
  split_and!.
  - intros e He. apply ledger_fold_last in He; [|done].
    rewrite He, ledger_running_total. apply ledger_closing_unfiltered.
  - apply ledger_closing_unfiltered.
  - exact Hlen.
  - intros Hs Hp. rewrite Hs, Hp in Hlen. split.
    + by apply nil_length_inv.
    + rewrite ledger_closing_unfiltered, outstanding_balance_Sigma, Hs, Hp.
      simpl. ring.
Qed.

(** *** The balances in the program's arithmetic *)

Section ArithmeticFacts.
Context {num : Type} (column : Q -> num) (add sub : num -> num -> num).

Lemma ledger_fold_in_balance (txns : list txn.t) (st : num * list num) :
  fst (fold_left (ledger_step_in column add sub) txns st)
  = fold_left (balance_step_in column add sub) txns (fst st).
Proof.
  revert st. induction txns as [|t txns IH]; intros st; simpl; [done|].
  by rewrite IH.
Qed.

Lemma ledger_fold_in_length (txns : list txn.t) (st : num * list num) :
  length (snd (fold_left (ledger_step_in column add sub) txns st))
  = (length (snd st) + length txns)%nat.
Proof.
  revert st. induction txns as [|t txns IH]; intros st; simpl; [lia|].
  rewrite IH. simpl. rewrite length_app. simpl. lia.
Qed.

Lemma ledger_fold_in_last (txns : list txn.t) (st : num * list num) :
  (forall x, last (snd st) = Some x -> x = fst st) ->
  forall x, last (snd (fold_left (ledger_step_in column add sub) txns st))
            = Some x ->
            x = fst (fold_left (ledger_step_in column add sub) txns st).
Proof.
  revert st. induction txns as [|t txns IH]; intros st Hinv; simpl; [done|].
  apply IH. simpl. intros x. rewrite last_snoc. by intros [= <-].
Qed.
End ArithmeticFacts.

(** Taken with the rationals, [get_buyer_ledger_in] and
    [outstanding_balance_in] are [get_buyer_ledger] and
    [outstanding_balance]. *)
Lemma ledger_fold_exact (txns : list txn.t) (st : Q * list LedgerEntry.t) :
  fold_left (ledger_step_in (fun q => q) Qplus Qminus) txns
    (fst st, map LedgerEntry.balance (snd st))
  = (fst (fold_left ledger_step txns st),
     map LedgerEntry.balance (snd (fold_left ledger_step txns st))).
Proof.
  revert st. induction txns as [|t txns IH]; intros [rb es]; simpl; [done|].
  rewrite <- IH. simpl. by rewrite map_app.
Qed.

Lemma get_buyer_ledger_exact (db : Session) (buyer_id : Z)
    (start_date end_date : option datetime.date) :
  get_buyer_ledger_in (fun q => q) Qplus Qminus db buyer_id start_date end_date
  = match get_buyer_ledger db buyer_id start_date end_date with
    | Ok r => Ok (map LedgerEntry.balance (BuyerLedgerResponse.entries r),
                  BuyerLedgerResponse.closing_balance r)
    | Err e => Err e
    end.
Proof.
  unfold get_buyer_ledger_in, get_buyer_ledger.
  destruct (buyer_by_id db buyer_id) as [b|]; [|done]. simpl.
  by rewrite (ledger_fold_exact _ (Buyer.opening_balance b, [])).
Qed.

Lemma outstanding_balance_exact (db : Session) (b : Buyer.t) :
  outstanding_balance_in (fun q => q) Qplus Qminus db b
  = outstanding_balance db b.
Proof. reflexivity. Qed.

(** Adding and subtracting the integer 0 leaves a binary64 number as it
    is, but for the sign of a zero. *)
Lemma binary64_add_sub_zero (x : binary64.t) :
  binary64.sub (binary64.add x (binary64.of_Q 0)) (binary64.of_Q 0)
  = binary64.positive_zero x.
Proof. by destruct x as [[]|[]| |[] m e]. Qed.

(** The amounts of the sample stores, as the columns hold them. *)
Example binary64_of_Q :
  map binary64.of_Q [1#10; 1#5; 3#10; 2#5; 56#1]
  = [SpecFloat.S754_finite false 7205759403792794 (-56);
     SpecFloat.S754_finite false 7205759403792794 (-55);
     SpecFloat.S754_finite false 5404319552844595 (-54);
     SpecFloat.S754_finite false 7205759403792794 (-54);
     SpecFloat.S754_finite false 7881299347898368 (-47)].
Proof. vm_compute. reflexivity. Qed.

(** Additions of binary64 numbers round, so their order matters:
    (0.1 + 0.2) + 0.3 is 0.6000000000000001 and 0.1 + (0.2 + 0.3) is
    0.6. *)
Example binary64_add_order :
  binary64.add (binary64.add (binary64.of_Q (1#10)) (binary64.of_Q (1#5)))
               (binary64.of_Q (3#10))
  = SpecFloat.S754_finite false 5404319552844596 (-53)
  /\ binary64.add (binary64.of_Q (1#10))
                  (binary64.add (binary64.of_Q (1#5)) (binary64.of_Q (3#10)))
     = SpecFloat.S754_finite false 5404319552844595 (-53)
  /\ binary64.of_Q (3#5) = SpecFloat.S754_finite false 5404319552844595 (-53).
Proof. vm_compute. done. Qed.

(** C2 as stated fails in the arithmetic of the program.  Tara's opening
    balance is 0.1 and her sales are 0.4, 0.2 and 0.3: the ledger adds
    them to the opening balance one at a time and ends at 1.0, the
    outstanding balance adds the opening balance to the sum of the sales
    and is 1.0000000000000002. *)
Lemma ledger_unfiltered_differs_in_binary64 :
  buyer_by_id rounding_db 1 = Some tara
  /\ exists balances closing last_balance,
       get_buyer_ledger_binary64 rounding_db 1 None None
       = Ok (balances, closing)
       /\ last balances = Some last_balance
       /\ last_balance = SpecFloat.S754_finite false 4503599627370496 (-52)
       /\ outstanding_balance_binary64 rounding_db tara
          = SpecFloat.S754_finite false 4503599627370497 (-52)
       /\ binary64.eqb last_balance
            (outstanding_balance_binary64 rounding_db tara) = false.
Proof.
  split; [reflexivity|].
  eexists _, _, _. split; [vm_compute; reflexivity|].
  split; [reflexivity|]. split_and!; vm_compute; reflexivity.
Qed.

(** C2, amended. For an existing buyer the ledger without a date filter
    is served with one entry per sale and per payment of the buyer.
    With exact sums the running balance of its last entry is the buyer's
    outstanding balance (opening balance plus all sales minus all
    payments).  In the binary64 arithmetic of the program it is the
    opening balance with the transactions added one at a time in order
    of date, which can round differently from the outstanding balance.
    For a buyer with no sale and no payment the entry list is empty and
    the closing balance is the opening balance, in either arithmetic. *)
Theorem ledger_unfiltered_ends_at_outstanding
    (db : Session) (buyer_id : Z) (b : Buyer.t) :
  buyer_by_id db buyer_id = Some b ->
  (exists r,
     get_buyer_ledger db buyer_id None None = Ok r
     /\ (forall e, last (BuyerLedgerResponse.entries r) = Some e ->
                   (LedgerEntry.balance e == outstanding_balance db b)%Q)
     /\ (BuyerLedgerResponse.closing_balance r == outstanding_balance db b)%Q
     /\ length (BuyerLedgerResponse.entries r)
         = (length (Buyer_sales db b) + length (Buyer_payments db b))%nat
     /\ (Buyer_sales db b = [] -> Buyer_payments db b = [] ->
         BuyerLedgerResponse.entries r = []
         /\ (BuyerLedgerResponse.closing_balance r
             == Buyer.opening_balance b)%Q))
  /\ (exists balances closing,
        get_buyer_ledger_binary64 db buyer_id None None = Ok (balances, closing)
        /\ length balances
           = (length (Buyer_sales db b) + length (Buyer_payments db b))%nat
        /\ (forall x, last balances = Some x ->
              x = fold_left
                    (balance_step_in binary64.of_Q binary64.add binary64.sub)
                    (sort_by (fun t u => datetime.leb (txn.date t) (txn.date u))
                       (map sale_txn (ledger_sales db buyer_id None None)
                        ++ map payment_txn
                             (ledger_payments db buyer_id None None)))
                    (binary64.of_Q (Buyer.opening_balance b)))
        /\ (Buyer_sales db b = [] -> Buyer_payments db b = [] ->
            balances = []
            /\ closing
               = binary64.positive_zero
                   (binary64.of_Q (Buyer.opening_balance b)))).
Proof.
  intros Hb. split; [by apply ledger_unfiltered_exact|].
  destruct (buyer_by_id_Some _ _ _ Hb) as [_ <-].
  unfold get_buyer_ledger_binary64, get_buyer_ledger_in. rewrite Hb.
  eexists _, _. split; [reflexivity|].
  assert (Hlen :
    length (snd (fold_left
       (ledger_step_in binary64.of_Q binary64.add binary64.sub)
       (sort_by (fun t u => datetime.leb (txn.date t) (txn.date u))
          (map sale_txn (ledger_sales db (Buyer.id b) None None)
           ++ map payment_txn (ledger_payments db (Buyer.id b) None None)))
       (binary64.of_Q (Buyer.opening_balance b), [])))
    = (length (Buyer_sales db b) + length (Buyer_payments db b))%nat).
  { rewrite ledger_fold_in_length, sort_by_length, length_app, !length_map.
    simpl.
    by rewrite (Permutation_length (ledger_sales_unfiltered db b)),
               (Permutation_length (ledger_payments_unfiltered db b)). }
  split_and!.
  - exact Hlen.
  - intros x Hx. apply ledger_fold_in_last in Hx; [|done].
    by rewrite ledger_fold_in_balance in Hx.
  - intros Hs Hp. rewrite Hs, Hp in Hlen. split; [by apply nil_length_inv|].
    assert (Hsales : ledger_sales db (Buyer.id b) None None = []).
    { apply Permutation_nil. rewrite <- Hs. symmetry.
      apply ledger_sales_unfiltered. }
    assert (Hpays : ledger_payments db (Buyer.id b) None None = []).
    { apply Permutation_nil. rewrite <- Hp. symmetry.
      apply ledger_payments_unfiltered. }
    rewrite Hsales, Hpays. exact (binary64_add_sub_zero _).
Qed.

Lemma ledger_unfiltered_ends_at_outstanding_witness :
  (exists r,
     get_buyer_ledger ledger_db 1 None None = Ok r
     /\ (forall e, last (BuyerLedgerResponse.entries r) = Some e ->
                   (LedgerEntry.balance e == outstanding_balance ledger_db ravi)%Q))
  /\ (exists balances closing,
        get_buyer_ledger_binary64 ledger_db 1 None None = Ok (balances, closing)
        /\ length balances = 3%nat).
Proof.
  destruct (ledger_unfiltered_ends_at_outstanding ledger_db 1 ravi eq_refl)
    as [(r & Hr & Hlast & _) (balances & closing & Hb & Hlen & _)].
  split.
  - exists r. split; [exact Hr | exact Hlast].
  - exists balances, closing. split; [exact Hb | exact Hlen].
Defined.

Example ledger_db_entries :
  match get_buyer_ledger ledger_db 1 None None with
  | Ok r =>
      map LedgerEntry.balance (BuyerLedgerResponse.entries r)
      = [600%Q; 400%Q; 456%Q]
      /\ BuyerLedgerResponse.closing_balance r = 456%Q
  | Err _ => False
  end.
Proof. vm_compute. done. Qed.

(** In March 2024 the window holds the sale of 56 alone: the last entry
    and the closing balance both read 156, the outstanding balance 456. *)
Example ledger_db_march :
  match get_buyer_ledger ledger_db 1 (Some (datetime.mkdate 2024 3 1))
          (Some (datetime.mkdate 2024 3 31)) with
  | Ok r =>
      map LedgerEntry.balance (BuyerLedgerResponse.entries r) = [156%Q]
      /\ BuyerLedgerResponse.closing_balance r = 156%Q
      /\ ~ (BuyerLedgerResponse.closing_balance r
            == outstanding_balance ledger_db ravi)%Q
  | Err _ => False
  end.
Proof. vm_compute. split_and!; done. Qed.

(** With exact sums there is no store, buyer and date range for which
    the closing balance of the ledger differs from the running balance
    of its last entry. *)
Lemma ledger_closing_differs_from_last_entry_never :
  ~ exists (db : Session) (buyer_id : Z)
           (start_date end_date : option datetime.date)
           (r : BuyerLedgerResponse.t) (e : LedgerEntry.t),
      get_buyer_ledger db buyer_id start_date end_date = Ok r
      /\ last (BuyerLedgerResponse.entries r) = Some e
      /\ ~ (BuyerLedgerResponse.closing_balance r == LedgerEntry.balance e)%Q.
Proof.
  intros (db & buyer_id & start_date & end_date & r & e & Hr & He & Hne).
  apply Hne. symmetry. by eapply ledger_last_is_closing.
Qed.

(** With exact sums, for every buyer and every date range the closing
    balance of the ledger is the opening balance plus the sales in the
    range minus the payments in the range, and it equals the running
    balance of the last returned entry: both start from the buyer's
    opening balance and add only what lies inside the window. *)
Lemma ledger_closing_is_last_running_balance
    (db : Session) (buyer_id : Z) (start_date end_date : option datetime.date)
    (r : BuyerLedgerResponse.t) :
  get_buyer_ledger db buyer_id start_date end_date = Ok r ->
  (exists b,
      buyer_by_id db buyer_id = Some b
      /\ BuyerLedgerResponse.opening_balance r = Buyer.opening_balance b
      /\ (BuyerLedgerResponse.closing_balance r ==
            Buyer.opening_balance b
            + Sigma Sale.total_amount
                (List.filter (fun s => in_range start_date end_date (Sale.date s))
                   (Buyer_sales db b))
            - Sigma Payment.amount
                (List.filter
                   (fun p => in_range start_date end_date (Payment.date p))
                   (Buyer_payments db b)))%Q)
  /\ (forall e, last (BuyerLedgerResponse.entries r) = Some e ->
                (LedgerEntry.balance e
                 == BuyerLedgerResponse.closing_balance r)%Q).
Proof.
  intros Hr. split; [|intros e He; by eapply ledger_last_is_closing].
  unfold get_buyer_ledger in Hr.
  destruct (buyer_by_id db buyer_id) as [b|] eqn:Hb; [|done].
  injection Hr as <-. exists b. split_and!; [done..|]. simpl.
  destruct (buyer_by_id_Some _ _ _ Hb) as [_ <-].
  rewrite !sum_map_Sigma. unfold ledger_sales, ledger_payments.
  rewrite (Sigma_Permutation _ _ _ (sort_by_Permutation _ _)).
  rewrite (Sigma_Permutation Payment.amount _ _ (sort_by_Permutation _ _)).
  reflexivity.
Qed.

Lemma ledger_closing_is_last_running_balance_witness :
  exists r,
    get_buyer_ledger ledger_db 1 (Some (datetime.mkdate 2024 3 1))
      (Some (datetime.mkdate 2024 3 31)) = Ok r
    /\ forall e, last (BuyerLedgerResponse.entries r) = Some e ->
                 (LedgerEntry.balance e
                  == BuyerLedgerResponse.closing_balance r)%Q.
Proof.
  eexists. split; [reflexivity|].
  apply (ledger_closing_is_last_running_balance ledger_db 1
           (Some (datetime.mkdate 2024 3 1)) (Some (datetime.mkdate 2024 3 31))).
  reflexivity.
Defined.


(** ** Purchases and their transport expense *)

Lemma Qltb_lt (x y : Q) : Qltb x y = true <-> (x < y)%Q.
Proof.
  unfold Qltb. rewrite negb_true_iff, <- not_true_iff_false, Qle_bool_iff.
  split; [apply Qnot_le_lt | apply Qlt_not_le].
Qed.

Lemma transport_description_contains (seller_name : string)
    (transport_service : option string) :
  contains ("purchase from " +:+ seller_name)
           (transport_description seller_name transport_service).
Proof.
  exists "Transport cost for ".
  exists (match transport_service with
          | Some (String c s) => " (" +:+ String c s +:+ ")"
          | _ => ""
          end).
  unfold transport_description. reflexivity.
Qed.

(** C4. [create_purchase] stores the purchase with
    [total_purchase_cost = quantity * price_per_unit + transport_cost].
    When [transport_cost > 0] it adds exactly one expense, of category
    Transport, dated as the purchase, of amount [transport_cost], whose
    description contains "purchase from {seller_name}"; otherwise, and so
    when [transport_cost] is 0, the expense table is left as it was. *)
Theorem create_purchase_transport_expense
    (db : Session) (purchase : PurchaseCreate.t) :
  let p := fst (create_purchase db purchase) in
  let db' := snd (create_purchase db purchase) in
  let transport_cost := PurchaseCreate.transport_cost purchase in
  Purchase.total_purchase_cost p
  = (PurchaseCreate.quantity purchase * PurchaseCreate.price_per_unit purchase
     + transport_cost)%Q
  /\ rows (purchases db') = (rows (purchases db) ++ [p])%list
  /\ ((0 < transport_cost)%Q ->
      exists e d,
        rows (expenses db') = (rows (expenses db) ++ [e])%list
        /\ Expense.category e = TRANSPORT
        /\ Expense.date e = PurchaseCreate.date purchase
        /\ Expense.amount e = transport_cost
        /\ Expense.description e = Some d
        /\ contains ("purchase from " +:+ PurchaseCreate.seller_name purchase) d)
  /\ (~ (0 < transport_cost)%Q -> expenses db' = expenses db)
  /\ ((transport_cost == 0)%Q -> expenses db' = expenses db).
Proof.
  simpl. split_and!; [done | done | | |].
  - intros Hpos. apply Qltb_lt in Hpos. rewrite Hpos. simpl.
    eexists _, _. split_and!; try reflexivity.
    apply transport_description_contains.
  - intros Hnpos.
    destruct (Qltb 0 (PurchaseCreate.transport_cost purchase)) eqn:Hlt; [|done].
    by apply Qltb_lt in Hlt.
  - intros Hz.
    destruct (Qltb 0 (PurchaseCreate.transport_cost purchase)) eqn:Hlt; [|done].
    apply Qltb_lt in Hlt. rewrite Hz in Hlt. by apply Qlt_irrefl in Hlt.
Qed.

Lemma create_purchase_transport_expense_witness :
  exists e d,
    rows (expenses acme_db) = [e]
    /\ Expense.category e = TRANSPORT
    /\ Expense.amount e = 50%Q
    /\ Expense.description e = Some d
    /\ contains "purchase from Acme" d.
Proof.
  destruct (create_purchase_transport_expense empty_db acme_purchase)
    as (_ & _ & Hpos & _).
  destruct (Hpos eq_refl) as (e & d & Hrows & Hcat & _ & Hamount & Hd & Hc).
  exists e, d. split_and!; [exact Hrows | exact Hcat | exact Hamount
                          | exact Hd | exact Hc].
Defined.

(** The purchase of the specification: 10 kg at 5 from Acme with a
    transport cost of 50. *)
Example create_purchase_acme :
  let db' := snd (create_purchase empty_db
                    (PurchaseCreate.mk (datetime.mkdate 2024 3 5) "Acme" None
                       None None 50%Q 10%Q "kg" 5%Q None)) in
  rows (expenses db')
  = [Expense.mk 1 (datetime.mkdate 2024 3 5) TRANSPORT 50%Q
       (Some "Transport cost for purchase from Acme")]
  /\ map Purchase.total_purchase_cost (rows (purchases db')) = [100%Q].
Proof. vm_compute. done. Qed.

(** *** [LIKE] against containment *)

Lemma starts_with_spec (needle s : string) :
  starts_with needle s = true <-> exists post, s = needle +:+ post.
Proof.
  revert s. induction needle as [|c needle IH]; intros s; simpl.
  - split; [by exists s | done].
  - destruct s as [|d s]; simpl.
    + split; [done | by intros [post [=]]].
    + rewrite andb_true_iff, Ascii.eqb_eq, IH. split.
      * intros [-> [post ->]]. by exists post.
      * intros [post [= -> ->]]. split; [done | by exists post].
Qed.

Lemma containsb_spec (needle s : string) :
  containsb needle s = true <-> contains needle s.
Proof.
  unfold contains. induction s as [|d s IH]; simpl.
  - rewrite orb_false_r, starts_with_spec. split.
    + intros [post H]. by exists "", post.
    + intros ([|c pre] & post & H); [by exists post | done].
  - rewrite orb_true_iff, IH, starts_with_spec. split.
    + intros [[post H]|(pre & post & ->)].
      * by exists "", post.
      * by exists (String d pre), post.
    + intros ([|c pre] & post & H).
      * left. by exists post.
      * right. injection H as -> ->. by exists pre, post.
Qed.

Lemma like_percent (pattern s : string) :
  like (String "%" pattern) s
  = like pattern s
    || match s with
       | EmptyString => false
       | String _ s' => like (String "%" pattern) s'
       end.
Proof. by destruct s. Qed.

Lemma like_percent_only (s : string) : like "%" s = true.
Proof.
  induction s as [|d s IH]; [done|].
  rewrite like_percent, IH. apply orb_true_r.
Qed.

Lemma like_literal_prefix (needle s : string) :
  wildcard_free needle = true ->
  like (needle +:+ "%") s = starts_with needle s.
Proof.
  revert s. induction needle as [|c needle IH]; intros s Hw.
  - apply like_percent_only.
  - simpl in Hw. apply andb_true_iff in Hw as [Hc Hw].
    apply andb_true_iff in Hc as [Hc1 Hc2].
    apply negb_true_iff in Hc1, Hc2.
    change (String c needle +:+ "%") with (String c (needle +:+ "%")).
    simpl. rewrite Hc1, Hc2.
    destruct s as [|d s]; [done|]. by rewrite IH.
Qed.

(** For a wildcard-free [needle] the pattern [%needle%] tests containment. *)
Lemma like_contains (needle s : string) :
  wildcard_free needle = true ->
  like ("%" +:+ needle +:+ "%") s = true <-> contains needle s.
Proof.
  intros Hw. rewrite <- containsb_spec.
  change ("%" +:+ needle +:+ "%") with (String "%" (needle +:+ "%")).
  induction s as [|d s IH].
  - rewrite like_percent, like_literal_prefix by done. simpl.
    by rewrite !orb_false_r.
  - rewrite like_percent, like_literal_prefix by done. simpl.
    rewrite !orb_true_iff, IH. done.
Qed.

(** A wildcard in the seller name widens the match: [_] stands for any
    character. *)
Example like_underscore :
  like "%purchase from A_B%" "Transport cost for purchase from AXB" = true
  /\ containsb "purchase from A_B" "Transport cost for purchase from AXB" = false.
Proof. vm_compute. done. Qed.

(** *** The linker on update *)

Lemma datetime_eqb_eq (a b : datetime.date) : datetime.eqb a b = true <-> a = b.
Proof.
  unfold datetime.eqb. destruct a as [y1 m1 d1], b as [y2 m2 d2]; simpl.
  rewrite !andb_true_iff, !Z.eqb_eq. split.
  - by intros [[-> ->] ->].
  - intros [= -> -> ->]. done.
Qed.

Lemma ExpenseCategory_eqb_eq (a b : ExpenseCategory) :
  ExpenseCategory_eqb a b = true <-> a = b.
Proof. destruct a, b; simpl; split; (done || congruence). Qed.

Lemma linked_expense_filter_contains (date : datetime.date)
    (seller_name : string) (e : Expense.t) :
  wildcard_free seller_name = true ->
  linked_expense_filter date seller_name e = true <->
  Expense.date e = date
  /\ Expense.category e = TRANSPORT
  /\ exists d, Expense.description e = Some d
               /\ contains ("purchase from " +:+ seller_name) d.
Proof.
  intros Hw. unfold linked_expense_filter, column_like.
  rewrite !andb_true_iff, datetime_eqb_eq, ExpenseCategory_eqb_eq.
  destruct (Expense.description e) as [d|].
  - change ("%purchase from " +:+ seller_name +:+ "%")
      with ("%" +:+ ("purchase from " +:+ seller_name) +:+ "%").
    rewrite like_contains by done. split.
    + intros [[? ?] ?]. split_and!; [done..|]. by exists d.
    + intros (? & ? & d' & [= <-] & ?). done.
  - split; [by intros [_ ?] | by intros (_ & _ & d & ? & _)].
Qed.

Lemma has_key_is_Some {A} (field : option A) :
  has_key field = true <-> is_Some field.
Proof.
  destruct field; simpl; split; done || by intros [x [=]].
Qed.

Lemma touches_total_spec (u : PurchaseUpdate.t) :
  touches_total u = true <->
  is_Some (PurchaseUpdate.quantity u)
  \/ is_Some (PurchaseUpdate.price_per_unit u)
  \/ is_Some (PurchaseUpdate.transport_cost u).
Proof.
  unfold touches_total. rewrite !orb_true_iff, !has_key_is_Some. tauto.
Qed.

(** C5. The code breaks the policy on a seller name with a wildcard.
    In [wildcard_db] no expense has a description containing
    "purchase from A_B", so by the claim, and by the comments of the
    code ("Find existing transport expense for this purchase", "Create
    new expense if it didn't exist"), raising the transport cost of the
    purchase from "A_B" to 75 creates an expense.  The lookup puts the
    seller name into a [LIKE] pattern without escaping it; [_] matches
    the X of "AXB", the expense of the purchase from "AXB" is found and
    rewritten in place, and no expense is created: the purchase from
    "AXB" has lost its expense. *)
Lemma update_purchase_wildcard_seller_name :
  (forall e d, e ∈ rows (expenses wildcard_db) ->
               Expense.description e = Some d ->
               ~ contains "purchase from A_B" d)
  /\ exists p db',
       update_purchase wildcard_db 2 (only_transport_cost 75%Q) = Ok (p, db')
       /\ Purchase.seller_name p = "A_B"
       /\ rows (expenses wildcard_db)
          = [Expense.mk 1 (datetime.mkdate 2024 3 5) TRANSPORT 40%Q
               (Some "Transport cost for purchase from AXB")]
       /\ rows (expenses db')
          = [Expense.mk 1 (datetime.mkdate 2024 3 5) TRANSPORT 75%Q
               (Some "Transport cost for purchase from A_B")].
Proof.
  split.
  - intros e d He Hd Hc. apply containsb_spec in Hc.
    apply list_elem_of_In in He. vm_compute in He.
    destruct He as [<-|[]]. injection Hd as <-. vm_compute in Hc. done.
  - eexists _, _. split_and!; [vm_compute; reflexivity | done..].
Qed.

(** What [update_purchase] does in terms of the [LIKE] match of this
    file.  On an existing purchase [update_purchase] succeeds and
    stores the supplied fields.  The total is re-derived as
    [quantity * price_per_unit + transport_cost] whenever one of these
    three is in the update.  The expense linker acts only if the update
    supplies [transport_cost]; it looks for the first Transport expense
    of the updated purchase's date whose description matches the [LIKE]
    pattern [%purchase from {seller_name}%] and then: found and
    cost > 0, that row gets the new amount and description where it
    stands and no row is added; found and cost = 0, that row is deleted;
    none found and cost > 0, one expense is appended; none found and
    cost = 0, nothing changes.  For a seller name free of the wildcards
    [%] and [_] the pattern matches exactly the descriptions that contain
    "purchase from {seller_name}". *)
Lemma update_purchase_expense_policy
    (db : Session) (purchase_id : Z) (u : PurchaseUpdate.t) (old : Purchase.t) :
  purchase_by_id db purchase_id = Some old ->
  exists p db',
    update_purchase db purchase_id u = Ok (p, db')
    /\ p ∈ rows (purchases db')
    /\ Purchase.id p = Purchase.id old
    /\ Purchase.date p = get (PurchaseUpdate.date u) (Purchase.date old)
    /\ Purchase.seller_name p
       = get (PurchaseUpdate.seller_name u) (Purchase.seller_name old)
    /\ Purchase.quantity p
       = get (PurchaseUpdate.quantity u) (Purchase.quantity old)
    /\ Purchase.price_per_unit p
       = get (PurchaseUpdate.price_per_unit u) (Purchase.price_per_unit old)
    /\ Purchase.transport_cost p
       = get (PurchaseUpdate.transport_cost u) (Purchase.transport_cost old)
    /\ (is_Some (PurchaseUpdate.quantity u)
        \/ is_Some (PurchaseUpdate.price_per_unit u)
        \/ is_Some (PurchaseUpdate.transport_cost u) ->
        Purchase.total_purchase_cost p
        = (Purchase.quantity p * Purchase.price_per_unit p
           + Purchase.transport_cost p)%Q)
    /\ (PurchaseUpdate.transport_cost u = None -> expenses db' = expenses db)
    /\ (forall transport_cost : Q,
          PurchaseUpdate.transport_cost u = Some transport_cost ->
          let description :=
            transport_description (Purchase.seller_name p)
              (Purchase.transport_service p) in
          next_id (expenses db')
          = (if Qltb 0 transport_cost
             then match first (linked_expense_filter (Purchase.date p)
                                 (Purchase.seller_name p))
                          (rows (expenses db)) with
                  | Some _ => next_id (expenses db)
                  | None => next_id (expenses db) + 1
                  end
             else next_id (expenses db))
          /\ match first (linked_expense_filter (Purchase.date p)
                            (Purchase.seller_name p))
                     (rows (expenses db)) with
             | Some existing =>
                 ((0 < transport_cost)%Q ->
                  rows (expenses db')
                  = map (fun r =>
                           if Expense.id r =? Expense.id existing
                           then Expense.mk (Expense.id r) (Expense.date r)
                                  (Expense.category r)
                                  transport_cost (Some description)
                           else r)
                        (rows (expenses db))
                  /\ length (rows (expenses db'))
                     = length (rows (expenses db)))
                 /\ ((transport_cost == 0)%Q ->
                     rows (expenses db')
                     = List.filter
                         (fun r => negb (Expense.id r =? Expense.id existing))
                         (rows (expenses db)))
             | None =>
                 ((0 < transport_cost)%Q ->
                  rows (expenses db')
                  = (rows (expenses db)
                     ++ [Expense.mk (next_id (expenses db)) (Purchase.date p)
                           TRANSPORT transport_cost (Some description)])%list)
                 /\ ((transport_cost == 0)%Q -> expenses db' = expenses db)
             end)
    /\ (wildcard_free (Purchase.seller_name p) = true ->
        forall e : Expense.t,
          linked_expense_filter (Purchase.date p) (Purchase.seller_name p) e
          = true <->
          Expense.date e = Purchase.date p
          /\ Expense.category e = TRANSPORT
          /\ exists d, Expense.description e = Some d
               /\ contains ("purchase from " +:+ Purchase.seller_name p) d).
Proof.
  intros Hold. unfold update_purchase. rewrite Hold.
  eexists _, _. split; [reflexivity|]. simpl.
  split_and!; try reflexivity.
  - apply list_elem_of_fmap. exists old.
    rewrite Z.eqb_refl. split; [done|]. by apply first_Some in Hold as [? _].
  - intros Ht. apply touches_total_spec in Ht.
    unfold new_total. by rewrite Ht.
  - by intros ->.
  - intros tc ->. simpl. unfold sync_transport_expense, find_transport_expense.
    simpl.
    destruct (first _ (rows (expenses db))) as [existing|];
      destruct (Qltb 0 tc) eqn:Hlt; simpl.
    + split; [done|]. split; [intros _; by rewrite length_map|].
      intros Hz. apply Qltb_lt in Hlt. rewrite Hz in Hlt.
      by apply Qlt_irrefl in Hlt.
    + split; [done|]. split; [|done].
      intros Hpos. apply Qltb_lt in Hpos. congruence.
    + split; [done|]. split; [done|].
      intros Hz. apply Qltb_lt in Hlt. rewrite Hz in Hlt.
      by apply Qlt_irrefl in Hlt.
    + split; [done|]. split; [|done].
      intros Hpos. apply Qltb_lt in Hpos. congruence.
  - intros Hw e. by apply linked_expense_filter_contains.
Qed.

Lemma update_purchase_expense_policy_witness :
  exists p db',
    update_purchase acme_db 1 (only_transport_cost 75%Q) = Ok (p, db')
    /\ Purchase.total_purchase_cost p
       = (Purchase.quantity p * Purchase.price_per_unit p
          + Purchase.transport_cost p)%Q
    /\ length (rows (expenses db')) = length (rows (expenses acme_db)).
Proof.
  destruct (update_purchase_expense_policy acme_db 1 (only_transport_cost 75%Q)
              (fst (create_purchase empty_db acme_purchase)) eq_refl)
    as (p & db' & Hr & _ & _ & _ & _ & _ & _ & _ & Htotal & _ & Hlink & _).
  exists p, db'. split; [exact Hr|]. split.
  - apply Htotal. right. right. by eexists.
  - specialize (Hlink 75%Q eq_refl). simpl in Hlink.
    destruct Hlink as [_ Hlink].
    vm_compute in Hr. injection Hr as <- <-.
    vm_compute. reflexivity.
Defined.

(** The scenario of the specification: the purchase from Acme with a
    transport cost of 50 has one expense; raising the cost to 75 rewrites
    that expense, and setting it to 0 deletes it. *)
Example update_purchase_acme_75 :
  rows (expenses acme_db)
  = [Expense.mk 1 (datetime.mkdate 2024 3 5) TRANSPORT 50%Q
       (Some "Transport cost for purchase from Acme")]
  /\ match update_purchase acme_db 1 (only_transport_cost 75%Q) with
     | Ok (p, db') =>
         Purchase.total_purchase_cost p = 125%Q
         /\ rows (expenses db')
            = [Expense.mk 1 (datetime.mkdate 2024 3 5) TRANSPORT 75%Q
                 (Some "Transport cost for purchase from Acme")]
     | Err _ => False
     end.
Proof. vm_compute. done. Qed.

Example update_purchase_acme_0 :
  match update_purchase acme_db 1 (only_transport_cost 0%Q) with
  | Ok (p, db') =>
      Purchase.total_purchase_cost p = 50%Q /\ rows (expenses db') = []
  | Err _ => False
  end.
Proof. vm_compute. done. Qed.

(** *** A purchase and the expense created with it *)

Lemma like_cons_percent (pattern s : string) :
  like (String "%" pattern) s = true <->
  like pattern s = true
  \/ exists d s', s = String d s' /\ like (String "%" pattern) s' = true.
Proof.
  rewrite like_percent, orb_true_iff. split.
  - intros [H|H]; [by left|]. destruct s as [|d s']; [done|].
    right. by exists d, s'.
  - intros [H|(d & s' & -> & H)]; [by left | by right].
Qed.

(** Matches of two patterns against two strings compose. *)
Lemma like_append (p1 p2 s1 s2 : string) :
  like p1 s1 = true -> like p2 s2 = true ->
  like (p1 +:+ p2) (s1 +:+ s2) = true.
Proof.
  intros H1 H2. revert s1 H1. induction p1 as [|c p1 IH]; intros s1 H1.
  - destruct s1; [exact H2 | discriminate H1].
  - change (String c p1 +:+ p2) with (String c (p1 +:+ p2)).
    destruct (Ascii.eqb c "%"%char) eqn:Hc.
    + apply Ascii.eqb_eq in Hc as ->.
      induction s1 as [|d s1 IHs].
      * apply like_cons_percent in H1 as [H1|(d & s' & [=] & _)].
        apply like_cons_percent. left. by apply (IH "").
      * apply like_cons_percent in H1 as [H1|(d' & s' & [= <- <-] & H1)].
        -- apply like_cons_percent. left. by apply IH.
        -- change (String d s1 +:+ s2) with (String d (s1 +:+ s2)).
           apply like_cons_percent. right. exists d, (s1 +:+ s2).
           split; [done | by apply IHs].
    + simpl in H1 |- *. rewrite Hc in H1 |- *.
      destruct (Ascii.eqb c "_"%char).
      * destruct s1 as [|d s1]; [done|].
        change (String d s1 +:+ s2) with (String d (s1 +:+ s2)). by apply IH.
      * destruct s1 as [|d s1]; [done|].
        change (String d s1 +:+ s2) with (String d (s1 +:+ s2)).
        apply andb_true_iff in H1 as [-> H1]. simpl. by apply IH.
Qed.

(** Read as a pattern, a string matches itself, wildcards included. *)
Lemma like_self (s : string) : like s s = true.
Proof.
  induction s as [|c s IH]; [done|].
  destruct (Ascii.eqb c "%"%char) eqn:Hc.
  - apply Ascii.eqb_eq in Hc as ->.
    apply like_cons_percent. right. exists "%"%char, s. split; [done|].
    apply like_cons_percent. by left.
  - simpl. rewrite Hc. destruct (Ascii.eqb c "_"%char); [done|].
    by rewrite Ascii.eqb_refl.
Qed.

(** The description written by [create_purchase] is matched by the
    pattern of the lookup, whatever the seller name. *)
Lemma transport_description_like (seller_name : string)
    (transport_service : option string) :
  like ("%purchase from " +:+ seller_name +:+ "%")
       (transport_description seller_name transport_service) = true.
Proof.
  destruct (transport_description_contains seller_name transport_service)
    as (pre & post & ->).
  change ("%purchase from " +:+ seller_name +:+ "%")
    with ("%" +:+ ("purchase from " +:+ seller_name) +:+ "%").
  apply like_append; [apply like_percent_only|].
  apply like_append; [apply like_self | apply like_percent_only].
Qed.

Lemma first_append_new {A} (p : A -> bool) (l : list A) (y : A) :
  Forall (fun x => p x = false) l -> p y = true ->
  first p (l ++ [y]) = Some y.
Proof.
  intros Hl Hy. unfold first.
  induction Hl as [|x l Hx _ IH]; simpl; [by rewrite Hy | by rewrite Hx].
Qed.

(** Raising the transport cost of a purchase that has a matching expense
    rewrites the matched expense and adds none. *)
Lemma update_transport_cost_found
    (db : Session) (purchase_id : Z) (old : Purchase.t) (existing : Expense.t)
    (cost : Q) :
  purchase_by_id db purchase_id = Some old ->
  first (linked_expense_filter (Purchase.date old) (Purchase.seller_name old))
        (rows (expenses db)) = Some existing ->
  (0 < cost)%Q ->
  exists p' db2,
    update_purchase db purchase_id (only_transport_cost cost) = Ok (p', db2)
    /\ length (rows (expenses db2)) = length (rows (expenses db))
    /\ Forall (fun e => Expense.id e = Expense.id existing ->
                        Expense.amount e = cost)
              (rows (expenses db2)).
Proof.
  intros Hold Hexisting Hcost. unfold update_purchase. rewrite Hold.
  eexists _, _. split; [reflexivity|].
  simpl. unfold sync_transport_expense, find_transport_expense. simpl.
  rewrite Hexisting. apply Qltb_lt in Hcost. rewrite Hcost. simpl.
  split; [by rewrite length_map|].
  apply Forall_forall. intros e He.
  apply list_elem_of_fmap in He as (r & -> & _).
  destruct (Expense.id r =? Expense.id existing) eqn:Hid; simpl; [done|].
  intros Heq. rewrite Heq, Z.eqb_refl in Hid. done.
Qed.

(** The scenario of the specification in any store whose purchase ids lie
    below the next id of the sequence: a purchase entered with a positive
    transport cost has a matching expense, so raising the cost afterwards
    rewrites the matched expense and adds none. *)
Lemma update_after_create_adds_no_expense
    (db : Session) (purchase : PurchaseCreate.t) (cost : Q) :
  Forall (fun r => Purchase.id r < next_id (purchases db)) (rows (purchases db)) ->
  (0 < PurchaseCreate.transport_cost purchase)%Q -> (0 < cost)%Q ->
  let p := fst (create_purchase db purchase) in
  let db1 := snd (create_purchase db purchase) in
  exists p' db2 existing,
    update_purchase db1 (Purchase.id p) (only_transport_cost cost) = Ok (p', db2)
    /\ first (linked_expense_filter (Purchase.date p) (Purchase.seller_name p))
             (rows (expenses db1)) = Some existing
    /\ length (rows (expenses db2)) = length (rows (expenses db1))
    /\ Forall (fun e => Expense.id e = Expense.id existing ->
                        Expense.amount e = cost)
              (rows (expenses db2)).
Proof.
  intros Hids Hpos Hcost p db1.
  assert (Hfind : purchase_by_id db1 (Purchase.id p) = Some p).
  { unfold purchase_by_id, db1, p; simpl. apply first_append_new.
    - eapply Forall_impl; [exact Hids|]. intros r Hr. simpl in Hr. lia.
    - simpl. lia. }
  assert (Hexp : exists existing,
             first (linked_expense_filter (Purchase.date p)
                      (Purchase.seller_name p))
                   (rows (expenses db1)) = Some existing).
  { unfold db1, p; simpl. apply Qltb_lt in Hpos. rewrite Hpos. simpl.
    eapply first_is_Some.
    - apply elem_of_app. right. apply list_elem_of_singleton. reflexivity.
    - unfold linked_expense_filter.
      apply andb_true_iff. split; [apply andb_true_iff; split|].
      + by apply datetime_eqb_eq.
      + reflexivity.
      + exact (transport_description_like _ _). }
  destruct Hexp as [existing Hexisting]. clearbody p db1.
  destruct (update_transport_cost_found db1 (Purchase.id p) p existing cost
              Hfind Hexisting Hcost) as (p' & db2 & Hr & Hlen & Hall).
  by exists p', db2, existing.
Qed.

(** ** Sales *)

Lemma items_total_Sigma (items : list SaleItemCreate.t) :
  (items_total items ==
     Sigma (fun item => SaleItemCreate.quantity item
                        * SaleItemCreate.price_per_unit item) items)%Q.
Proof.
  unfold items_total.
  rewrite (fold_left_plus_Sigma
             (fun item => SaleItemCreate.quantity item
                          * SaleItemCreate.price_per_unit item)%Q).
  ring.
Qed.

Lemma add_sale_items_rows (sale_id : Z) (items : list SaleItemCreate.t)
    (tb : table SaleItem.t) :
  exists new_rows,
    rows (add_sale_items sale_id items tb) = (rows tb ++ new_rows)%list
    /\ Forall2 (stored_as sale_id) items new_rows.
Proof.
  revert tb. induction items as [|item items IH]; intros tb.
  - exists []. split; [by rewrite app_nil_r | constructor].
  - destruct (IH (add (fun id =>
                         SaleItem.mk id sale_id
                           (SaleItemCreate.product_type_id item)
                           (SaleItemCreate.quantity item)
                           (SaleItemCreate.unit item)
                           (SaleItemCreate.price_per_unit item)
                           (SaleItemCreate.quantity item
                            * SaleItemCreate.price_per_unit item)%Q) tb))
      as (new_rows & Hrows & Hall).
    eexists (_ :: new_rows). split.
    + simpl. rewrite Hrows. simpl. by rewrite <- app_assoc.
    + constructor; [|done]. by repeat split.
Qed.

(** C6. [create_sale] stores the sale with [total_amount] the sum of
    [quantity * price_per_unit] over its items and one [SaleItem] row per
    item with [total_price = quantity * price_per_unit]; for the items
    (10 at 5) and (2 at 3) the total is 56 and the two rows carry 50 and
    6.  A payment dated as the sale, for the sale's buyer and of amount
    [payment_received_now], is added exactly when
    [payment_received_now > 0]. *)
Theorem create_sale_totals_and_payment (db : Session) (sale : SaleCreate.t) :
  let s := fst (create_sale db sale) in
  let db' := snd (create_sale db sale) in
  let received := SaleCreate.payment_received_now sale in
  rows (sales db') = (rows (sales db) ++ [s])%list
  /\ (Sale.total_amount s ==
        Sigma (fun item => SaleItemCreate.quantity item
                           * SaleItemCreate.price_per_unit item)
              (SaleCreate.sale_items sale))%Q
  /\ (exists new_rows,
        rows (sale_items db') = (rows (sale_items db) ++ new_rows)%list
        /\ Forall2 (stored_as (Sale.id s)) (SaleCreate.sale_items sale) new_rows
        /\ (map (fun item => (SaleItemCreate.quantity item,
                              SaleItemCreate.price_per_unit item))
                (SaleCreate.sale_items sale)
            = [(10%Q, 5%Q); (2%Q, 3%Q)] ->
            Sale.total_amount s = 56%Q
            /\ map SaleItem.total_price new_rows = [50%Q; 6%Q]))
  /\ ((0 < received)%Q ->
      exists payment,
        rows (payments db') = (rows (payments db) ++ [payment])%list
        /\ Payment.date payment = SaleCreate.date sale
        /\ Payment.buyer_id payment = SaleCreate.buyer_id sale
        /\ Payment.amount payment = received)
  /\ (~ (0 < received)%Q -> payments db' = payments db).
Proof.
  simpl. split_and!.
  - done.
  - apply items_total_Sigma.
  - destruct (add_sale_items_rows (next_id (sales db))
                (SaleCreate.sale_items sale) (sale_items db))
      as (new_rows & Hrows & Hall).
    exists new_rows. split_and!; [done..|].
    intros Hitems.
    destruct (SaleCreate.sale_items sale) as [|i1 [|i2 [|i3 items]]];
      try discriminate Hitems.
    injection Hitems as Hq1 Hp1 Hq2 Hp2.
    unfold items_total; simpl. rewrite Hq1, Hp1, Hq2, Hp2.
    split; [reflexivity|].
    inversion Hall as [|? r1 ? rest1 H1 Hall1]; subst.
    inversion Hall1 as [|? r2 ? rest2 H2 Hall2]; subst.
    inversion Hall2; subst. simpl.
    destruct H1 as (_ & _ & _ & _ & _ & ->), H2 as (_ & _ & _ & _ & _ & ->).
    rewrite Hq1, Hp1, Hq2, Hp2. reflexivity.
  - intros Hpos. apply Qltb_lt in Hpos. rewrite Hpos. simpl.
    eexists. split_and!; reflexivity.
  - intros Hnpos.
    destruct (Qltb 0 (SaleCreate.payment_received_now sale)) eqn:Hlt; [|done].
    by apply Qltb_lt in Hlt.
Qed.

Lemma create_sale_totals_and_payment_witness :
  Sale.total_amount (fst (create_sale ledger_db ravi_sale)) = 56%Q
  /\ exists payment,
       rows (payments (snd (create_sale ledger_db ravi_sale)))
       = (rows (payments ledger_db) ++ [payment])%list
       /\ Payment.amount payment = 20%Q.
Proof.
  destruct (create_sale_totals_and_payment ledger_db ravi_sale)
    as (_ & _ & (new_rows & _ & _ & Hitems) & Hpay & _).
  split.
  - exact (proj1 (Hitems eq_refl)).
  - destruct (Hpay eq_refl) as (payment & Hrows & _ & _ & Hamount).
    exists payment. split; [exact Hrows | exact Hamount].
Defined.

Example create_sale_ravi :
  let s := fst (create_sale ledger_db ravi_sale) in
  let db' := snd (create_sale ledger_db ravi_sale) in
  Sale.total_amount s = 56%Q
  /\ map SaleItem.total_price (rows (sale_items db')) = [50%Q; 6%Q]
  /\ map (fun p => (Payment.buyer_id p, Payment.amount p)) (rows (payments db'))
     = [(1, 200%Q); (1, 20%Q)].
Proof. vm_compute. done. Qed.

(** C10. [update_sale] answers NotFound for an unknown id and otherwise
    rewrites, in the row of that sale alone, the fields the update
    supplies.  [total_amount] is never recomputed, every other table
    (sale items and payments among them) is left as it was, so the
    payments of every buyer are unchanged; and when the update does not
    move the sale to another buyer, as when it changes
    [payment_received_now] alone, every buyer's outstanding balance is
    unchanged too, where [create_sale] would have added a payment. *)
Theorem update_sale_frame (db : Session) (sale_id : Z) (u : SaleUpdate.t) :
  match update_sale db sale_id u with
  | Err e => NotFound e /\ sale_by_id db sale_id = None
  | Ok (s', db') =>
      (exists s,
          sale_by_id db sale_id = Some s
          /\ Sale.id s' = Sale.id s
          /\ Sale.date s' = get (SaleUpdate.date u) (Sale.date s)
          /\ Sale.buyer_id s' = get (SaleUpdate.buyer_id u) (Sale.buyer_id s)
          /\ Sale.payment_type s'
             = get (SaleUpdate.payment_type u) (Sale.payment_type s)
          /\ Sale.payment_received_now s'
             = get (SaleUpdate.payment_received_now u)
                   (Sale.payment_received_now s)
          /\ Sale.notes s' = set_nullable (SaleUpdate.notes u) (Sale.notes s)
          /\ Sale.total_amount s' = Sale.total_amount s)
      /\ rows (sales db')
         = map (fun r => if Sale.id r =? sale_id then Sale_setattrs u r else r)
               (rows (sales db))
      /\ map Sale.total_amount (rows (sales db'))
         = map Sale.total_amount (rows (sales db))
      /\ sale_items db' = sale_items db
      /\ payments db' = payments db
      /\ buyers db' = buyers db
      /\ purchases db' = purchases db
      /\ expenses db' = expenses db
      /\ (forall b, Buyer_payments db' b = Buyer_payments db b)
      /\ (SaleUpdate.buyer_id u = None ->
          forall b, outstanding_balance db' b = outstanding_balance db b)
  end.
Proof.
  unfold update_sale.
  destruct (sale_by_id db sale_id) as [s|] eqn:Hs; [|done].
  assert (Hid : Sale.id s = sale_id).
  { apply first_Some in Hs as [_ Hs]. lia. }
  split_and!; try done.
  - exists s. by split_and!.
  - simpl. by rewrite Hid.
  - simpl. rewrite <- list_fmap_compose. apply list_fmap_ext.
    intros i r _. simpl. by destruct (Sale.id r =? Sale.id s).
  - intros Hb b. unfold outstanding_balance, total_sales, total_payments.
    f_equal. f_equal. f_equal. unfold Buyer_sales; simpl.
    induction (rows (sales db)) as [|r l IH]; [done|]. simpl.
    destruct (Sale.id r =? Sale.id s); simpl; rewrite ?Hb; simpl;
      destruct (Sale.buyer_id r =? Buyer.id b); simpl; by rewrite IH.
Qed.

Lemma update_sale_frame_witness :
  outstanding_balance
    (store_after ledger_db
       (update_sale ledger_db 1
          (SaleUpdate.mk None None None (Some 300%Q) None))) ravi
  = outstanding_balance ledger_db ravi.
Proof.
  pose proof (update_sale_frame ledger_db 1
                (SaleUpdate.mk None None None (Some 300%Q) None)) as H.
  destruct (update_sale ledger_db 1
              (SaleUpdate.mk None None None (Some 300%Q) None))
    as [[s' db']|e].
  - destruct H as (_ & _ & _ & _ & _ & _ & _ & _ & _ & Hout).
    exact (Hout eq_refl ravi).
  - destruct H as [_ H]. discriminate H.
Defined.

(** Changing [payment_received_now] of the first sale of [ledger_db] to
    300 leaves Ravi's payments and his outstanding balance of 456 as they
    were. *)
Example update_sale_payment_received_now :
  match update_sale ledger_db 1
          (SaleUpdate.mk None None None (Some 300%Q) None) with
  | Ok (s', db') =>
      Sale.payment_received_now s' = 300%Q
      /\ Sale.total_amount s' = 500%Q
      /\ rows (payments db') = rows (payments ledger_db)
      /\ outstanding_balance db' ravi = 456%Q
  | Err _ => False
  end.
Proof. vm_compute. done. Qed.

(** ** Deleting a buyer *)

(** C9. [delete_buyer] answers NotFound for an unknown id; for a buyer
    with at least one sale or at least one payment it answers with the
    Conflict class of errors (status 400); in both cases the store after
    the request is the store before it, so the buyer, the sales and the
    payments are exactly as they were. *)
Theorem delete_buyer_rejected (db : Session) (buyer_id : Z) :
  match buyer_by_id db buyer_id with
  | None =>
      (exists e, delete_buyer db buyer_id = Err e /\ NotFound e)
      /\ store_after db (delete_buyer db buyer_id) = db
  | Some b =>
      Buyer_sales db b <> [] \/ Buyer_payments db b <> [] ->
      (exists e, delete_buyer db buyer_id = Err e /\ Conflict e)
      /\ store_after db (delete_buyer db buyer_id) = db
      /\ buyer_by_id (store_after db (delete_buyer db buyer_id)) buyer_id
         = Some b
      /\ Buyer_sales (store_after db (delete_buyer db buyer_id)) b
         = Buyer_sales db b
      /\ Buyer_payments (store_after db (delete_buyer db buyer_id)) b
         = Buyer_payments db b
  end.
Proof.
  unfold delete_buyer.
  destruct (buyer_by_id db buyer_id) as [b|] eqn:Hb.
  - intros Hrows.
    assert (Hguard : is_nonempty (Buyer_sales db b)
                     || is_nonempty (Buyer_payments db b) = true).
    { apply orb_true_iff.
      destruct Hrows as [H|H]; [left|right];
        by destruct (Buyer_sales db b), (Buyer_payments db b). }
    rewrite Hguard. simpl. split_and!; try done. by eexists.
  - split; [by eexists | done].
Qed.

Lemma delete_buyer_rejected_witness :
  (exists e, delete_buyer ledger_db 1 = Err e /\ Conflict e)
  /\ store_after ledger_db (delete_buyer ledger_db 1) = ledger_db.
Proof.
  pose proof (delete_buyer_rejected ledger_db 1) as H.
  change (buyer_by_id ledger_db 1) with (Some ravi) in H.
  destruct (H ltac:(left; discriminate)) as (Herr & Hsame & _).
  split; [exact Herr | exact Hsame].
Defined.

(** The guard is the only obstacle: a buyer without a sale and without a
    payment is deleted, and only that row goes. *)
Lemma delete_buyer_accepted (db : Session) (buyer_id : Z) (b : Buyer.t) :
  buyer_by_id db buyer_id = Some b ->
  Buyer_sales db b = [] -> Buyer_payments db b = [] ->
  exists msg db',
    delete_buyer db buyer_id = Ok (msg, db')
    /\ rows (buyers db')
       = List.filter (fun r => negb (Buyer.id r =? buyer_id)) (rows (buyers db))
    /\ sales db' = sales db /\ payments db' = payments db.
Proof.
  intros Hb Hs Hp. unfold delete_buyer. rewrite Hb, Hs, Hp. simpl.
  destruct (buyer_by_id_Some _ _ _ Hb) as [_ <-].
  eexists _, _. by split_and!.
Qed.

(** Ravi has two sales and a payment: he cannot be deleted. *)
Example delete_buyer_ravi :
  delete_buyer ledger_db 1
  = Err (HTTPException 400 "Cannot delete buyer with existing sales or payments")
  /\ delete_buyer ledger_db 7 = Err (HTTPException 404 "Buyer not found").
Proof. vm_compute. done. Qed.

(** ** Top buyers *)

Lemma StronglySorted_take {A} (R : A -> A -> Prop) (n : nat) (l : list A) :
  StronglySorted R l -> StronglySorted R (take n l).
Proof.
  intros Hl. revert n. induction Hl as [|x l Hl IH Hx]; intros [|n]; simpl;
    try constructor.
  - apply IH.
  - eapply Forall_forall. intros y Hy. apply subseteq_take in Hy.
    by eapply Forall_forall in Hx.
Qed.

Lemma StronglySorted_weaken {A} (R R' : A -> A -> Prop) (l : list A) :
  (forall a b, R a b -> R' a b) -> StronglySorted R l -> StronglySorted R' l.
Proof.
  intros HR. induction 1 as [|x l Hl IH Hx]; constructor; [done|].
  eapply Forall_impl; [exact Hx | apply HR].
Qed.

Lemma StronglySorted_slice_to {A} (R : A -> A -> Prop) (n : Z) (l : list A) :
  StronglySorted R l -> StronglySorted R (slice_to n l).
Proof. unfold slice_to. destruct (n <? 0); apply StronglySorted_take. Qed.

Lemma sort_outstanding_desc_descending (l : list TopBuyerStats.t) :
  descending (sort_outstanding_desc l).
Proof.
  unfold descending, sort_outstanding_desc.
  eapply StronglySorted_weaken;
    [|apply (sort_by_sorted
               (fun a b => Qle_bool (TopBuyerStats.outstanding_amount b)
                                    (TopBuyerStats.outstanding_amount a)))].
  - intros a b. apply Qle_bool_iff.
  - intros a b. rewrite !Qle_bool_iff.
    destruct (Qlt_le_dec (TopBuyerStats.outstanding_amount a)
                         (TopBuyerStats.outstanding_amount b)) as [H|H];
      [right; by apply Qlt_le_weak | by left].
  - intros a b c. rewrite !Qle_bool_iff. intros Hab Hbc. by eapply Qle_trans.
Qed.

Lemma length_slice_to {A} (n : Z) (l : list A) :
  0 <= n -> length (slice_to n l) = Nat.min (Z.to_nat n) (length l).
Proof.
  intros Hn. unfold slice_to.
  destruct (n <? 0) eqn:Hneg; [lia|]. apply length_take.
Qed.

(** C8 as stated fails on a tie: Asha and Bina both owe 100, both are
    returned, and the ranking is not strictly descending. *)
Lemma top_buyers_tie_not_strictly_descending :
  top_buyers_route tie_db None
  = Ok [TopBuyerStats.mk "Asha" 100%Q; TopBuyerStats.mk "Bina" 100%Q]
  /\ ~ strictly_descending (get_top_buyers tie_db 10).
Proof.
  split; [vm_compute; reflexivity|].
  assert (Hr : get_top_buyers tie_db 10
               = [TopBuyerStats.mk "Asha" 100%Q; TopBuyerStats.mk "Bina" 100%Q])
    by (vm_compute; reflexivity).
  rewrite Hr. intros Hs. inversion Hs as [|? ? _ Hall]; subst.
  inversion Hall as [|? ? Hlt _]; subst. simpl in Hlt.
  by apply Qlt_irrefl in Hlt.
Qed.

(** The list that the loop of [get_top_buyers] builds: the buyers whose
    balance is above 0, in table order. *)
Lemma buyer_stats_filter (db : Session) :
  buyer_stats db
  = map (fun b => TopBuyerStats.mk (Buyer.name b) (outstanding_balance db b))
        (List.filter (fun b => Qltb 0 (outstanding_balance db b))
                     (rows (buyers db))).
Proof.
  unfold buyer_stats. induction (rows (buyers db)) as [|b l IH]; simpl; [done|].
  fold (total_sales db b) (total_payments db b) (outstanding_balance db b).
  rewrite IH. by destruct (Qltb 0 (outstanding_balance db b)).
Qed.

(** A tie at the cut: with a limit of 1 the first of the two in table
    order is returned alone. *)
Example top_buyers_tie_at_the_cut :
  get_top_buyers tie_db 1 = [TopBuyerStats.mk "Asha" 100%Q].
Proof. vm_compute. reflexivity. Qed.

(** C8, amended. For a limit K from 1 to 50 (10 when the request names
    none) top-buyers computes the outstanding balance of every buyer,
    keeps the buyers whose balance is above 0, and returns the first K
    of the ranking of all kept buyers in descending order of outstanding
    balance (all of them when there are fewer than K).  The order is
    descending but not strictly: two buyers that owe the same amount can
    both be returned. *)
Theorem top_buyers_ranking (db : Session) (K : Z) :
  1 <= K <= 50 ->
  top_buyers_route db (Some K) = Ok (get_top_buyers db K)
  /\ top_buyers_route db None = Ok (get_top_buyers db 10)
  /\ (forall e, e ∈ get_top_buyers db K ->
        (0 < TopBuyerStats.outstanding_amount e)%Q
        /\ exists b, b ∈ rows (buyers db)
             /\ TopBuyerStats.buyer_name e = Buyer.name b
             /\ TopBuyerStats.outstanding_amount e = outstanding_balance db b)
  /\ (length (get_top_buyers db K) <= Z.to_nat K)%nat
  /\ descending (get_top_buyers db K)
  /\ (exists rest,
       descending (get_top_buyers db K ++ rest)
       /\ (forall e, e ∈ (get_top_buyers db K ++ rest)%list <->
            exists b, b ∈ rows (buyers db)
              /\ (0 < outstanding_balance db b)%Q
              /\ e = TopBuyerStats.mk (Buyer.name b) (outstanding_balance db b))
       /\ Permutation (get_top_buyers db K ++ rest)
            (map (fun b => TopBuyerStats.mk (Buyer.name b)
                             (outstanding_balance db b))
                 (List.filter (fun b => Qltb 0 (outstanding_balance db b))
                              (rows (buyers db)))))
  /\ length (get_top_buyers db K)
     = Nat.min (Z.to_nat K)
         (length (List.filter (fun b => Qltb 0 (outstanding_balance db b))
                              (rows (buyers db)))).
Proof.
  intros HK. split_and!.
  - unfold top_buyers_route, Query.
    replace ((1 <=? K) && (K <=? 50)) with true; [done|].
    symmetry. apply andb_true_iff. lia.
  - done.
  - intros e He. unfold get_top_buyers in He.
    apply elem_of_slice_to, elem_of_sort_by, elem_of_buyer_stats in He
      as (b & Hb & Hpos & ->).
    split; [done|]. by exists b.
  - unfold get_top_buyers. rewrite length_slice_to by lia. lia.
  - apply StronglySorted_slice_to, sort_outstanding_desc_descending.
  - exists (drop (Z.to_nat K) (sort_outstanding_desc (buyer_stats db))).
    unfold get_top_buyers, slice_to.
    replace (K <? 0) with false by lia.
    rewrite take_drop. split_and!.
    + apply sort_outstanding_desc_descending.
    + intros e. unfold sort_outstanding_desc.
      rewrite elem_of_sort_by. apply elem_of_buyer_stats.
    + unfold sort_outstanding_desc. rewrite sort_by_Permutation.
      by rewrite buyer_stats_filter.
  - unfold get_top_buyers. rewrite length_slice_to by lia.
    unfold sort_outstanding_desc.
    by rewrite sort_by_length, buyer_stats_filter, length_map.
Qed.

Lemma top_buyers_ranking_witness :
  (length (get_top_buyers tie_db 10) <= 10)%nat
  /\ descending (get_top_buyers tie_db 10).
Proof.
  destruct (top_buyers_ranking tie_db 10 ltac:(lia))
    as (_ & _ & _ & Hlen & Hdesc & _).
  split; [exact Hlen | exact Hdesc].
Defined.

(** ** Monthly statistics *)

(** *** The list of months *)

Lemma month_of_index_index (y m : Z) :
  1 <= m <= 12 -> month_of_index (month_index y m) = (y, m).
Proof.
  intros Hm. unfold month_of_index, month_index. f_equal.
  - symmetry. apply (Z.div_unique _ _ _ (m - 1)); lia.
  - assert ((12 * y + (m - 1)) mod 12 = m - 1); [|lia].
    symmetry. apply (Z.mod_unique _ _ y); lia.
Qed.

Lemma month_of_index_range (i : Z) : 1 <= snd (month_of_index i) <= 12.
Proof.
  unfold month_of_index; simpl.
  pose proof (Z.mod_pos_bound i 12). lia.
Qed.

Lemma month_of_index_year (i : Z) (lo hi : Z) :
  12 * lo <= i < 12 * (hi + 1) -> lo <= fst (month_of_index i) <= hi.
Proof.
  intros Hi. unfold month_of_index; simpl. split.
  - apply Z.div_le_lower_bound; lia.
  - assert (i / 12 < hi + 1); [|lia]. apply Z.div_lt_upper_bound; lia.
Qed.

Lemma month_list_loop_spec (n : nat) (curr : datetime.date)
    (acc : list (Z * Z)) :
  1 <= datetime.month curr <= 12 ->
  month_list_loop n curr acc
  = (acc ++ map (fun k : nat =>
                   month_of_index
                     (month_index (datetime.year curr) (datetime.month curr)
                      - Z.of_nat k))
                (seq 0 n))%list.
Proof.
  revert curr acc. induction n as [|n IH]; intros curr acc Hm.
  - simpl. by rewrite app_nil_r.
  - cbn [month_list_loop].
    rewrite IH.
    + rewrite <- app_assoc. f_equal. cbn [seq map app]. f_equal.
      * rewrite Z.sub_0_r. symmetry. by apply month_of_index_index.
      * rewrite <- seq_shift, map_map. apply map_ext. intros k.
        f_equal. unfold month_index.
        destruct (datetime.month curr =? 1) eqn:H1; simpl; lia.
    + destruct (datetime.month curr =? 1) eqn:H1; simpl; lia.
Qed.

Lemma month_list_spec (today : datetime.date) (months : Z) :
  1 <= datetime.month today <= 12 ->
  month_list today months
  = map (fun i : nat =>
           month_of_index
             (month_index (datetime.year today) (datetime.month today)
              - (Z.of_nat (Z.to_nat months) - 1 - Z.of_nat i)))
        (seq 0 (Z.to_nat months)).
Proof.
  intros Hm. unfold month_list.
  rewrite month_list_loop_spec by done. simpl.
  generalize (month_index (datetime.year today) (datetime.month today)).
  intros idx. generalize (Z.to_nat months). intros n.
  apply list_eq. intros i.
  destruct (decide (i < n)%nat) as [Hi|Hi].
  - rewrite reverse_lookup by (rewrite length_map, length_seq; lia).
    rewrite length_map, length_seq, !list_lookup_fmap.
    rewrite !lookup_seq_lt by lia. simpl. do 2 f_equal. lia.
  - rewrite !lookup_ge_None_2; [done|..].
    + rewrite length_map, length_seq. lia.
    + rewrite length_reverse, length_map, length_seq. lia.
Qed.

(** *** The keys of the dictionaries *)

Lemma string_length_append (s t : string) :
  String.length (s +:+ t) = (String.length s + String.length t)%nat.
Proof. induction s as [|c s IH]; simpl; [done | by rewrite IH]. Qed.

Lemma string_append_inj (s1 s2 t1 t2 : string) :
  String.length t1 = String.length t2 ->
  s1 +:+ t1 = s2 +:+ t2 -> s1 = s2 /\ t1 = t2.
Proof.
  intros Hlen. revert s2. induction s1 as [|c s1 IH]; intros [|d s2] H.
  - done.
  - apply (f_equal String.length) in H.
    rewrite !string_length_append in H. simpl in H. lia.
  - apply (f_equal String.length) in H.
    rewrite !string_length_append in H. simpl in H. lia.
  - change (String c (s1 +:+ t1) = String d (s2 +:+ t2)) in H.
    injection H as -> H. apply IH in H as [-> ->]. done.
Qed.

Lemma month_cases (m : Z) :
  1 <= m <= 12 ->
  m = 1 \/ m = 2 \/ m = 3 \/ m = 4 \/ m = 5 \/ m = 6 \/ m = 7
  \/ m = 8 \/ m = 9 \/ m = 10 \/ m = 11 \/ m = 12.
Proof. lia. Qed.

Ltac each_month H :=
  apply month_cases in H;
  destruct H as [->|[->|[->|[->|[->|[->|[->|[->|[->|[->|[->| ->]]]]]]]]]]].

Lemma fmt_02d_length (m : Z) :
  1 <= m <= 12 -> String.length (fmt_02d m) = 2%nat.
Proof. intros Hm. each_month Hm; reflexivity. Qed.

Lemma fmt_02d_inj (m1 m2 : Z) :
  1 <= m1 <= 12 -> 1 <= m2 <= 12 -> fmt_02d m1 = fmt_02d m2 -> m1 = m2.
Proof.
  intros H1 H2 H. each_month H1; each_month H2;
    first [reflexivity | vm_compute in H; discriminate H].
Qed.

Lemma month_key_inj (y1 m1 y2 m2 : Z) :
  1 <= m1 <= 12 -> 1 <= m2 <= 12 ->
  month_key y1 m1 = month_key y2 m2 -> y1 = y2 /\ m1 = m2.
Proof.
  intros H1 H2 H. unfold month_key in H.
  apply string_append_inj in H as [Hy Hm].
  - apply (inj (String.append "-")) in Hm. apply (inj pretty) in Hy.
    apply fmt_02d_inj in Hm; done.
  - by rewrite !string_length_append, !fmt_02d_length.
Qed.

(** *** The grouped sums *)

Lemma results_dict_snoc (l : list (Z * Z * Q)) (r : Z * Z * Q) :
  results_dict (l ++ [r])
  = <[month_key (fst (fst r)) (snd (fst r)) := snd r]> (results_dict l).
Proof. unfold results_dict. by rewrite fold_left_app. Qed.

Lemma results_dict_lookup (g : Z * Z -> Q) (yms : list (Z * Z)) (y m : Z) :
  Forall (fun ym => 1 <= snd ym <= 12) yms -> 1 <= m <= 12 ->
  results_dict (map (fun ym => (ym, g ym)) yms) !! month_key y m
  = if decide ((y, m) ∈ yms) then Some (g (y, m)) else None.
Proof.
  intros Hyms Hm. induction yms as [|[y' m'] yms IH] using rev_ind.
  - rewrite decide_False by apply not_elem_of_nil.
    apply lookup_empty.
  - apply Forall_app in Hyms as [Hyms Hym]. rewrite Forall_singleton in Hym.
    rewrite map_app. simpl. rewrite results_dict_snoc. simpl.
    rewrite lookup_insert.
    destruct (decide (month_key y' m' = month_key y m)) as [Hk|Hk].
    + apply month_key_inj in Hk as [-> ->]; [|done..].
      rewrite decide_True; [done|]. apply elem_of_app. right.
      by apply list_elem_of_singleton.
    + rewrite IH by done.
      destruct (decide ((y, m) ∈ yms)) as [Hin|Hin].
      * rewrite decide_True; [done|]. apply elem_of_app. by left.
      * rewrite decide_False; [done|]. intros Hin'.
        apply elem_of_app in Hin' as [?|Hin']; [done|].
        apply list_elem_of_singleton in Hin'. by injection Hin' as -> ->.
Qed.

Lemma filter_nil_if {A} (p : A -> bool) (l : list A) :
  (forall x, x ∈ l -> p x = false) -> List.filter p l = [].
Proof.
  induction l as [|x l IH]; intros H; simpl; [done|].
  rewrite H by apply list_elem_of_here.
  apply IH. intros y Hy. apply H. by apply list_elem_of_further.
Qed.

(** Looking a month up in the dictionary of a grouped query yields the
    sum of the rows of that month the query kept, [0] when it kept none. *)
Lemma monthly_dict_get {A} (date : A -> datetime.date) (amount : A -> Q)
    (start_date : datetime.date) (l : list A) (y m : Z) :
  Forall (fun r => 1 <= datetime.month (date r) <= 12) l -> 1 <= m <= 12 ->
  dict_get (results_dict (monthly_totals date amount start_date l))
           (month_key y m)
  = sum (map amount
           (List.filter (fun r => in_month y m (date r))
              (List.filter (fun r => datetime.leb start_date (date r)) l))).
Proof.
  intros Hl Hm. unfold dict_get, monthly_totals.
  set (kept := List.filter (fun r => datetime.leb start_date (date r)) l).
  rewrite (results_dict_lookup
             (fun ym => sum (map amount
                (List.filter (fun r => in_month (fst ym) (snd ym) (date r)) kept)))).
  - destruct (decide _) as [Hin|Hin]; simpl; [done|].
    rewrite filter_nil_if; [done|]. intros r Hr.
    apply not_true_iff_false. intros Hym. apply Hin.
    apply elem_of_remove_dups, list_elem_of_fmap. exists r. split; [|done].
    unfold in_month in Hym. apply andb_true_iff in Hym as [Hy Hm'].
    f_equal; lia.
  - apply Forall_forall. intros [y' m'] Hym.
    apply elem_of_remove_dups, list_elem_of_fmap in Hym as (r & [= -> ->] & Hr).
    simpl. unfold kept in Hr.
    apply list_elem_of_In, filter_In in Hr as [Hr _].
    apply list_elem_of_In in Hr. by eapply Forall_forall in Hl.
  - done.
Qed.

(** A month that starts on or after [start_date] lies wholly behind it. *)
Lemma filter_in_month_from {A} (date : A -> datetime.date) (l : list A)
    (y0 m0 y m : Z) :
  Forall (fun r => 1 <= datetime.day (date r)) l ->
  month_index y0 m0 <= month_index y m -> 1 <= m0 <= 12 -> 1 <= m <= 12 ->
  List.filter (fun r => in_month y m (date r))
    (List.filter (fun r => datetime.leb (datetime.mkdate y0 m0 1) (date r)) l)
  = List.filter (fun r => in_month y m (date r)) l.
Proof.
  intros Hl Hidx Hm0 Hm. unfold month_index in Hidx.
  induction Hl as [|r l Hr Hl IH]; simpl; [done|].
  destruct (in_month y m (date r)) eqn:Hin.
  - replace (datetime.leb (datetime.mkdate y0 m0 1) (date r)) with true.
    + simpl. by rewrite Hin, IH.
    + symmetry. unfold in_month in Hin. apply andb_true_iff in Hin as [Hy Hmm].
      unfold datetime.leb; simpl.
      destruct (y0 <? datetime.year (date r)) eqn:E1; [done|]. simpl.
      replace (y0 =? datetime.year (date r)) with true by lia. simpl.
      destruct (m0 <? datetime.month (date r)) eqn:E2; [done|]. simpl.
      replace (m0 =? datetime.month (date r)) with true by lia. simpl. lia.
  - destruct (datetime.leb (datetime.mkdate y0 m0 1) (date r)); simpl;
      by rewrite ?Hin, IH.
Qed.

(** *** The label *)

Lemma pretty_N_4_digits (x : N) :
  (1000 <= x < 10000)%N -> String.length (pretty x) = 4%nat.
Proof.
  intros Hx. unfold pretty, pretty_N.
  rewrite decide_False by lia.
  assert (H1 : (100 <= N.div x 10 < 1000)%N).
  { split; [apply N.div_le_lower_bound | apply N.Div0.div_lt_upper_bound]; lia. }
  assert (H2 : (10 <= N.div (N.div x 10) 10 < 100)%N).
  { split; [apply N.div_le_lower_bound | apply N.Div0.div_lt_upper_bound]; lia. }
  assert (H3 : (1 <= N.div (N.div (N.div x 10) 10) 10 < 10)%N).
  { split; [apply N.div_le_lower_bound | apply N.Div0.div_lt_upper_bound]; lia. }
  assert (H4 : (N.div (N.div (N.div (N.div x 10) 10) 10) 10 = 0)%N).
  { apply N.div_small. lia. }
  rewrite !pretty_N_go_step by lia.
  rewrite H4, pretty_N_go_0. reflexivity.
Qed.

Lemma pretty_year_4_digits (y : Z) :
  1000 <= y <= 9999 -> String.length (pretty y) = 4%nat.
Proof.
  intros Hy. destruct y as [|p|p]; try lia.
  apply (pretty_N_4_digits (N.pos p)). lia.
Qed.

Lemma month_abbr_length (m : Z) :
  1 <= m <= 12 -> String.length (month_abbr m) = 3%nat.
Proof. intros Hm. each_month Hm; reflexivity. Qed.

(** *** The series *)

Lemma month_index_of_index (i : Z) :
  month_index (fst (month_of_index i)) (snd (month_of_index i)) = i.
Proof.
  unfold month_index, month_of_index; simpl.
  pose proof (Z.div_mod i 12). lia.
Qed.

Lemma dates_ok_spec (db : Session) :
  dates_ok db = true ->
  Forall (fun r => date_ok (Purchase.date r) = true) (rows (purchases db))
  /\ Forall (fun r => date_ok (Sale.date r) = true) (rows (sales db))
  /\ Forall (fun r => date_ok (Expense.date r) = true) (rows (expenses db)).
Proof.
  unfold dates_ok. rewrite !andb_true_iff, !forallb_forall, !Forall_forall.
  setoid_rewrite list_elem_of_In. tauto.
Qed.

Lemma date_ok_spec (d : datetime.date) :
  date_ok d = true ->
  1 <= datetime.year d <= 9999 /\ 1 <= datetime.month d <= 12
  /\ 1 <= datetime.day d <= 31.
Proof. unfold date_ok. rewrite !andb_true_iff. lia. Qed.

(** One dictionary lookup of [get_monthly_stats], for a month of the
    list. *)
Lemma monthly_lookup {A} (date : A -> datetime.date) (amount : A -> Q)
    (l : list A) (i0 i : Z) :
  Forall (fun r => date_ok (date r) = true) l -> i0 <= i ->
  (dict_get
     (results_dict
        (monthly_totals date amount
           (datetime.mkdate (fst (month_of_index i0)) (snd (month_of_index i0)) 1)
           l))
     (month_key (fst (month_of_index i)) (snd (month_of_index i)))
   == month_total date amount (month_of_index i) l)%Q.
Proof.
  intros Hl Hi. rewrite monthly_dict_get.
  - rewrite filter_in_month_from.
    + apply sum_map_Sigma.
    + eapply Forall_impl; [exact Hl|]. intros r Hr.
      apply date_ok_spec in Hr. lia.
    + by rewrite !month_index_of_index.
    + apply month_of_index_range.
    + apply month_of_index_range.
  - eapply Forall_impl; [exact Hl|]. intros r Hr.
    apply date_ok_spec in Hr. lia.
  - apply month_of_index_range.
Qed.

(** C7. With well-formed dates in the store and on the clock (a year of
    four digits throughout the window), monthly-stats for a parameter N
    from 1 to 24 returns exactly N entries.  Entry [i], counted from 0,
    stands for the calendar month [N - 1 - i] months before the current
    one, so the list runs from the oldest month to the current month.
    Its label is the three-letter month name, a space and the four-digit
    year; its purchases, sales and expenses are the sums over the rows
    dated in that year and month (0 when there is none); its profit is
    sales minus purchases minus expenses. *)
Theorem monthly_stats_series (db : Session) (today : datetime.date) (N : Z) :
  dates_ok db = true -> date_ok today = true ->
  1002 <= datetime.year today ->
  1 <= N <= 24 ->
  exists stats,
    monthly_stats_route db today (Some N) = Ok stats
    /\ length stats = Z.to_nat N
    /\ month_of_index (month_index (datetime.year today) (datetime.month today))
       = (datetime.year today, datetime.month today)
    /\ forall i : Z, 0 <= i < N ->
         let ym :=
           month_of_index
             (month_index (datetime.year today) (datetime.month today)
              - (N - 1 - i)) in
         exists e,
           stats !! Z.to_nat i = Some e
           /\ MonthlyStats.month e = month_abbr (snd ym) +:+ " " +:+ pretty (fst ym)
           /\ String.length (month_abbr (snd ym)) = 3%nat
           /\ String.length (pretty (fst ym)) = 4%nat
           /\ (MonthlyStats.purchases e
               == month_total Purchase.date Purchase.total_purchase_cost ym
                    (rows (purchases db)))%Q
           /\ (MonthlyStats.sales e
               == month_total Sale.date Sale.total_amount ym
                    (rows (sales db)))%Q
           /\ (MonthlyStats.expenses e
               == month_total Expense.date Expense.amount ym
                    (rows (expenses db)))%Q
           /\ MonthlyStats.profit e
              = (MonthlyStats.sales e - MonthlyStats.purchases e
                 - MonthlyStats.expenses e)%Q.
Proof.
  intros Hdb Htoday Hyear HN.
  apply dates_ok_spec in Hdb as (Hp & Hs & He).
  apply date_ok_spec in Htoday as (Hy & Hm & _).
  unfold monthly_stats_route, Query.
  replace ((1 <=? N) && (N <=? 24)) with true
    by (symmetry; apply andb_true_iff; lia).
  unfold get_monthly_stats. rewrite month_list_spec by done.
  set (idx := month_index (datetime.year today) (datetime.month today)).
  assert (Hidx : 12 * datetime.year today <= idx
                 < 12 * (datetime.year today + 1))
    by (unfold idx, month_index; lia).
  destruct (Z.to_nat N) as [|n] eqn:Hn; [lia|].
  cbn [seq map].
  set (i0 := idx - (Z.of_nat (S n) - 1 - Z.of_nat 0)).
  rewrite (surjective_pairing (month_of_index i0)).
  eexists. split; [reflexivity|]. split_and!.
  - cbn [length]. by rewrite !length_map, length_seq.
  - by apply month_of_index_index.
  - intros i Hi. rewrite <- (surjective_pairing (month_of_index i0)).
    set (ym := month_of_index (idx - (N - 1 - i))).
    assert (Hym : ym = month_of_index
                         (idx - (Z.of_nat (S n) - 1 - Z.of_nat (Z.to_nat i)))).
    { unfold ym. f_equal. lia. }
    assert (Hrange : 12 * (datetime.year today - 2)
                     <= idx - (Z.of_nat (S n) - 1 - Z.of_nat (Z.to_nat i))
                     < 12 * (datetime.year today + 1)) by lia.
    assert (Hfrom : i0 <= idx - (Z.of_nat (S n) - 1 - Z.of_nat (Z.to_nat i)))
      by (unfold i0; lia).
    eexists. split.
    { change (?f (month_of_index i0)
              :: map ?f (map ?g (seq 1 n)))
        with (map f (map g (seq 0 (S n)))).
      rewrite !list_lookup_fmap, lookup_seq_lt by lia. simpl. reflexivity. }
    rewrite Hym. cbn [Nat.add].
    split_and!.
    + reflexivity.
    + apply month_abbr_length, month_of_index_range.
    + apply pretty_year_4_digits.
      pose proof (month_of_index_year _ _ _ Hrange). lia.
    + by apply monthly_lookup.
    + by apply monthly_lookup.
    + by apply monthly_lookup.
    + reflexivity.
Qed.

Lemma monthly_stats_series_witness :
  exists stats,
    monthly_stats_route acme_db (datetime.mkdate 2024 3 17) (Some 3) = Ok stats
    /\ length stats = 3%nat.
Proof.
  destruct (monthly_stats_series acme_db (datetime.mkdate 2024 3 17) 3
              eq_refl eq_refl ltac:(simpl; lia) ltac:(lia))
    as (stats & Hstats & Hlen & _).
  exists stats. split; [exact Hstats | exact Hlen].
Defined.

(** The example of the specification: three months asked for in March. *)
Example monthly_stats_march :
  monthly_stats_route acme_db (datetime.mkdate 2024 3 17) (Some 3)
  = Ok [MonthlyStats.mk "Jan 2024" 0%Q 0%Q 0%Q 0%Q;
        MonthlyStats.mk "Feb 2024" 0%Q 0%Q 0%Q 0%Q;
        MonthlyStats.mk "Mar 2024" 100%Q 0%Q 50%Q (-150)%Q].
Proof. vm_compute. reflexivity. Qed.

Example monthly_stats_across_years :
  month_list (datetime.mkdate 2024 2 29) 4
  = [(2023, 11); (2023, 12); (2024, 1); (2024, 2)].
Proof. reflexivity. Qed.

(** * Further properties of the handlers *)

(** ** Tables and keys *)

Lemma table_ok_add {A} (id : A -> Z) (mk : Z -> A) (tb : table A) :
  id (mk (next_id tb)) = next_id tb ->
  table_ok id tb -> table_ok id (add mk tb).
Proof.
  intros Hid [Hnd Hlt]. unfold table_ok, add; simpl. split.
  - rewrite map_app. simpl. apply NoDup_app. split_and!; [done| |].
    + intros x Hx Hx'. apply list_elem_of_singleton in Hx'. subst x.
      apply list_elem_of_fmap in Hx as (r & Hr & Hin).
      eapply Forall_forall in Hlt; [|exact Hin]. lia.
    + apply NoDup_singleton.
  - apply Forall_app. split.
    + eapply Forall_impl; [exact Hlt|]. intros r Hr. simpl in Hr. lia.
    + apply Forall_singleton. lia.
Qed.

Lemma table_ok_update_where {A} (id : A -> Z) (pk : Z) (set : A -> A)
    (tb : table A) :
  (forall r, id (set r) = id r) ->
  table_ok id tb -> table_ok id (update_where id pk set tb).
Proof.
  intros Hset [Hnd Hlt]. unfold table_ok, update_where; simpl.
  assert (Hmap : map id (map (fun r => if id r =? pk then set r else r)
                            (rows tb)) = map id (rows tb)).
  { rewrite map_map. apply map_ext. intros r.
    destruct (id r =? pk); [apply Hset | done]. }
  split; [by rewrite Hmap|].
  apply Forall_forall. intros r' Hr'.
  apply list_elem_of_fmap in Hr' as (r & -> & Hr).
  eapply Forall_forall in Hlt; [|exact Hr].
  destruct (id r =? pk); [by rewrite Hset | done].
Qed.

Lemma NoDup_map_filter {A} (id : A -> Z) (p : A -> bool) (l : list A) :
  NoDup (map id l) -> NoDup (map id (List.filter p l)).
Proof.
  induction l as [|x l IH]; simpl; [done|].
  intros Hnd. apply NoDup_cons in Hnd as [Hx Hnd].
  destruct (p x); simpl; [|by apply IH].
  apply NoDup_cons. split; [|by apply IH].
  intros Hin. apply Hx.
  apply list_elem_of_fmap in Hin as (r & Hr & Hin).
  apply list_elem_of_fmap. exists r. split; [done|].
  apply list_elem_of_In, filter_In in Hin as [Hin _].
  by apply list_elem_of_In.
Qed.

Lemma Forall_filter_keep {A} (P : A -> Prop) (p : A -> bool) (l : list A) :
  Forall P l -> Forall P (List.filter p l).
Proof.
  intros Hl. apply Forall_forall. intros x Hx.
  apply list_elem_of_In, filter_In in Hx as [Hx _].
  apply list_elem_of_In in Hx. by eapply Forall_forall in Hl.
Qed.

Lemma table_ok_filter {A} (id : A -> Z) (p : A -> bool) (tb : table A) :
  table_ok id tb ->
  table_ok id (mk_table (List.filter p (rows tb)) (next_id tb)).
Proof.
  intros [Hnd Hlt]. split; simpl.
  - by apply NoDup_map_filter.
  - by apply Forall_filter_keep.
Qed.

(** With distinct keys, the lookup by key finds the row that carries it. *)
Lemma first_by_key {A} (id : A -> Z) (l : list A) (r : A) :
  NoDup (map id l) -> r ∈ l ->
  first (fun x => id x =? id r) l = Some r.
Proof.
  unfold first. induction l as [|x l IH]; simpl; intros Hnd Hin.
  - by apply elem_of_nil in Hin.
  - apply NoDup_cons in Hnd as [Hx Hnd].
    apply elem_of_cons in Hin as [->|Hin].
    + by rewrite Z.eqb_refl.
    + destruct (id x =? id r) eqn:Heq; [|by apply IH].
      exfalso. apply Hx. apply list_elem_of_fmap. exists r.
      split; [lia | done].
Qed.

Lemma first_None_iff {A} (p : A -> bool) (l : list A) :
  first p l = None <-> Forall (fun x => p x = false) l.
Proof.
  unfold first. induction l as [|x l IH]; simpl.
  - split; [constructor | done].
  - destruct (p x) eqn:Hp.
    + split; [done|]. intros H. apply Forall_cons in H as [H _]. congruence.
    + rewrite IH. split; [by constructor | by intros [_ ?]%Forall_cons].
Qed.

Lemma first_filter_out {A} (id : A -> Z) (pk : Z) (l : list A) :
  first (fun x => id x =? pk)
        (List.filter (fun x => negb (id x =? pk)) l) = None.
Proof.
  apply first_None_iff, Forall_forall. intros x Hx.
  apply list_elem_of_In, filter_In in Hx as [_ Hx].
  by apply negb_true_iff in Hx.
Qed.

Lemma add_sale_items_table_ok (sale_id : Z) (items : list SaleItemCreate.t)
    (tb : table SaleItem.t) :
  table_ok SaleItem.id tb ->
  table_ok SaleItem.id (add_sale_items sale_id items tb).
Proof.
  revert tb. induction items as [|item items IH]; intros tb Htb; [done|].
  simpl. apply IH. by apply table_ok_add.
Qed.

Lemma add_sale_items_sale_ids (sale_id bound : Z) (items : list SaleItemCreate.t)
    (tb : table SaleItem.t) :
  sale_id < bound ->
  Forall (fun i => SaleItem.sale_id i < bound) (rows tb) ->
  Forall (fun i => SaleItem.sale_id i < bound)
         (rows (add_sale_items sale_id items tb)).
Proof.
  intros Hlt Htb.
  destruct (add_sale_items_rows sale_id items tb) as (new_rows & -> & Hnew).
  apply Forall_app. split; [done|].
  clear Htb. induction Hnew as [|item row items new_rows Hrow _ IH];
    constructor; [|done].
  destruct Hrow as [-> _]. done.
Qed.

Ltac store_ok_parts H :=
  destruct H as (Hbuyers & Hpurchases & Hsales & Hitems & Hpayments
                 & Hexpenses & Hrefs).

(** X1. Every handler that writes keeps the keys of the store sound:
    primary keys stay pairwise distinct and below their sequence, and sale
    items keep referring to sale ids that were handed out. *)
Theorem store_ok_preserved (db : Session) :
  store_ok db ->
  (forall buyer, store_ok (snd (create_buyer db buyer)))
  /\ (forall id u, store_ok (store_after db (update_buyer db id u)))
  /\ (forall id, store_ok (store_after db (delete_buyer db id)))
  /\ (forall id payment, store_ok (store_after db (add_payment db id payment)))
  /\ (forall sale, store_ok (snd (create_sale db sale)))
  /\ (forall id u, store_ok (store_after db (update_sale db id u)))
  /\ (forall id, store_ok (store_after db (delete_sale db id)))
  /\ (forall purchase, store_ok (snd (create_purchase db purchase)))
  /\ (forall id u, store_ok (store_after db (update_purchase db id u)))
  /\ (forall id, store_ok (store_after db (delete_purchase db id)))
  /\ (forall expense, store_ok (snd (create_expense db expense)))
  /\ (forall id u, store_ok (store_after db (update_expense db id u)))
  /\ (forall id, store_ok (store_after db (delete_expense db id))).
Proof.
  intros Hok. pose proof Hok as Hok'. store_ok_parts Hok'.
  split_and!.
  - intros buyer. unfold store_ok; simpl. split_and!; try done.
    by apply table_ok_add.
  - intros id u. unfold update_buyer.
    destruct (buyer_by_id db id); [|done]. unfold store_ok; simpl.
    split_and!; try done. by apply table_ok_update_where.
  - intros id. unfold delete_buyer.
    destruct (buyer_by_id db id); [|done].
    destruct (_ || _); [done|]. unfold store_ok; simpl.
    split_and!; try done. by apply table_ok_filter.
  - intros id payment. unfold add_payment.
    destruct (buyer_by_id db id); [|done]. unfold store_ok; simpl.
    split_and!; try done. by apply table_ok_add.
  - intros sale. unfold store_ok; simpl. split_and!; try done.
    + by apply table_ok_add.
    + by apply add_sale_items_table_ok.
    + destruct (Qltb 0 (SaleCreate.payment_received_now sale)); [|done].
      by apply table_ok_add.
    + apply add_sale_items_sale_ids; [lia|].
      eapply Forall_impl; [exact Hrefs|]. intros i Hi. simpl in Hi. lia.
  - intros id u. unfold update_sale.
    destruct (sale_by_id db id); [|done]. unfold store_ok; simpl.
    split_and!; try done. by apply table_ok_update_where.
  - intros id. unfold delete_sale.
    destruct (sale_by_id db id); [|done]. unfold store_ok; simpl.
    split_and!; try done.
    + by apply table_ok_filter.
    + by apply table_ok_filter.
    + by apply Forall_filter_keep.
  - intros purchase. unfold store_ok; simpl. split_and!; try done.
    + by apply table_ok_add.
    + destruct (Qltb 0 (PurchaseCreate.transport_cost purchase)); [|done].
      by apply table_ok_add.
  - intros id u. unfold update_purchase.
    destruct (purchase_by_id db id); [|done]. unfold store_ok; simpl.
    split_and!; try done.
    + by apply table_ok_update_where.
    + destruct (has_key (PurchaseUpdate.transport_cost u)); [|done].
      unfold sync_transport_expense, find_transport_expense; simpl.
      destruct (first _ (rows (expenses db)));
        destruct (Qltb 0 _); try done.
      * by apply table_ok_update_where.
      * by apply table_ok_filter.
      * by apply table_ok_add.
  - intros id. unfold delete_purchase.
    destruct (purchase_by_id db id); [|done]. unfold store_ok; simpl.
    split_and!; try done.
    + by apply table_ok_filter.
    + destruct (Qltb 0 _); [|done].
      destruct (find_transport_expense db t); [|done].
      by apply table_ok_filter.
  - intros expense. unfold store_ok; simpl. split_and!; try done.
    by apply table_ok_add.
  - intros id u. unfold update_expense.
    destruct (expense_by_id db id); [|done]. unfold store_ok; simpl.
    split_and!; try done. by apply table_ok_update_where.
  - intros id. unfold delete_expense.
    destruct (expense_by_id db id); [|done]. unfold store_ok; simpl.
    split_and!; try done. by apply table_ok_filter.
Qed.

Lemma store_ok_empty : store_ok empty_db.
Proof.
  unfold store_ok, table_ok; simpl.
  split_and!; constructor.
Qed.

(** Keys of a sample store are checked by evaluation. *)
Ltac check_keys :=
  unfold store_ok, table_ok; simpl;
  repeat split;
  match goal with
  | |- ?P => let d := constr:(_ : Decision P) in
             apply (@bool_decide_unpack P d); vm_compute; exact I
  end.

Lemma store_ok_ledger_db : store_ok ledger_db.
Proof. check_keys. Qed.

Lemma store_ok_acme_db : store_ok acme_db.
Proof. check_keys. Qed.

Lemma store_ok_preserved_witness :
  store_ok acme_db /\ store_ok (snd (create_sale acme_db ravi_sale)).
Proof.
  destruct (store_ok_preserved empty_db store_ok_empty)
    as (_ & _ & _ & _ & _ & _ & _ & Hpurchase & _).
  split; [exact (Hpurchase acme_purchase)|].
  destruct (store_ok_preserved acme_db (Hpurchase acme_purchase))
    as (_ & _ & _ & _ & Hsale & _).
  exact (Hsale ravi_sale).
Defined.

(** ** Payments and balances *)

(** The sum over a list with one more element at its end is the sum so
    far plus that element: the last addition [sum] makes. *)
Lemma sum_last (l : list Q) (x : Q) : sum (l ++ [x]) = (sum l + x)%Q.
Proof. unfold sum. by rewrite fold_left_app. Qed.

(** X2. [add_payment] on an existing buyer enters one payment, for the
    buyer of the path whatever buyer the body names.  The payments of
    that buyer are the ones before followed by the new one, so
    [total_payments] is the total before plus the amount paid,
    [total_sales] is as before, and the outstanding balance is computed
    as opening balance + total sales - (total payments before + amount
    paid); the balance of every other buyer stays as it is. *)
Theorem add_payment_adds_to_total_payments
    (db : Session) (buyer_id : Z) (payment : PaymentCreate.t) (b : Buyer.t) :
  buyer_by_id db buyer_id = Some b ->
  exists p db',
    add_payment db buyer_id payment = Ok (p, db')
    /\ rows (payments db') = (rows (payments db) ++ [p])%list
    /\ Payment.buyer_id p = buyer_id
    /\ Payment.amount p = PaymentCreate.amount payment
    /\ Buyer_payments db' b = (Buyer_payments db b ++ [p])%list
    /\ total_payments db' b
       = (total_payments db b + PaymentCreate.amount payment)%Q
    /\ total_sales db' b = total_sales db b
    /\ outstanding_balance db' b
       = (Buyer.opening_balance b + total_sales db b
          - (total_payments db b + PaymentCreate.amount payment))%Q
    /\ forall b', Buyer.id b' <> buyer_id ->
         outstanding_balance db' b' = outstanding_balance db b'.
Proof.
  intros Hb. unfold add_payment. rewrite Hb.
  destruct (buyer_by_id_Some _ _ _ Hb) as [_ Hid].
  eexists _, _. split; [reflexivity|]. simpl.
  assert (Hpays :
    Buyer_payments
      (mk_db (buyers db) (purchases db) (sales db) (sale_items db)
         (add (fun id => Payment.mk id (PaymentCreate.date payment) buyer_id
                           (PaymentCreate.amount payment)
                           (PaymentCreate.payment_method payment)
                           (PaymentCreate.notes payment))
              (payments db))
         (expenses db)) b
    = (Buyer_payments db b
       ++ [Payment.mk (next_id (payments db)) (PaymentCreate.date payment)
             buyer_id (PaymentCreate.amount payment)
             (PaymentCreate.payment_method payment)
             (PaymentCreate.notes payment)])%list).
  { unfold Buyer_payments; simpl. rewrite List.filter_app; simpl.
    by rewrite Hid, Z.eqb_refl. }
  split_and!; try reflexivity.
  - exact Hpays.
  - unfold total_payments. rewrite Hpays, map_app. simpl. by rewrite sum_last.
  - unfold outstanding_balance, total_payments.
    rewrite Hpays, map_app. simpl. by rewrite sum_last.
  - intros b' Hne.
    unfold outstanding_balance, total_payments, total_sales, Buyer_payments,
      Buyer_sales; simpl.
    rewrite List.filter_app; simpl.
    replace (buyer_id =? Buyer.id b') with false by lia.
    by rewrite app_nil_r.
Qed.

Lemma add_payment_adds_to_total_payments_witness :
  exists p db',
    add_payment ledger_db 1
      (PaymentCreate.mk (datetime.mkdate 2024 4 1) 9 56%Q "UPI" None)
    = Ok (p, db')
    /\ Payment.buyer_id p = 1
    /\ total_payments db' ravi = (total_payments ledger_db ravi + 56)%Q.
Proof.
  destruct (add_payment_adds_to_total_payments ledger_db 1
              (PaymentCreate.mk (datetime.mkdate 2024 4 1) 9 56%Q "UPI" None)
              ravi eq_refl)
    as (p & db' & Hr & _ & Hid & _ & _ & Htotal & _).
  exists p, db'. split; [exact Hr|]. split; [exact Hid | exact Htotal].
Defined.

(** X3. [create_sale] puts the new sale last among the sales of its
    buyer, so the buyer's [total_sales] is the total before plus the
    total of the new sale; when [payment_received_now] is above 0 the
    payment entered with the sale comes last among the buyer's payments
    and [total_payments] is the total before plus that amount, otherwise
    the payments are as before; the balance of every other buyer stays
    as it is. *)
Theorem create_sale_adds_to_totals
    (db : Session) (sale : SaleCreate.t) (b : Buyer.t) :
  Buyer.id b = SaleCreate.buyer_id sale ->
  let s := fst (create_sale db sale) in
  let db' := snd (create_sale db sale) in
  let received := SaleCreate.payment_received_now sale in
  Buyer_sales db' b = (Buyer_sales db b ++ [s])%list
  /\ total_sales db' b = (total_sales db b + Sale.total_amount s)%Q
  /\ total_payments db' b
     = (if Qltb 0 received then (total_payments db b + received)%Q
        else total_payments db b)
  /\ outstanding_balance db' b
     = (Buyer.opening_balance b + (total_sales db b + Sale.total_amount s)
        - (if Qltb 0 received then (total_payments db b + received)%Q
           else total_payments db b))%Q
  /\ forall b', Buyer.id b' <> SaleCreate.buyer_id sale ->
       outstanding_balance db' b' = outstanding_balance db b'.
Proof.
  intros Hid s db' received. unfold s, db', received. clear s db' received.
  assert (Hsales :
    Buyer_sales (snd (create_sale db sale)) b
    = (Buyer_sales db b ++ [fst (create_sale db sale)])%list).
  { unfold Buyer_sales; simpl. rewrite List.filter_app; simpl.
    by rewrite Hid, Z.eqb_refl. }
  assert (Hts : total_sales (snd (create_sale db sale)) b
                = (total_sales db b
                   + Sale.total_amount (fst (create_sale db sale)))%Q).
  { unfold total_sales. rewrite Hsales, map_app. simpl. by rewrite sum_last. }
  assert (Htp : total_payments (snd (create_sale db sale)) b
                = (if Qltb 0 (SaleCreate.payment_received_now sale)
                   then (total_payments db b
                         + SaleCreate.payment_received_now sale)%Q
                   else total_payments db b)).
  { unfold total_payments, Buyer_payments; simpl.
    destruct (Qltb 0 (SaleCreate.payment_received_now sale)); simpl; [|done].
    rewrite List.filter_app; simpl. rewrite Hid, Z.eqb_refl.
    rewrite map_app. simpl. by rewrite sum_last. }
  split_and!; try done.
  - unfold outstanding_balance. by rewrite Hts, Htp.
  - intros b' Hne.
    unfold outstanding_balance, total_payments, total_sales, Buyer_payments,
      Buyer_sales; simpl.
    rewrite List.filter_app; simpl.
    replace (SaleCreate.buyer_id sale =? Buyer.id b') with false by lia.
    rewrite app_nil_r.
    destruct (Qltb 0 (SaleCreate.payment_received_now sale)); simpl; [|done].
    rewrite List.filter_app; simpl.
    replace (SaleCreate.buyer_id sale =? Buyer.id b') with false by lia.
    by rewrite app_nil_r.
Qed.

Lemma create_sale_adds_to_totals_witness :
  total_sales (snd (create_sale ledger_db ravi_sale)) ravi
  = (total_sales ledger_db ravi
     + Sale.total_amount (fst (create_sale ledger_db ravi_sale)))%Q
  /\ total_payments (snd (create_sale ledger_db ravi_sale)) ravi
     = (total_payments ledger_db ravi + 20)%Q.
Proof.
  destruct (create_sale_adds_to_totals ledger_db ravi_sale ravi eq_refl)
    as (_ & Hts & Htp & _).
  split; [exact Hts | exact Htp].
Defined.

(** ** Dates in order *)

Lemma datetime_leb_spec (a b : datetime.date) :
  datetime.leb a b = true <->
  datetime.year a < datetime.year b
  \/ (datetime.year a = datetime.year b
      /\ (datetime.month a < datetime.month b
          \/ (datetime.month a = datetime.month b
              /\ datetime.day a <= datetime.day b))).
Proof.
  unfold datetime.leb.
  rewrite !orb_true_iff, !andb_true_iff, !orb_true_iff, !andb_true_iff.
  rewrite !Z.ltb_lt, !Z.eqb_eq, Z.leb_le. tauto.
Qed.

Lemma datetime_leb_total (a b : datetime.date) :
  datetime.leb a b = true \/ datetime.leb b a = true.
Proof. rewrite !datetime_leb_spec. lia. Qed.

Lemma datetime_leb_trans (a b c : datetime.date) :
  datetime.leb a b = true -> datetime.leb b c = true -> datetime.leb a c = true.
Proof. rewrite !datetime_leb_spec. lia. Qed.

Lemma sort_by_date_ascending {A} (date : A -> datetime.date) (l : list A) :
  dates_ascending date
    (sort_by (fun a b => datetime.leb (date a) (date b)) l).
Proof.
  apply (sort_by_sorted (fun a b => datetime.leb (date a) (date b))).
  - intros a b. apply datetime_leb_total.
  - intros a b c. apply datetime_leb_trans.
Qed.

Lemma sort_by_date_descending {A} (date : A -> datetime.date) (l : list A) :
  dates_descending date
    (sort_by (fun a b => datetime.leb (date b) (date a)) l).
Proof.
  apply (sort_by_sorted (fun a b => datetime.leb (date b) (date a))).
  - intros a b. apply datetime_leb_total.
  - intros a b c Hab Hbc. by eapply datetime_leb_trans.
Qed.

(** X4. [get_buyer_payments] answers NotFound for an unknown buyer; for a
    known one it returns every payment entered for that buyer, each once,
    the latest date first. *)
Theorem get_buyer_payments_latest_first (db : Session) (buyer_id : Z) :
  match buyer_by_id db buyer_id with
  | None => exists e, get_buyer_payments db buyer_id = Err e /\ NotFound e
  | Some b =>
      exists l,
        get_buyer_payments db buyer_id = Ok l
        /\ Permutation l (Buyer_payments db b)
        /\ dates_descending Payment.date l
  end.
Proof.
  unfold get_buyer_payments.
  destruct (buyer_by_id db buyer_id) as [b|] eqn:Hb; [|by eexists].
  destruct (buyer_by_id_Some _ _ _ Hb) as [_ <-].
  eexists. split; [reflexivity|]. split.
  - apply sort_by_Permutation.
  - apply sort_by_date_descending.
Qed.

Example get_buyer_payments_ravi :
  match get_buyer_payments
          (store_after ledger_db
             (add_payment ledger_db 1
                (PaymentCreate.mk (datetime.mkdate 2024 4 1) 1 56%Q "UPI" None)))
          1 with
  | Ok l => map Payment.amount l = [56%Q; 200%Q]
  | Err _ => False
  end.
Proof. vm_compute. reflexivity. Qed.

(** ** Deleting a sale *)

Lemma filter_all_in {A} (p : A -> bool) (l : list A) :
  Forall (fun x => p x = true) l -> List.filter p l = l.
Proof.
  induction 1 as [|x l Hx _ IH]; simpl; [done|]. by rewrite Hx, IH.
Qed.

(** With distinct keys, removing a key removes exactly the row found. *)
Lemma remove_by_key_Permutation {A} (id : A -> Z) (l : list A) (r : A) :
  NoDup (map id l) -> r ∈ l ->
  Permutation l (r :: List.filter (fun x => negb (id x =? id r)) l).
Proof.
  induction l as [|x l IH]; simpl; intros Hnd Hin.
  - by apply elem_of_nil in Hin.
  - apply NoDup_cons in Hnd as [Hx Hnd].
    apply elem_of_cons in Hin as [->|Hin].
    + rewrite Z.eqb_refl. simpl. constructor.
      rewrite filter_all_in; [done|]. apply Forall_forall. intros y Hy.
      apply negb_true_iff, Z.eqb_neq. intros Heq. apply Hx.
      apply list_elem_of_fmap. by exists y.
    + assert (Hne : id x <> id r).
      { intros Heq. apply Hx. apply list_elem_of_fmap. by exists r. }
      replace (id x =? id r) with false by lia. simpl.
      rewrite (IH Hnd Hin) at 1. apply perm_swap.
Qed.

Lemma length_remove_by_key {A} (id : A -> Z) (l : list A) (r : A) :
  NoDup (map id l) -> r ∈ l ->
  S (length (List.filter (fun x => negb (id x =? id r)) l)) = length l.
Proof.
  intros Hnd Hin.
  by rewrite (Permutation_length (remove_by_key_Permutation id l r Hnd Hin)).
Qed.

Lemma filter_filter_comm {A} (p q : A -> bool) (l : list A) :
  List.filter p (List.filter q l) = List.filter q (List.filter p l).
Proof.
  induction l as [|x l IH]; simpl; [done|].
  destruct (q x) eqn:Hq, (p x) eqn:Hp; simpl; rewrite ?Hq, ?Hp, ?IH; done.
Qed.

(** X5. [delete_sale] answers NotFound for an unknown id.  Otherwise the
    sale is gone, its items go with it and no other item does, and the
    buyers and the payments stay, the payment entered together with the
    sale too.  Each buyer's sales are the ones before without that sale,
    each buyer's payments are as before, and the balance of a buyer
    whose sale it was not stays as it is. *)
Theorem delete_sale_cascades (db : Session) (sale_id : Z) :
  table_ok Sale.id (sales db) ->
  match sale_by_id db sale_id with
  | None => exists e, delete_sale db sale_id = Err e /\ NotFound e
  | Some s =>
      exists msg db',
        delete_sale db sale_id = Ok (msg, db')
        /\ sale_by_id db' sale_id = None
        /\ rows (sales db')
           = List.filter (fun r => negb (Sale.id r =? sale_id)) (rows (sales db))
        /\ S (length (rows (sales db'))) = length (rows (sales db))
        /\ rows (sale_items db')
           = List.filter (fun i => negb (SaleItem.sale_id i =? sale_id))
                         (rows (sale_items db))
        /\ payments db' = payments db
        /\ buyers db' = buyers db
        /\ (forall b,
              Buyer_sales db' b
              = List.filter (fun r => negb (Sale.id r =? sale_id))
                            (Buyer_sales db b)
              /\ Buyer_payments db' b = Buyer_payments db b)
        /\ (forall b, Sale.buyer_id s <> Buyer.id b ->
              outstanding_balance db' b = outstanding_balance db b)
  end.
Proof.
  intros [Hnd _]. unfold delete_sale.
  destruct (sale_by_id db sale_id) as [s|] eqn:Hs; [|by eexists].
  apply first_Some in Hs as [Hin Hid]. apply Z.eqb_eq in Hid.
  eexists _, _. split; [reflexivity|]. simpl.
  unfold sale_by_id, Buyer_sales, Buyer_payments. simpl.
  assert (Hsales : forall b,
    List.filter (fun r => Sale.buyer_id r =? Buyer.id b)
      (List.filter (fun r => negb (Sale.id r =? Sale.id s)) (rows (sales db)))
    = List.filter (fun r => negb (Sale.id r =? Sale.id s))
        (List.filter (fun r => Sale.buyer_id r =? Buyer.id b)
                     (rows (sales db)))).
  { intros b. apply filter_filter_comm. }
  subst sale_id. split_and!.
  - apply first_filter_out.
  - done.
  - by apply length_remove_by_key.
  - done.
  - done.
  - done.
  - intros b. split; [|done]. apply Hsales.
  - intros b Hne. unfold outstanding_balance, total_sales, total_payments,
      Buyer_sales, Buyer_payments. simpl. rewrite Hsales.
    rewrite (filter_all_in (fun r => negb (Sale.id r =? Sale.id s))); [done|].
    apply Forall_forall. intros r Hr.
    apply list_elem_of_In, filter_In in Hr as [Hr Hb].
    apply list_elem_of_In in Hr.
    apply negb_true_iff, Z.eqb_neq. intros Heq.
    assert (r = s) by by apply (NoDup_map_same Sale.id (rows (sales db))).
    subst r. lia.
Qed.

Lemma delete_sale_cascades_witness :
  exists msg db',
    delete_sale ledger_db 2 = Ok (msg, db')
    /\ Buyer_sales db' ravi
       = List.filter (fun r => negb (Sale.id r =? 2)) (Buyer_sales ledger_db ravi)
    /\ Buyer_payments db' ravi = Buyer_payments ledger_db ravi.
Proof.
  pose proof (delete_sale_cascades ledger_db 2
                (proj1 (proj2 (proj2 store_ok_ledger_db)))) as H.
  change (sale_by_id ledger_db 2)
    with (Some (Sale.mk 2 (datetime.mkdate 2024 3 5) 1 CREDIT 0%Q 56%Q None)) in H.
  destruct H as (msg & db' & Hr & _ & _ & _ & _ & _ & _ & Hb & _).
  exists msg, db'. split; [exact Hr | exact (Hb ravi)].
Defined.

(** X6. Deleting a sale right after creating it restores the sales and
    the sale items row for row, and so every buyer's [total_sales], but
    not the payments: the payment that [create_sale] entered for a
    [payment_received_now] above 0 stays, and the [total_payments] of
    the sale's buyer is the total before plus that amount.  Every other
    buyer's total, and every total when [payment_received_now] is not
    above 0, is as before. *)
Theorem create_then_delete_sale (db : Session) (sale : SaleCreate.t) :
  store_ok db ->
  let s := fst (create_sale db sale) in
  let db1 := snd (create_sale db sale) in
  exists msg db2,
    delete_sale db1 (Sale.id s) = Ok (msg, db2)
    /\ rows (sales db2) = rows (sales db)
    /\ rows (sale_items db2) = rows (sale_items db)
    /\ payments db2 = payments db1
    /\ forall b,
         total_sales db2 b = total_sales db b
         /\ total_payments db2 b
            = (if Qltb 0 (SaleCreate.payment_received_now sale)
                  && (SaleCreate.buyer_id sale =? Buyer.id b)
               then (total_payments db b
                     + SaleCreate.payment_received_now sale)%Q
               else total_payments db b).
Proof.
  intros Hok. store_ok_parts Hok. simpl.
  destruct Hsales as [_ Hsales_lt].
  assert (Hkeep :
    List.filter (fun r => negb (Sale.id r =? next_id (sales db)))
                (rows (sales db)) = rows (sales db)).
  { apply filter_all_in. eapply Forall_impl; [exact Hsales_lt|].
    intros r Hr. simpl in Hr. apply negb_true_iff. lia. }
  unfold delete_sale, sale_by_id. simpl.
  rewrite first_append_new; [|..]; simpl.
  - eexists _, _. split; [reflexivity|]. simpl.
    assert (Hsales' :
      List.filter (fun r => negb (Sale.id r =? next_id (sales db)))
        (rows (sales db) ++
         [Sale.mk (next_id (sales db)) (SaleCreate.date sale)
            (SaleCreate.buyer_id sale) (SaleCreate.payment_type sale)
            (SaleCreate.payment_received_now sale)
            (items_total (SaleCreate.sale_items sale))
            (SaleCreate.notes sale)]) = rows (sales db)).
    { rewrite List.filter_app, Hkeep. simpl. rewrite Z.eqb_refl. simpl.
      apply app_nil_r. }
    split_and!.
    + exact Hsales'.
    + destruct (add_sale_items_rows (next_id (sales db))
                  (SaleCreate.sale_items sale) (sale_items db))
        as (new_rows & -> & Hnew).
      rewrite List.filter_app.
      rewrite (filter_all_in _ (rows (sale_items db))).
      * rewrite filter_nil_if; [apply app_nil_r|]. intros i Hi.
        apply negb_false_iff, Z.eqb_eq.
        clear -Hnew Hi. induction Hnew as [|item row ? ? Hrow _ IH].
        -- by apply elem_of_nil in Hi.
        -- apply elem_of_cons in Hi as [->|Hi]; [by destruct Hrow | by apply IH].
      * eapply Forall_impl; [exact Hrefs|].
        intros i Hi. simpl in Hi. apply negb_true_iff. lia.
    + reflexivity.
    + intros b. unfold total_sales, total_payments,
        Buyer_sales, Buyer_payments. simpl. rewrite Hsales'.
      split; [done|].
      destruct (Qltb 0 (SaleCreate.payment_received_now sale)); simpl; [|done].
      rewrite List.filter_app; simpl.
      destruct (SaleCreate.buyer_id sale =? Buyer.id b); simpl.
      * rewrite map_app. simpl. by rewrite sum_last.
      * by rewrite app_nil_r.
  - eapply Forall_impl; [exact Hsales_lt|]. intros r Hr. simpl in Hr. lia.
  - apply Z.eqb_refl.
Qed.

Lemma create_then_delete_sale_witness :
  exists msg db2,
    delete_sale (snd (create_sale ledger_db ravi_sale)) 3 = Ok (msg, db2)
    /\ rows (sales db2) = rows (sales ledger_db)
    /\ total_payments db2 ravi = (total_payments ledger_db ravi + 20)%Q.
Proof.
  destruct (create_then_delete_sale ledger_db ravi_sale store_ok_ledger_db)
    as (msg & db2 & Hr & Hsales & _ & _ & Hout).
  exists msg, db2. split; [exact Hr|].
  split; [exact Hsales | exact (proj2 (Hout ravi))].
Defined.

(** ** Deleting a purchase *)

Lemma first_app_l {A} (p : A -> bool) (l l' : list A) (x : A) :
  first p l = Some x -> first p (l ++ l') = Some x.
Proof.
  unfold first. induction l as [|y l IH]; simpl; [done|].
  destruct (p y); [done | exact IH].
Qed.

(** What the lookup of the linked expense tests besides the description:
    a Transport expense dated [date]. *)
Lemma linked_expense_filter_date_category (date : datetime.date)
    (seller_name : string) (e : Expense.t) :
  linked_expense_filter date seller_name e = true ->
  Expense.date e = date /\ Expense.category e = TRANSPORT.
Proof.
  unfold linked_expense_filter. intros H.
  apply andb_true_iff in H as [H _]. apply andb_true_iff in H as [Hd Hc].
  split; [by apply datetime_eqb_eq | by apply ExpenseCategory_eqb_eq].
Qed.

(** X7. [delete_purchase] answers NotFound for an unknown id.  Otherwise
    the purchase is gone and no other purchase is.  With a transport
    cost of 0 or less the expenses are not touched.  With a transport
    cost above 0 at most one expense is deleted, and only a Transport
    expense dated as the purchase; when no Transport expense of that
    date is stored, the expenses stay as they are, and when one is
    stored with the description that [create_purchase] writes for the
    seller of this purchase, one expense is deleted.  (For the last the
    seller name is taken without a backslash, which some databases read
    as an escape in the pattern of the lookup.) *)
Theorem delete_purchase_unlinks (db : Session) (purchase_id : Z) :
  table_ok Expense.id (expenses db) ->
  match purchase_by_id db purchase_id with
  | None => exists e, delete_purchase db purchase_id = Err e /\ NotFound e
  | Some p =>
      exists msg db',
        delete_purchase db purchase_id = Ok (msg, db')
        /\ purchase_by_id db' purchase_id = None
        /\ rows (purchases db')
           = List.filter (fun r => negb (Purchase.id r =? purchase_id))
                         (rows (purchases db))
        /\ (~ (0 < Purchase.transport_cost p)%Q -> expenses db' = expenses db)
        /\ (expenses db' = expenses db
            \/ exists existing,
                 existing ∈ rows (expenses db)
                 /\ Expense.date existing = Purchase.date p
                 /\ Expense.category existing = TRANSPORT
                 /\ rows (expenses db')
                    = List.filter
                        (fun r => negb (Expense.id r =? Expense.id existing))
                        (rows (expenses db))
                 /\ S (length (rows (expenses db')))
                    = length (rows (expenses db)))
        /\ (Forall (fun e => ~ (Expense.date e = Purchase.date p
                                /\ Expense.category e = TRANSPORT))
                   (rows (expenses db)) ->
            expenses db' = expenses db)
        /\ ((0 < Purchase.transport_cost p)%Q ->
            ~ contains "\" (Purchase.seller_name p) ->
            (exists e transport_service,
               e ∈ rows (expenses db)
               /\ Expense.date e = Purchase.date p
               /\ Expense.category e = TRANSPORT
               /\ Expense.description e
                  = Some (transport_description (Purchase.seller_name p)
                            transport_service)) ->
            S (length (rows (expenses db'))) = length (rows (expenses db)))
  end.
Proof.
  intros [Hnd _]. unfold delete_purchase.
  destruct (purchase_by_id db purchase_id) as [p|] eqn:Hp; [|by eexists].
  apply first_Some in Hp as [Hin Hid]. apply Z.eqb_eq in Hid.
  eexists _, _. split; [reflexivity|]. simpl. split_and!.
  - unfold purchase_by_id; simpl. rewrite Hid. apply first_filter_out.
  - by rewrite Hid.
  - intros Hnpos. destruct (Qltb 0 _) eqn:Hlt; [|done].
    by apply Qltb_lt in Hlt.
  - destruct (Qltb 0 _); [|by left]. unfold find_transport_expense.
    destruct (first (linked_expense_filter (Purchase.date p)
                       (Purchase.seller_name p)) (rows (expenses db)))
      as [existing|] eqn:Hex; [|by left].
    right. exists existing.
    apply first_Some in Hex as [Hin' Hmatch].
    apply linked_expense_filter_date_category in Hmatch as [Hd Hc].
    split_and!; try done. simpl. by apply length_remove_by_key.
  - intros Hnone. destruct (Qltb 0 _); [|done].
    unfold find_transport_expense.
    destruct (first (linked_expense_filter (Purchase.date p)
                       (Purchase.seller_name p)) (rows (expenses db)))
      as [existing|] eqn:Hex; [|done].
    apply first_Some in Hex as [Hin' Hmatch].
    apply linked_expense_filter_date_category in Hmatch.
    rewrite Forall_forall in Hnone. by destruct (Hnone _ Hin').
  - intros Hpos _ (e & service & Hin' & Hd & Hc & Hdesc).
    apply Qltb_lt in Hpos. rewrite Hpos. unfold find_transport_expense.
    destruct (first_is_Some
                (linked_expense_filter (Purchase.date p) (Purchase.seller_name p))
                (rows (expenses db)) e Hin') as [existing Hex].
    { unfold linked_expense_filter. rewrite Hdesc, Hd, Hc.
      apply andb_true_iff. split; [apply andb_true_iff; split|].
      - by apply datetime_eqb_eq.
      - reflexivity.
      - exact (transport_description_like _ _). }
    rewrite Hex. simpl. apply length_remove_by_key; [done|].
    by apply first_Some in Hex as [? _].
Qed.

Lemma delete_purchase_unlinks_witness :
  exists msg db',
    delete_purchase acme_db 1 = Ok (msg, db')
    /\ rows (purchases db') = []
    /\ S (length (rows (expenses db'))) = length (rows (expenses acme_db)).
Proof.
  pose proof (delete_purchase_unlinks acme_db 1
                (proj1 (proj2 (proj2 (proj2 (proj2 (proj2 store_ok_acme_db)))))))
    as H.
  change (purchase_by_id acme_db 1)
    with (Some (fst (create_purchase empty_db acme_purchase))) in H.
  destruct H as (msg & db' & Hr & _ & Hpur & _ & _ & _ & Hone).
  exists msg, db'. split; [exact Hr|]. split; [exact Hpur|].
  apply Hone.
  - reflexivity.
  - intros Hc. apply containsb_spec in Hc. vm_compute in Hc. done.
  - eexists _, None. split_and!; [apply list_elem_of_here | reflexivity..].
Defined.

(** X8. When no Transport expense dated as the new purchase is stored,
    deleting a purchase right after creating it restores the purchases
    and the expenses row for row: the transport expense entered with the
    purchase is the one that goes.  (The seller name is taken without a
    backslash, which some databases read as an escape in the pattern of
    the lookup.) *)
Theorem create_then_delete_purchase (db : Session) (purchase : PurchaseCreate.t) :
  store_ok db ->
  Forall (fun e => ~ (Expense.date e = PurchaseCreate.date purchase
                      /\ Expense.category e = TRANSPORT))
         (rows (expenses db)) ->
  ~ contains "\" (PurchaseCreate.seller_name purchase) ->
  let p := fst (create_purchase db purchase) in
  let db1 := snd (create_purchase db purchase) in
  exists msg db2,
    delete_purchase db1 (Purchase.id p) = Ok (msg, db2)
    /\ rows (purchases db2) = rows (purchases db)
    /\ rows (expenses db2) = rows (expenses db).
Proof.
  intros Hok Hnone _. store_ok_parts Hok. simpl.
  destruct Hpurchases as [_ Hpur_lt]. destruct Hexpenses as [_ Hexp_lt].
  assert (Hfirst : first (linked_expense_filter (PurchaseCreate.date purchase)
                            (PurchaseCreate.seller_name purchase))
                         (rows (expenses db)) = None).
  { apply first_None_iff. eapply Forall_impl; [exact Hnone|].
    intros e He. simpl in He.
    destruct (linked_expense_filter _ _ e) eqn:Hm; [|done].
    by apply linked_expense_filter_date_category in Hm. }
  unfold delete_purchase, purchase_by_id. simpl.
  rewrite first_append_new; [|..]; simpl.
  - eexists _, _. split; [reflexivity|]. simpl. split.
    + rewrite List.filter_app, filter_all_in; simpl.
      * rewrite Z.eqb_refl. simpl. apply app_nil_r.
      * eapply Forall_impl; [exact Hpur_lt|].
        intros r Hr. simpl in Hr. apply negb_true_iff. lia.
    + destruct (Qltb 0 (PurchaseCreate.transport_cost purchase)) eqn:Hlt;
        [|done].
      unfold find_transport_expense; simpl.
      apply first_None_iff in Hfirst.
      rewrite first_append_new; [|done|]; simpl.
      * rewrite List.filter_app, filter_all_in; simpl.
        -- rewrite Z.eqb_refl. simpl. apply app_nil_r.
        -- eapply Forall_impl; [exact Hexp_lt|].
           intros r Hr. simpl in Hr. apply negb_true_iff. lia.
      * unfold linked_expense_filter.
        apply andb_true_iff. split; [apply andb_true_iff; split|].
        -- by apply datetime_eqb_eq.
        -- reflexivity.
        -- exact (transport_description_like _ _).
  - eapply Forall_impl; [exact Hpur_lt|]. intros r Hr. simpl in Hr. lia.
  - apply Z.eqb_refl.
Qed.

Lemma create_then_delete_purchase_witness :
  exists msg db2,
    delete_purchase acme_db 1 = Ok (msg, db2)
    /\ rows (purchases db2) = rows (purchases empty_db)
    /\ rows (expenses db2) = rows (expenses empty_db).
Proof.
  apply (create_then_delete_purchase empty_db acme_purchase store_ok_empty).
  - constructor.
  - intros Hc. apply containsb_spec in Hc. vm_compute in Hc. done.
Defined.

(** Two purchases from one seller on one day: deleting the second removes
    the expense of the first and leaves its own. *)
Example delete_purchase_takes_the_earlier_expense :
  let db1 := snd (create_purchase acme_db acme_purchase) in
  map Expense.id (rows (expenses db1)) = [1; 2]
  /\ match delete_purchase db1 2 with
     | Ok (_, db2) =>
         map Purchase.id (rows (purchases db2)) = [1]
         /\ map Expense.id (rows (expenses db2)) = [2]
     | Err _ => False
     end.
Proof. vm_compute. done. Qed.

(** ** Expenses *)

Lemma first_update_where {A} (id : A -> Z) (k pk : Z) (set : A -> A)
    (l : list A) :
  (forall r, id (set r) = id r) ->
  first (fun x => id x =? k)
        (map (fun r => if id r =? pk then set r else r) l)
  = option_map (fun r => if id r =? pk then set r else r)
               (first (fun x => id x =? k) l).
Proof.
  intros Hset. unfold first. induction l as [|x l IH]; simpl; [done|].
  assert (Hid : id (if id x =? pk then set x else x) = id x)
    by (destruct (id x =? pk); [apply Hset | done]).
  rewrite Hid. destruct (id x =? k); [done | exact IH].
Qed.

Lemma first_filter_other {A} (id : A -> Z) (k pk : Z) (l : list A) :
  k <> pk ->
  first (fun x => id x =? k) (List.filter (fun x => negb (id x =? pk)) l)
  = first (fun x => id x =? k) l.
Proof.
  intros Hne. unfold first. induction l as [|x l IH]; simpl; [done|].
  destruct (id x =? pk) eqn:Hpk; simpl.
  - replace (id x =? k) with false by lia. exact IH.
  - destruct (id x =? k); [done | exact IH].
Qed.

(** X9. An expense entered with [create_expense] is what [get_expense]
    returns for its id, with the fields of the request, and every
    expense that could be fetched before is fetched unchanged
    afterwards. *)
Theorem create_expense_then_get (db : Session) (expense : ExpenseCreate.t) :
  table_ok Expense.id (expenses db) ->
  let e := fst (create_expense db expense) in
  let db' := snd (create_expense db expense) in
  get_expense db' (Expense.id e) = Ok e
  /\ Expense.date e = ExpenseCreate.date expense
  /\ Expense.category e = ExpenseCreate.category expense
  /\ Expense.amount e = ExpenseCreate.amount expense
  /\ Expense.description e = ExpenseCreate.description expense
  /\ forall id r, get_expense db id = Ok r -> get_expense db' id = Ok r.
Proof.
  intros [_ Hlt]. simpl. split_and!; try reflexivity.
  - unfold get_expense, expense_by_id; simpl.
    rewrite first_append_new; [done| |apply Z.eqb_refl].
    eapply Forall_impl; [exact Hlt|]. intros r Hr. simpl in Hr. lia.
  - intros id r. unfold get_expense, expense_by_id; simpl.
    destruct (first _ (rows (expenses db))) as [r'|] eqn:Hr; [|done].
    intros [= <-]. by rewrite (first_app_l _ _ _ _ Hr).
Qed.

Lemma create_expense_then_get_witness :
  get_expense
    (snd (create_expense acme_db
            (ExpenseCreate.mk (datetime.mkdate 2024 3 9) RENT 900%Q None))) 2
  = Ok (Expense.mk 2 (datetime.mkdate 2024 3 9) RENT 900%Q None).
Proof.
  exact (proj1 (create_expense_then_get acme_db
                  (ExpenseCreate.mk (datetime.mkdate 2024 3 9) RENT 900%Q None)
                  (proj1 (proj2 (proj2 (proj2 (proj2 (proj2
                     store_ok_acme_db)))))))).
Defined.

(** X10. A request to [update_expense] that carries a date is refused
    with status 422 and changes nothing, whatever the id: the date of an
    expense cannot be changed.  Without a date the handler answers
    NotFound for an unknown id and then changes nothing; otherwise the
    expense keeps its id and its date, carries the supplied category,
    amount and description and keeps those the request leaves out,
    [get_expense] returns it, the table keeps its length, and every
    other expense is fetched as before. *)
Theorem update_expense_then_get
    (db : Session) (expense_id : Z) (body : ExpenseUpdateBody.t) :
  match ExpenseUpdateBody.date body with
  | Some _ =>
      (exists detail,
         update_expense_route db expense_id body
         = Err (HTTPException 422 detail))
      /\ store_after db (update_expense_route db expense_id body) = db
  | None =>
      match expense_by_id db expense_id with
      | None =>
          (exists e, update_expense_route db expense_id body = Err e
                     /\ NotFound e)
          /\ store_after db (update_expense_route db expense_id body) = db
      | Some old =>
          exists e' db',
            update_expense_route db expense_id body = Ok (e', db')
            /\ get_expense db' expense_id = Ok e'
            /\ Expense.id e' = expense_id
            /\ Expense.date e' = Expense.date old
            /\ Expense.category e'
               = get (ExpenseUpdateBody.category body) (Expense.category old)
            /\ Expense.amount e'
               = get (ExpenseUpdateBody.amount body) (Expense.amount old)
            /\ Expense.description e'
               = set_nullable (ExpenseUpdateBody.description body)
                   (Expense.description old)
            /\ length (rows (expenses db')) = length (rows (expenses db))
            /\ forall id, id <> expense_id ->
                 get_expense db' id = get_expense db id
      end
  end.
Proof.
  unfold update_expense_route.
  destruct (ExpenseUpdateBody.date body) as [d|]; [by split; [eexists|]|].
  unfold update_expense.
  destruct (expense_by_id db expense_id) as [old|] eqn:Hold.
  - pose proof Hold as Hold'.
    apply first_Some in Hold' as [Hin Hid]. apply Z.eqb_eq in Hid.
    eexists _, _. split; [reflexivity|]. simpl. split_and!; try done.
    + unfold get_expense, expense_by_id; simpl.
      rewrite first_update_where by done.
      unfold expense_by_id in Hold. rewrite Hold. simpl.
      by rewrite Z.eqb_refl.
    + by rewrite length_map.
    + intros id Hne. unfold get_expense, expense_by_id; simpl.
      rewrite first_update_where by done.
      destruct (first (fun e => Expense.id e =? id) (rows (expenses db)))
        as [r|] eqn:Hr; [|done].
      simpl. apply first_Some in Hr as [_ Hr].
      replace (Expense.id r =? Expense.id old) with false by lia. done.
  - split; [by eexists | done].
Qed.

(** Asking for another date is refused; asking for another amount is
    served, and the date stays. *)
Example update_expense_date :
  update_expense_route acme_db 1
    (ExpenseUpdateBody.mk (Some (datetime.mkdate 2024 4 1)) None None None)
  = Err (HTTPException 422 "Unprocessable Entity")
  /\ match update_expense_route acme_db 1
             (ExpenseUpdateBody.mk None None (Some 60%Q) None) with
     | Ok (e, _) =>
         Expense.date e = datetime.mkdate 2024 3 5 /\ Expense.amount e = 60%Q
     | Err _ => False
     end.
Proof. vm_compute. done. Qed.

(** X11. [delete_expense] answers NotFound for an unknown id.  Otherwise
    the expense can no longer be fetched, every other expense is fetched
    as before, and with distinct keys exactly one row has gone. *)
Theorem delete_expense_then_get (db : Session) (expense_id : Z) :
  table_ok Expense.id (expenses db) ->
  match expense_by_id db expense_id with
  | None => exists e, delete_expense db expense_id = Err e /\ NotFound e
  | Some old =>
      exists msg db',
        delete_expense db expense_id = Ok (msg, db')
        /\ (exists e, get_expense db' expense_id = Err e /\ NotFound e)
        /\ S (length (rows (expenses db'))) = length (rows (expenses db))
        /\ forall id, id <> expense_id ->
             get_expense db' id = get_expense db id
  end.
Proof.
  intros [Hnd _]. unfold delete_expense.
  destruct (expense_by_id db expense_id) as [old|] eqn:Hold; [|by eexists].
  apply first_Some in Hold as [Hin Hid]. apply Z.eqb_eq in Hid.
  eexists _, _. split; [reflexivity|]. simpl. split_and!.
  - unfold get_expense, expense_by_id; simpl.
    rewrite Hid, first_filter_out. by eexists.
  - by apply length_remove_by_key.
  - intros id Hne. unfold get_expense, expense_by_id; simpl.
    rewrite first_filter_other by lia. done.
Qed.

Lemma delete_expense_then_get_witness :
  exists msg db',
    delete_expense acme_db 1 = Ok (msg, db')
    /\ S (length (rows (expenses db'))) = length (rows (expenses acme_db)).
Proof.
  pose proof (delete_expense_then_get acme_db 1
                (proj1 (proj2 (proj2 (proj2 (proj2 (proj2
                   store_ok_acme_db))))))) as H.
  change (expense_by_id acme_db 1)
    with (Some (Expense.mk 1 (datetime.mkdate 2024 3 5) TRANSPORT 50%Q
                  (Some "Transport cost for purchase from Acme"))) in H.
  destruct H as (msg & db' & Hr & _ & Hlen & _).
  exists msg, db'. split; [exact Hr | exact Hlen].
Defined.

(** *** Totals by category *)

Lemma ExpenseCategory_value_inj (a b : ExpenseCategory) :
  ExpenseCategory_value a = ExpenseCategory_value b -> a = b.
Proof. destruct a, b; simpl; intros H; (done || discriminate H). Qed.

(** X12. [get_expenses_by_category] lists each category that has an
    expense in the date range once, under the name of the category, with
    the sum of the amounts of its expenses in range, taken in table
    order; a category without expense in range is not listed, and every
    expense in range is counted under exactly one listed name, that of
    its category. *)
Theorem expenses_by_category_totals
    (db : Session) (start_date end_date : option datetime.date) :
  let kept :=
    List.filter (fun e => in_range start_date end_date (Expense.date e))
                (rows (expenses db)) in
  let result := get_expenses_by_category db start_date end_date in
  NoDup (map fst result)
  /\ (forall e, e ∈ kept ->
        exists total,
          (ExpenseCategory_value (Expense.category e), total) ∈ result)
  /\ (forall name total,
        (name, total) ∈ result <->
        exists c e,
          e ∈ kept /\ Expense.category e = c
          /\ name = ExpenseCategory_value c
          /\ total
             = sum (map Expense.amount
                      (List.filter
                         (fun e => ExpenseCategory_eqb (Expense.category e) c)
                         kept))).
Proof.
  intros kept result. unfold result, get_expenses_by_category, category_totals.
  fold kept. split_and!.
  - rewrite !map_map. simpl.
    refine (NoDup_fmap_2 (fun c => ExpenseCategory_value c)
              (Inj0:=ExpenseCategory_value_inj) _ _).
    apply NoDup_remove_dups.
  - intros e He. eexists. apply list_elem_of_fmap.
    eexists (Expense.category e, _). split; [reflexivity|].
    apply list_elem_of_fmap. exists (Expense.category e). split; [done|].
    apply elem_of_remove_dups, list_elem_of_fmap. by exists e.
  - intros name total. rewrite list_elem_of_fmap. split.
    + intros ([c t] & [= -> ->] & Hin).
      apply list_elem_of_fmap in Hin as (c' & [= -> ->] & Hc').
      apply elem_of_remove_dups, list_elem_of_fmap in Hc' as (e & -> & He).
      by exists (Expense.category e), e.
    + intros (c & e & He & <- & -> & ->).
      eexists (Expense.category e, _). split; [reflexivity|].
      apply list_elem_of_fmap. exists (Expense.category e). split; [done|].
      apply elem_of_remove_dups, list_elem_of_fmap. by exists e.
Qed.

Example expenses_by_category_sample :
  get_expenses_by_category
    (snd (create_expense
            (snd (create_expense acme_db
                    (ExpenseCreate.mk (datetime.mkdate 2024 3 9) RENT 900%Q None)))
            (ExpenseCreate.mk (datetime.mkdate 2024 3 20) TRANSPORT 25%Q None)))
    (Some (datetime.mkdate 2024 3 1)) None
  = [("Rent", 900%Q); ("Transport", 75%Q)].
Proof. vm_compute. reflexivity. Qed.

(** ** Product types *)

Lemma product_type_by_name_Some (cat : Catalog) (name : string) (t : ProductType.t) :
  product_type_by_name cat name = Some t ->
  t ∈ rows (product_types cat) /\ ProductType.name t = name.
Proof.
  intros H. apply first_Some in H as [Hin Hn]. split; [done|].
  by apply String.eqb_eq.
Qed.

Lemma product_type_by_name_None (cat : Catalog) (name : string) :
  product_type_by_name cat name = None <-> ~ has_product cat name.
Proof.
  unfold product_type_by_name. rewrite first_None_iff, Forall_forall. split.
  - intros H (t & Hin & Hn). specialize (H t Hin).
    apply String.eqb_neq in H. done.
  - intros H t Hin. apply String.eqb_neq. intros Hn. apply H. by exists t.
Qed.

(** Renaming the row of one key keeps names distinct when no other row
    bears the new name. *)
Lemma rename_keeps_names_distinct (pk : Z) (n : string) (d : option string)
    (l : list ProductType.t) :
  NoDup (map ProductType.id l) -> NoDup (map ProductType.name l) ->
  Forall (fun r => ProductType.id r <> pk -> ProductType.name r <> n) l ->
  NoDup (map ProductType.name
           (map (fun r => if ProductType.id r =? pk
                          then ProductType.mk (ProductType.id r) n d else r) l)).
Proof.
  induction l as [|x l IH]; simpl; intros Hids Hnames Hother; [constructor|].
  apply NoDup_cons in Hids as [Hxid Hids].
  apply NoDup_cons in Hnames as [Hxname Hnames].
  apply Forall_cons in Hother as [Hx Hother].
  apply NoDup_cons. split; [|by apply IH].
  rewrite map_map. intros Hin.
  apply list_elem_of_fmap in Hin as (r & Hr & Hrin).
  destruct (ProductType.id x =? pk) eqn:Hxpk;
    destruct (ProductType.id r =? pk) eqn:Hrpk; simpl in Hr.
  - apply Hxid. apply list_elem_of_fmap. exists r. split; [lia | done].
  - assert (ProductType.id r <> pk) as Hne by lia.
    eapply Forall_forall in Hother; [|exact Hrin]. by apply Hother.
  - apply Hx; [lia | done].
  - apply Hxname. apply list_elem_of_fmap. by exists r.
Qed.

(** X13. With distinct keys and distinct names in the table,
    [create_product_type] and [update_product_type] keep the names
    distinct: a name that is taken is refused with status 400 and the
    table is left alone, while keeping the own name on update is
    accepted. *)
Theorem product_type_names_stay_unique (cat : Catalog) :
  table_ok ProductType.id (product_types cat) -> names_unique cat ->
  (forall body,
     match create_product_type cat body with
     | Ok (t, cat') =>
         ~ has_product cat (ProductTypeCreate.name body)
         /\ rows (product_types cat') = (rows (product_types cat) ++ [t])%list
         /\ ProductType.name t = ProductTypeCreate.name body
         /\ names_unique cat'
     | Err e => Conflict e /\ has_product cat (ProductTypeCreate.name body)
     end)
  /\ (forall id body,
        match update_product_type cat id body with
        | Ok (t, cat') =>
            product_type_by_id cat' id = Some t
            /\ ProductType.name t = ProductTypeCreate.name body
            /\ ProductType.description t = ProductTypeCreate.description body
            /\ names_unique cat'
        | Err e =>
            (NotFound e /\ product_type_by_id cat id = None)
            \/ (Conflict e
                /\ exists other,
                     other ∈ rows (product_types cat)
                     /\ ProductType.id other <> id
                     /\ ProductType.name other = ProductTypeCreate.name body)
        end).
Proof.
  intros [Hids Hlt] Hnames. split.
  - intros body. unfold create_product_type.
    destruct (product_type_by_name cat (ProductTypeCreate.name body))
      as [t|] eqn:Hname.
    + split; [done|]. apply product_type_by_name_Some in Hname as [Hin Hn].
      by exists t.
    + apply product_type_by_name_None in Hname.
      split_and!; try done.
      unfold names_unique; simpl. rewrite map_app. simpl.
      apply NoDup_app. split_and!; [done| |apply NoDup_singleton].
      intros n Hn Hn'. apply list_elem_of_singleton in Hn'. subst n.
      apply list_elem_of_fmap in Hn as (t & Ht & Hin). apply Hname.
      by exists t.
  - intros id body. unfold update_product_type.
    destruct (product_type_by_id cat id) as [old|] eqn:Hold; [|by left].
    pose proof Hold as Hold'. apply first_Some in Hold' as [Hin Hid].
    apply Z.eqb_eq in Hid.
    assert (Hfound :
      forall names_ok : Forall (fun r => ProductType.id r <> id ->
                                 ProductType.name r
                                 <> ProductTypeCreate.name body)
                               (rows (product_types cat)),
        let set t := ProductType.mk (ProductType.id t)
                       (ProductTypeCreate.name body)
                       (ProductTypeCreate.description body) in
        let cat' := mk_catalog
                      (update_where ProductType.id (ProductType.id old) set
                         (product_types cat)) (session cat) in
        product_type_by_id cat' id = Some (set old) /\ names_unique cat').
    { intros names_ok set cat'. split.
      - unfold product_type_by_id, cat'; simpl.
        rewrite first_update_where by done.
        unfold product_type_by_id in Hold. rewrite Hold. simpl.
        by rewrite Z.eqb_refl.
      - unfold names_unique, cat'; simpl. rewrite Hid.
        by apply rename_keeps_names_distinct. }
    destruct (String.eqb (ProductTypeCreate.name body) (ProductType.name old))
      eqn:Hsame; simpl.
    + apply String.eqb_eq in Hsame.
      destruct Hfound as [Hget Huniq]; [|by split_and!].
      apply Forall_forall. intros r Hr Hne Hn. apply Hne.
      rewrite <- Hid. f_equal.
      eapply (NoDup_map_same ProductType.name); [exact Hnames|done..|congruence].
    + apply String.eqb_neq in Hsame.
      destruct (product_type_by_name cat (ProductTypeCreate.name body))
        as [other|] eqn:Hother.
      * right. split; [done|].
        apply product_type_by_name_Some in Hother as [Hoin Hon].
        exists other. split_and!; [done| |done].
        intros Hsid. apply Hsame. rewrite <- Hon. f_equal.
        eapply (NoDup_map_same ProductType.id); [exact Hids|done..|lia].
      * apply product_type_by_name_None in Hother.
        destruct Hfound as [Hget Huniq]; [|by split_and!].
        apply Forall_forall. intros r Hr _ Hn. apply Hother. by exists r.
Qed.

Ltac decide_by_evaluation :=
  match goal with
  | |- ?P => let d := constr:(_ : Decision P) in
             apply (@bool_decide_unpack P d); vm_compute; exact I
  end.

Lemma seeded_catalog_keys :
  table_ok ProductType.id (product_types (seed_product_types empty_catalog))
  /\ names_unique (seed_product_types empty_catalog).
Proof.
  unfold table_ok, names_unique. split_and!; decide_by_evaluation.
Qed.

Lemma product_type_names_stay_unique_witness :
  (exists e, create_product_type (seed_product_types empty_catalog)
               (ProductTypeCreate.mk "Ply" None) = Err e /\ Conflict e)
  /\ names_unique
       (match update_product_type (seed_product_types empty_catalog) 2
                (ProductTypeCreate.mk "Lafa" (Some "Offcuts")) with
        | Ok (_, cat') => cat'
        | Err _ => empty_catalog
        end).
Proof.
  destruct (product_type_names_stay_unique (seed_product_types empty_catalog)
              (proj1 seeded_catalog_keys) (proj2 seeded_catalog_keys))
    as [Hcreate Hupdate].
  split.
  - specialize (Hcreate (ProductTypeCreate.mk "Ply" None)).
    destruct (create_product_type (seed_product_types empty_catalog)
                (ProductTypeCreate.mk "Ply" None)) as [[t cat']|e] eqn:Hr.
    + vm_compute in Hr. discriminate Hr.
    + exists e. split; [reflexivity | exact (proj1 Hcreate)].
  - specialize (Hupdate 2 (ProductTypeCreate.mk "Lafa" (Some "Offcuts"))).
    destruct (update_product_type (seed_product_types empty_catalog) 2
                (ProductTypeCreate.mk "Lafa" (Some "Offcuts")))
      as [[t cat']|e] eqn:Hr.
    + exact (proj2 (proj2 (proj2 Hupdate))).
    + vm_compute in Hr. discriminate Hr.
Defined.

(** X14. [delete_product_type] answers NotFound for an unknown id and
    refuses, with status 400 and without touching the table, a product
    type that a sale item refers to; a product type that no sale item
    refers to is deleted and can no longer be fetched, and the sales data
    is not touched. *)
Theorem delete_product_type_guarded (cat : Catalog) (product_type_id : Z) :
  match product_type_by_id cat product_type_id with
  | None => exists e, delete_product_type cat product_type_id = Err e /\ NotFound e
  | Some t =>
      (ProductType_sale_items cat t <> [] ->
       exists e, delete_product_type cat product_type_id = Err e /\ Conflict e)
      /\ (ProductType_sale_items cat t = [] ->
          exists msg cat',
            delete_product_type cat product_type_id = Ok (msg, cat')
            /\ (exists e, get_product_type cat' product_type_id = Err e
                          /\ NotFound e)
            /\ session cat' = session cat
            /\ forall id, id <> product_type_id ->
                 get_product_type cat' id = get_product_type cat id)
  end.
Proof.
  unfold delete_product_type.
  destruct (product_type_by_id cat product_type_id) as [t|] eqn:Ht;
    [|by eexists].
  apply first_Some in Ht as [Hin Hid]. apply Z.eqb_eq in Hid. split.
  - intros Hused. destruct (ProductType_sale_items cat t); [done|].
    by eexists.
  - intros ->. simpl. eexists _, _. split; [reflexivity|]. split_and!.
    + unfold get_product_type, product_type_by_id; simpl.
      rewrite Hid, first_filter_out. by eexists.
    + done.
    + intros id Hne. unfold get_product_type, product_type_by_id; simpl.
      rewrite first_filter_other by lia. done.
Qed.

(** ** Seeding the product types *)

Lemma has_product_seed_product (cat : Catalog) (pd : string * string)
    (name : string) :
  has_product cat name -> has_product (seed_product cat pd) name.
Proof.
  intros (t & Hin & Hn). unfold seed_product.
  destruct (product_type_by_name cat (fst pd)); [by exists t|].
  exists t. split; [|done]. simpl. apply elem_of_app. by left.
Qed.

Lemma seed_product_has (cat : Catalog) (pd : string * string) :
  has_product (seed_product cat pd) (fst pd).
Proof.
  unfold seed_product.
  destruct (product_type_by_name cat (fst pd)) as [t|] eqn:Ht.
  - apply product_type_by_name_Some in Ht as [Hin Hn]. by exists t.
  - exists (ProductType.mk (next_id (product_types cat)) (fst pd)
              (Some (snd pd))).
    split; [|reflexivity]. simpl. apply elem_of_app. right.
    by apply list_elem_of_singleton.
Qed.

Lemma seed_product_present (cat : Catalog) (pd : string * string) :
  has_product cat (fst pd) -> seed_product cat pd = cat.
Proof.
  intros Hhas. unfold seed_product.
  destruct (product_type_by_name cat (fst pd)) eqn:Ht; [done|].
  by apply product_type_by_name_None in Ht.
Qed.

Lemma seed_fold_has (l : list (string * string)) (cat : Catalog) (name : string) :
  has_product cat name -> has_product (fold_left seed_product l cat) name.
Proof.
  revert cat. induction l as [|pd l IH]; intros cat Hhas; [done|].
  simpl. by apply IH, has_product_seed_product.
Qed.

Lemma seed_fold_adds (l : list (string * string)) (cat : Catalog) :
  Forall (fun pd => has_product (fold_left seed_product l cat) (fst pd)) l.
Proof.
  revert cat. induction l as [|pd l IH]; intros cat; [constructor|].
  simpl. constructor; [|apply IH]. apply seed_fold_has, seed_product_has.
Qed.

Lemma seed_fold_present (l : list (string * string)) (cat : Catalog) :
  Forall (fun pd => has_product cat (fst pd)) l ->
  fold_left seed_product l cat = cat.
Proof.
  induction 1 as [|pd l Hpd _ IH]; [done|].
  simpl. by rewrite seed_product_present.
Qed.

Lemma seed_product_keeps (cat : Catalog) (pd : string * string) :
  table_ok ProductType.id (product_types cat) -> names_unique cat ->
  (exists new, rows (product_types (seed_product cat pd))
               = (rows (product_types cat) ++ new)%list)
  /\ table_ok ProductType.id (product_types (seed_product cat pd))
  /\ names_unique (seed_product cat pd)
  /\ session (seed_product cat pd) = session cat.
Proof.
  intros Hok Hnames. unfold seed_product.
  destruct (product_type_by_name cat (fst pd)) eqn:Ht.
  - split_and!; try done. exists []. by rewrite app_nil_r.
  - apply product_type_by_name_None in Ht. simpl. split_and!; try done.
    + by eexists.
    + by apply table_ok_add.
    + unfold names_unique; simpl. rewrite map_app. simpl.
      apply NoDup_app. split_and!; [done| |apply NoDup_singleton].
      intros n Hn Hn'. apply list_elem_of_singleton in Hn'. subst n.
      apply list_elem_of_fmap in Hn as (t & Hn & Hin). apply Ht. by exists t.
Qed.

(** X15. [seed_product_types] is safe to run at every start: afterwards
    each of the six default names is in the table, the rows that were
    there stay in front unchanged, keys and names stay distinct, the sales
    data is not touched, and running it again changes nothing. *)
Theorem seed_product_types_idempotent (cat : Catalog) :
  table_ok ProductType.id (product_types cat) -> names_unique cat ->
  Forall (fun pd => has_product (seed_product_types cat) (fst pd))
         default_products
  /\ (exists new, rows (product_types (seed_product_types cat))
                  = (rows (product_types cat) ++ new)%list)
  /\ table_ok ProductType.id (product_types (seed_product_types cat))
  /\ names_unique (seed_product_types cat)
  /\ session (seed_product_types cat) = session cat
  /\ seed_product_types (seed_product_types cat) = seed_product_types cat.
Proof.
  intros Hok Hnames. split; [apply seed_fold_adds|].
  split_and!.
  - unfold seed_product_types. generalize default_products. intros l.
    revert cat Hok Hnames. induction l as [|pd l IH]; intros cat Hok Hnames.
    + exists []. by rewrite app_nil_r.
    + simpl.
      destruct (seed_product_keeps cat pd Hok Hnames)
        as ((new & Hnew) & Hok' & Hnames' & _).
      destruct (IH _ Hok' Hnames') as (new' & Hnew').
      exists (new ++ new')%list. by rewrite Hnew', Hnew, app_assoc.
  - unfold seed_product_types. generalize default_products. intros l.
    revert cat Hok Hnames. induction l as [|pd l IH]; intros cat Hok Hnames;
      [done|].
    simpl. destruct (seed_product_keeps cat pd Hok Hnames)
      as (_ & Hok' & Hnames' & _). by apply IH.
  - unfold seed_product_types. generalize default_products. intros l.
    revert cat Hok Hnames. induction l as [|pd l IH]; intros cat Hok Hnames;
      [done|].
    simpl. destruct (seed_product_keeps cat pd Hok Hnames)
      as (_ & Hok' & Hnames' & _). by apply IH.
  - unfold seed_product_types. generalize default_products. intros l.
    revert cat Hok Hnames. induction l as [|pd l IH]; intros cat Hok Hnames;
      [done|].
    simpl. destruct (seed_product_keeps cat pd Hok Hnames)
      as (_ & Hok' & Hnames' & Hsession). by rewrite IH.
  - apply seed_fold_present, seed_fold_adds.
Qed.

Lemma seed_product_types_idempotent_witness :
  map ProductType.name (rows (product_types (seed_product_types empty_catalog)))
  = ["Ply"; "Lafa"; "Jalav"; "Sheet"; "Chavi"; "Khili"]
  /\ seed_product_types (seed_product_types empty_catalog)
     = seed_product_types empty_catalog.
Proof.
  split; [reflexivity|].
  refine (proj2 (proj2 (proj2 (proj2 (proj2
            (seed_product_types_idempotent empty_catalog _ _)))))).
  - split; constructor.
  - constructor.
Defined.

(** ** The ledger, row by row *)

Lemma ledger_fold_entries (txns : list txn.t) (st : Q * list LedgerEntry.t) :
  snd (fold_left ledger_step txns st)
  = (snd st ++ ledger_entries (fst st) txns)%list.
Proof.
  revert st. induction txns as [|t txns IH]; intros st; simpl.
  - by rewrite app_nil_r.
  - rewrite IH. simpl. by rewrite <- app_assoc.
Qed.

Lemma ledger_entries_running (b : Q) (txns : list txn.t) :
  running_from b (ledger_entries b txns).
Proof.
  revert b. induction txns as [|t txns IH]; intros b; simpl; [done|].
  split; [done | apply IH].
Qed.

Lemma ledger_entries_Forall (P : txn.t -> Prop) (Q' : LedgerEntry.t -> Prop)
    (b : Q) (txns : list txn.t) :
  (forall t b', P t ->
     Q' (LedgerEntry.mk (txn.date t) (txn.type t) (txn.description t)
           (txn.debit t) (txn.credit t) b')) ->
  Forall P txns -> Forall Q' (ledger_entries b txns).
Proof.
  intros HPQ Htx. revert b.
  induction Htx as [|t txns Ht _ IH]; intros b; simpl; constructor.
  - by apply HPQ.
  - apply IH.
Qed.

Lemma ledger_entries_ascending (b : Q) (txns : list txn.t) :
  dates_ascending txn.date txns ->
  dates_ascending LedgerEntry.date (ledger_entries b txns).
Proof.
  unfold dates_ascending. intros Hs. revert b.
  induction Hs as [|t txns _ IH Ht]; intros b; simpl; constructor.
  - apply IH.
  - eapply ledger_entries_Forall; [|exact Ht]. intros t' b' Hle. exact Hle.
Qed.

Lemma ledger_entries_length (b : Q) (txns : list txn.t) :
  length (ledger_entries b txns) = length txns.
Proof.
  revert b. induction txns as [|t txns IH]; intros b; simpl; [done|].
  by rewrite IH.
Qed.

Lemma ledger_entries_txns (b : Q) (txns : list txn.t) :
  map entry_txn (ledger_entries b txns) = txns.
Proof.
  revert b. induction txns as [|t txns IH]; intros b; simpl; [done|].
  rewrite IH. by destruct t.
Qed.

(** X16. For a known buyer and any date range the ledger is served; its
    rows are in order of date, the oldest first.  There is exactly one
    row for each sale of the buyer dated inside the range, of type SALE
    with the sale's date, its total as debit and no credit, and one for
    each payment of the buyer dated inside the range, of type PAYMENT
    with the payment's date, its amount as credit and no debit, and
    there is no other row.  The balance of each row is the balance of
    the row before it (the opening balance for the first) plus its debit
    minus its credit.  An unknown buyer gets NotFound. *)
Theorem ledger_rows_in_order (db : Session) (buyer_id : Z)
    (start_date end_date : option datetime.date) :
  match buyer_by_id db buyer_id with
  | None =>
      exists e, get_buyer_ledger db buyer_id start_date end_date = Err e
                /\ NotFound e
  | Some b =>
      exists r,
        get_buyer_ledger db buyer_id start_date end_date = Ok r
        /\ dates_ascending LedgerEntry.date (BuyerLedgerResponse.entries r)
        /\ running_from (Buyer.opening_balance b) (BuyerLedgerResponse.entries r)
        /\ Forall (fun e => sale_or_payment e
                            /\ in_range start_date end_date
                                 (LedgerEntry.date e) = true)
                  (BuyerLedgerResponse.entries r)
        /\ length (BuyerLedgerResponse.entries r)
           = (length (List.filter
                        (fun s => in_range start_date end_date (Sale.date s))
                        (Buyer_sales db b))
              + length (List.filter
                          (fun p => in_range start_date end_date
                                      (Payment.date p))
                          (Buyer_payments db b)))%nat
        /\ Permutation
             (map entry_txn (BuyerLedgerResponse.entries r))
             (map (fun s => txn.mk (Sale.date s) "SALE"
                              (txn.description (sale_txn s))
                              (Sale.total_amount s) 0%Q)
                  (List.filter
                     (fun s => in_range start_date end_date (Sale.date s))
                     (Buyer_sales db b))
              ++ map (fun p => txn.mk (Payment.date p) "PAYMENT"
                                 (txn.description (payment_txn p))
                                 0%Q (Payment.amount p))
                     (List.filter
                        (fun p => in_range start_date end_date (Payment.date p))
                        (Buyer_payments db b)))
  end.
Proof.
  unfold get_buyer_ledger.
  destruct (buyer_by_id db buyer_id) as [b|] eqn:Hb; [|by eexists].
  destruct (buyer_by_id_Some _ _ _ Hb) as [_ <-].
  eexists. split; [reflexivity|]. simpl.
  rewrite ledger_fold_entries. simpl. split_and!.
  - apply ledger_entries_ascending, sort_by_date_ascending.
  - apply ledger_entries_running.
  - eapply (ledger_entries_Forall
              (fun t => ((txn.type t = "SALE" /\ txn.credit t = 0%Q)
                         \/ (txn.type t = "PAYMENT" /\ txn.debit t = 0%Q))
                        /\ in_range start_date end_date (txn.date t) = true)).
    + intros t b' Ht. exact Ht.
    + apply Forall_forall. intros t Ht.
      apply elem_of_sort_by, elem_of_app in Ht as [Ht|Ht];
        apply list_elem_of_fmap in Ht as (x & -> & Hx);
        apply elem_of_sort_by, list_elem_of_In, filter_In in Hx as [_ Hx];
        simpl; split; [by left|done|by right|done].
  - rewrite ledger_entries_length, sort_by_length, length_app, !length_map.
    unfold ledger_sales, ledger_payments. rewrite !sort_by_length.
    reflexivity.
  - rewrite ledger_entries_txns, sort_by_Permutation.
    unfold ledger_sales, ledger_payments.
    apply Permutation_app; apply Permutation_map, sort_by_Permutation.
Qed.

(** ** List endpoints *)

Lemma StronglySorted_drop {A} (R : A -> A -> Prop) (n : nat) (l : list A) :
  StronglySorted R l -> StronglySorted R (drop n l).
Proof.
  intros Hl. revert n. induction Hl as [|x l Hl IH Hx]; intros [|n]; simpl;
    try constructor; done.
Qed.

Lemma length_page {A} (skip limit : nat) (l : list A) :
  (length (page skip limit l) <= limit)%nat.
Proof. unfold page. rewrite length_take. lia. Qed.

Lemma elem_of_page {A} (skip limit : nat) (l : list A) (x : A) :
  x ∈ page skip limit l -> x ∈ l.
Proof. unfold page. intros H. by apply subseteq_take, subseteq_drop in H. Qed.

Lemma page_sorted {A} (R : A -> A -> Prop) (skip limit : nat) (l : list A) :
  StronglySorted R l -> StronglySorted R (page skip limit l).
Proof. intros H. by apply StronglySorted_take, StronglySorted_drop. Qed.

Lemma page_all {A} (limit : nat) (l : list A) :
  (length l <= limit)%nat -> page 0 limit l = l.
Proof. intros H. unfold page. simpl. by apply take_ge. Qed.

Lemma PaymentType_eqb_eq (a b : PaymentType) :
  PaymentType_eqb a b = true <-> a = b.
Proof. destruct a, b; simpl; split; (done || congruence). Qed.

(** X17. [get_sales] returns at most [limit] sales, the latest date
    first; every sale returned is in the date range, is of the buyer
    asked for and of the payment type asked for; asking for buyer 0 is
    the same as asking for no buyer; and when the limit covers all
    matching sales and nothing is skipped, each matching sale is returned
    exactly once. *)
Theorem get_sales_listing (db : Session) (skip limit : nat)
    (start_date end_date : option datetime.date) (buyer_id : option Z)
    (payment_type : option PaymentType) :
  let matching :=
    List.filter (sales_filter start_date end_date buyer_id payment_type)
                (rows (sales db)) in
  let r := get_sales db skip limit start_date end_date buyer_id payment_type in
  (length r <= limit)%nat
  /\ dates_descending Sale.date r
  /\ Forall (fun s =>
               s ∈ rows (sales db)
               /\ in_range start_date end_date (Sale.date s) = true
               /\ (forall b, buyer_id = Some b -> b <> 0 -> Sale.buyer_id s = b)
               /\ (forall t, payment_type = Some t -> Sale.payment_type s = t))
            r
  /\ get_sales db skip limit start_date end_date (Some 0) payment_type
     = get_sales db skip limit start_date end_date None payment_type
  /\ ((length matching <= limit)%nat ->
      Permutation
        (get_sales db 0 limit start_date end_date buyer_id payment_type)
        matching).
Proof.
  intros matching r. unfold r, get_sales. fold matching. split_and!.
  - apply length_page.
  - apply page_sorted, sort_by_date_descending.
  - apply Forall_forall. intros s Hs.
    apply elem_of_page, elem_of_sort_by in Hs.
    apply list_elem_of_In, filter_In in Hs as [Hin Hf].
    apply list_elem_of_In in Hin. unfold sales_filter in Hf.
    apply andb_true_iff in Hf as [Hf Hpt].
    apply andb_true_iff in Hf as [Hrange Hb].
    split_and!; [done..| |].
    + intros b -> Hb0. replace (b =? 0) with false in Hb by lia. lia.
    + intros t ->. by apply PaymentType_eqb_eq.
  - reflexivity.
  - intros Hlen. rewrite page_all by (by rewrite sort_by_length).
    apply sort_by_Permutation.
Qed.

Example get_sales_buyer_zero :
  map Sale.id (get_sales ledger_db 0 100 None None (Some 0) None) = [2; 1]
  /\ map Sale.id (get_sales ledger_db 0 100 None None (Some 5) None) = []
  /\ map Sale.id (get_sales ledger_db 1 100 None None None None) = [1].
Proof. vm_compute. done. Qed.

(** X18. [get_expenses] returns at most [limit] expenses, the latest date
    first, each in the date range and of the category asked for; when
    the limit covers all matching expenses and nothing is skipped, each
    matching expense is returned exactly once. *)
Theorem get_expenses_listing (db : Session) (skip limit : nat)
    (start_date end_date : option datetime.date)
    (category : option ExpenseCategory) :
  let matches e :=
    in_range start_date end_date (Expense.date e)
    && match category with
       | Some c => ExpenseCategory_eqb (Expense.category e) c
       | None => true
       end in
  let r := get_expenses db skip limit start_date end_date category in
  (length r <= limit)%nat
  /\ dates_descending Expense.date r
  /\ Forall (fun e =>
               e ∈ rows (expenses db)
               /\ in_range start_date end_date (Expense.date e) = true
               /\ (forall c, category = Some c -> Expense.category e = c))
            r
  /\ ((length (List.filter matches (rows (expenses db))) <= limit)%nat ->
      Permutation (get_expenses db 0 limit start_date end_date category)
                  (List.filter matches (rows (expenses db)))).
Proof.
  intros matches r. unfold r, get_expenses. split_and!.
  - apply length_page.
  - apply page_sorted, sort_by_date_descending.
  - apply Forall_forall. intros e He.
    apply elem_of_page, elem_of_sort_by in He.
    apply list_elem_of_In, filter_In in He as [Hin Hf].
    apply list_elem_of_In in Hin.
    apply andb_true_iff in Hf as [Hrange Hc].
    split_and!; [done..|].
    intros c ->. by apply ExpenseCategory_eqb_eq.
  - intros Hlen. rewrite page_all by (by rewrite sort_by_length).
    apply sort_by_Permutation.
Qed.

(** ** Searching by name *)

Lemma lower_char_wildcards (c : ascii) :
  Ascii.eqb (lower_char c) "%"%char = Ascii.eqb c "%"%char
  /\ Ascii.eqb (lower_char c) "_"%char = Ascii.eqb c "_"%char.
Proof.
  destruct c as [[] [] [] [] [] [] [] []]; split; reflexivity.
Qed.

Lemma lower_append (s t : string) : lower (s +:+ t) = lower s +:+ lower t.
Proof.
  induction s as [|c s IH]; [done|].
  change (String c s +:+ t) with (String c (s +:+ t)). simpl lower.
  rewrite IH. reflexivity.
Qed.

Lemma lower_wildcard_free (s : string) :
  wildcard_free (lower s) = wildcard_free s.
Proof.
  induction s as [|c s IH]; [done|]. simpl.
  destruct (lower_char_wildcards c) as [-> ->]. by rewrite IH.
Qed.

(** For a search string without wildcards, [ilike] on [%search%] is
    containment with the case of ASCII letters ignored. *)
Lemma column_ilike_contains (col : option string) (search : string) :
  wildcard_free search = true ->
  column_ilike col ("%" +:+ search +:+ "%") = true <->
  exists s, col = Some s /\ contains (lower search) (lower s).
Proof.
  intros Hw. unfold column_ilike. destruct col as [s|].
  - rewrite !lower_append.
    change (lower "%") with "%".
    rewrite like_contains by (by rewrite lower_wildcard_free).
    split; [by exists s | by intros (s' & [= <-] & ?)].
  - split; [done | by intros (s & ? & _)].
Qed.

(** X19. In [get_purchases] a seller-name search without the characters
    [%] and [_] selects the purchases whose seller name contains the
    search string, upper and lower case letters taken as equal; an empty
    search string selects all.  The result is in descending order of
    date and at most [limit] long. *)
Theorem get_purchases_search (db : Session) (skip limit : nat)
    (start_date end_date : option datetime.date) (search : string) :
  wildcard_free search = true -> search <> "" ->
  let r := get_purchases db skip limit start_date end_date (Some search) in
  (length r <= limit)%nat
  /\ dates_descending Purchase.date r
  /\ Forall (fun p =>
               p ∈ rows (purchases db)
               /\ in_range start_date end_date (Purchase.date p) = true
               /\ contains (lower search) (lower (Purchase.seller_name p)))
            r
  /\ (forall p, p ∈ rows (purchases db) ->
        in_range start_date end_date (Purchase.date p) = true ->
        contains (lower search) (lower (Purchase.seller_name p)) ->
        p ∈ get_purchases db 0 (length (rows (purchases db)))
              start_date end_date (Some search))
  /\ get_purchases db skip limit start_date end_date (Some "")
     = get_purchases db skip limit start_date end_date None.
Proof.
  intros Hw Hne r. unfold r, get_purchases.
  destruct search as [|c n]; [done|]. split_and!.
  - apply length_page.
  - apply page_sorted, sort_by_date_descending.
  - apply Forall_forall. intros p Hp.
    apply elem_of_page, elem_of_sort_by in Hp.
    apply list_elem_of_In, filter_In in Hp as [Hin Hf].
    apply list_elem_of_In in Hin.
    apply andb_true_iff in Hf as [Hrange Hs].
    apply column_ilike_contains in Hs as (s & [= <-] & Hs); done.
  - intros p Hin Hrange Hc. rewrite page_all.
    + apply elem_of_sort_by, list_elem_of_In, filter_In.
      split; [by apply list_elem_of_In|].
      rewrite Hrange. apply andb_true_iff. split; [done|].
      apply (column_ilike_contains _ (String c n)); [done|].
      by eexists.
    + rewrite sort_by_length. apply filter_length_le.
  - reflexivity.
Qed.

Lemma get_purchases_search_witness :
  map Purchase.seller_name
      (get_purchases acme_db 0 10 None None (Some "ACM")) = ["Acme"]
  /\ Forall (fun p => contains (lower "ACM") (lower (Purchase.seller_name p)))
            (get_purchases acme_db 0 10 None None (Some "ACM")).
Proof.
  split; [reflexivity|].
  destruct (get_purchases_search acme_db 0 10 None None "ACM" eq_refl
              ltac:(discriminate)) as (_ & _ & Hall & _).
  eapply Forall_impl; [exact Hall|]. intros p (_ & _ & Hc). exact Hc.
Defined.

(** X20. In [get_buyers] a search without the characters [%] and [_]
    returns only buyers whose name or phone number contains the search
    string, upper and lower case letters taken as equal; the list is at
    most [limit] long and an empty search string selects all. *)
Theorem get_buyers_search (db : Session) (skip limit : nat) (search : string) :
  wildcard_free search = true -> search <> "" ->
  let r := get_buyers db skip limit (Some search) in
  (length r <= limit)%nat
  /\ Forall (fun b =>
               contains (lower search) (lower (BuyerResponse.name b))
               \/ exists phone, BuyerResponse.phone b = Some phone
                    /\ contains (lower search) (lower phone))
            r
  /\ get_buyers db skip limit (Some "") = get_buyers db skip limit None.
Proof.
  intros Hw Hne r. unfold r, get_buyers.
  destruct search as [|c q]; [done|]. split_and!.
  - rewrite length_map, length_take. lia.
  - apply Forall_forall. intros b Hb.
    apply list_elem_of_fmap in Hb as (x & -> & Hx).
    apply subseteq_take, subseteq_drop, elem_of_sort_by in Hx.
    apply list_elem_of_In, filter_In in Hx as [_ Hf]. simpl.
    apply orb_true_iff in Hf as [Hf|Hf];
      apply column_ilike_contains in Hf as (s & Hs & Hc); try done.
    + left. by injection Hs as <-.
    + right. by exists s.
  - reflexivity.
Qed.

Lemma get_buyers_search_witness :
  map BuyerResponse.name (get_buyers tie_db 0 10 (Some "SH")) = ["Asha"].
Proof.
  destruct (get_buyers_search tie_db 0 10 "SH" eq_refl ltac:(discriminate))
    as (_ & _ & _).
  reflexivity.
Defined.

(** ** Buyers *)

Lemma first_app_other {A} (p : A -> bool) (l : list A) (y : A) :
  p y = false -> first p (l ++ [y]) = first p l.
Proof.
  intros Hy. unfold first. induction l as [|x l IH]; simpl.
  - by rewrite Hy.
  - destruct (p x); [done | exact IH].
Qed.

(** X21. [update_buyer] answers 404 for an unknown buyer.  For a known
    one it keeps the id, the updated row is the one found under that id
    afterwards, every other buyer is found as before, and no sale and no
    payment changes: the buyer's [total_sales] and [total_payments] are
    as before.  Each field is the one supplied, or the one before when
    the request leaves it out; when it leaves [opening_balance] out the
    outstanding balance is as before too. *)
Theorem update_buyer_keeps_totals
    (db : Session) (buyer_id : Z) (buyer_update : BuyerUpdate.t) :
  match buyer_by_id db buyer_id with
  | None =>
      update_buyer db buyer_id buyer_update
      = Err (HTTPException 404 "Buyer not found")
  | Some b =>
      exists b' db',
        update_buyer db buyer_id buyer_update = Ok (b', db')
        /\ Buyer.id b' = buyer_id
        /\ buyer_by_id db' buyer_id = Some b'
        /\ (forall k, k <> buyer_id -> buyer_by_id db' k = buyer_by_id db k)
        /\ sales db' = sales db /\ payments db' = payments db
        /\ Buyer.name b' = get (BuyerUpdate.name buyer_update) (Buyer.name b)
        /\ Buyer.phone b'
           = set_nullable (BuyerUpdate.phone buyer_update) (Buyer.phone b)
        /\ Buyer.address b'
           = set_nullable (BuyerUpdate.address buyer_update) (Buyer.address b)
        /\ Buyer.notes b'
           = set_nullable (BuyerUpdate.notes buyer_update) (Buyer.notes b)
        /\ Buyer.opening_balance b'
           = get (BuyerUpdate.opening_balance buyer_update)
                 (Buyer.opening_balance b)
        /\ total_sales db' b' = total_sales db b
        /\ total_payments db' b' = total_payments db b
        /\ (BuyerUpdate.opening_balance buyer_update = None ->
            outstanding_balance db' b' = outstanding_balance db b)
  end.
Proof.
  unfold update_buyer. destruct (buyer_by_id db buyer_id) as [b|] eqn:Hb;
    [|reflexivity].
  destruct (buyer_by_id_Some _ _ _ Hb) as [_ Hid].
  eexists _, _. split; [reflexivity|]. split_and!.
  - exact Hid.
  - unfold buyer_by_id in *. simpl.
    rewrite first_update_where by reflexivity. rewrite Hb. simpl.
    by rewrite Hid, Z.eqb_refl.
  - intros k Hk. unfold buyer_by_id in *. simpl.
    rewrite first_update_where by reflexivity.
    destruct (first (fun x => Buyer.id x =? k) (rows (buyers db)))
      as [r|] eqn:Hr; [|done]. simpl.
    apply first_Some in Hr as [_ Hr].
    by replace (Buyer.id r =? Buyer.id b) with false by lia.
  - reflexivity.
  - reflexivity.
  - reflexivity.
  - reflexivity.
  - reflexivity.
  - reflexivity.
  - reflexivity.
  - reflexivity.
  - reflexivity.
  - intros Hnone. unfold outstanding_balance, total_sales, total_payments,
      Buyer_sales, Buyer_payments. simpl. by rewrite Hnone.
Qed.

(** X22. [create_buyer] stores the buyer under a fresh id, where
    [get_buyer] finds it; the buyers already stored are found as before.
    If no sale and no payment carries the new id already, the new buyer
    has no sales and no payments and owes the opening balance. *)
Theorem create_buyer_owes_opening_balance
    (db : Session) (buyer : BuyerCreate.t) :
  table_ok Buyer.id (buyers db) ->
  Forall (fun s => Sale.buyer_id s <> next_id (buyers db)) (rows (sales db)) ->
  Forall (fun p => Payment.buyer_id p <> next_id (buyers db))
         (rows (payments db)) ->
  let b := fst (create_buyer db buyer) in
  let db' := snd (create_buyer db buyer) in
  Buyer.name b = BuyerCreate.name buyer
  /\ Buyer.opening_balance b = BuyerCreate.opening_balance buyer
  /\ buyer_by_id db (Buyer.id b) = None
  /\ get_buyer db' (Buyer.id b) = Ok (BuyerResponse_of db' b)
  /\ (forall k, k <> Buyer.id b -> buyer_by_id db' k = buyer_by_id db k)
  /\ Buyer_sales db' b = [] /\ Buyer_payments db' b = []
  /\ (outstanding_balance db' b == BuyerCreate.opening_balance buyer)%Q.
Proof.
  intros [_ Hlt] Hs Hp b db'. unfold b, db', create_buyer. simpl.
  assert (Hfresh : Forall (fun x => (Buyer.id x =? next_id (buyers db)) = false)
                          (rows (buyers db))).
  { eapply Forall_impl; [exact Hlt|]. intros x Hx. simpl in Hx. lia. }
  assert (Hsales : List.filter
                     (fun s => Sale.buyer_id s =? next_id (buyers db))
                     (rows (sales db)) = []).
  { apply filter_nil_if. intros x Hx.
    rewrite Forall_forall in Hs. specialize (Hs x Hx). simpl in Hs. lia. }
  assert (Hpays : List.filter
                    (fun p => Payment.buyer_id p =? next_id (buyers db))
                    (rows (payments db)) = []).
  { apply filter_nil_if. intros x Hx.
    rewrite Forall_forall in Hp. specialize (Hp x Hx). simpl in Hp. lia. }
  split_and!; try reflexivity.
  - by apply first_None_iff.
  - unfold get_buyer, buyer_by_id. simpl.
    rewrite first_append_new; [reflexivity | exact Hfresh |].
    simpl. apply Z.eqb_refl.
  - intros k Hk. unfold buyer_by_id. simpl.
    apply first_app_other. simpl. lia.
  - exact Hsales.
  - exact Hpays.
  - unfold outstanding_balance, total_sales, total_payments, Buyer_sales,
      Buyer_payments. simpl. rewrite Hsales, Hpays. simpl.
    unfold sum. simpl. ring.
Qed.

Lemma create_buyer_owes_opening_balance_witness :
  (outstanding_balance
     (snd (create_buyer ledger_db (BuyerCreate.mk "Mira" None None None 40%Q)))
     (fst (create_buyer ledger_db (BuyerCreate.mk "Mira" None None None 40%Q)))
   == 40)%Q.
Proof.
  destruct (create_buyer_owes_opening_balance ledger_db
              (BuyerCreate.mk "Mira" None None None 40%Q))
    as (_ & _ & _ & _ & _ & _ & _ & Hout).
  - apply store_ok_ledger_db.
  - decide_by_evaluation.
  - decide_by_evaluation.
  - exact Hout.
Defined.

(** A sale entered for a buyer id that no buyer has yet is picked up by
    the buyer who later receives that id. *)
Example create_buyer_inherits_orphan_sales :
  let db := snd (create_sale empty_db
                   (SaleCreate.mk (datetime.mkdate 2024 1 5) 1 CREDIT 0%Q None
                      [SaleItemCreate.mk 1 2%Q "kg" 50%Q])) in
  let r := create_buyer db (BuyerCreate.mk "Mira" None None None 0%Q) in
  Buyer.id (fst r) = 1
  /\ Qeq_bool (outstanding_balance (snd r) (fst r)) 100 = true.
Proof. vm_compute. done. Qed.

(** X23. Once [delete_buyer] has accepted, that is for a buyer without
    sales and payments, [get_buyer] answers 404 for the id, every other
    buyer is served as before, and asking to delete again answers 404. *)
Theorem delete_buyer_then_get (db : Session) (buyer_id : Z) (b : Buyer.t) :
  buyer_by_id db buyer_id = Some b ->
  Buyer_sales db b = [] -> Buyer_payments db b = [] ->
  exists msg db',
    delete_buyer db buyer_id = Ok (msg, db')
    /\ get_buyer db' buyer_id = Err (HTTPException 404 "Buyer not found")
    /\ delete_buyer db' buyer_id = Err (HTTPException 404 "Buyer not found")
    /\ (forall k, k <> buyer_id -> get_buyer db' k = get_buyer db k).
Proof.
  intros Hb Hs Hp. unfold delete_buyer at 1. rewrite Hb, Hs, Hp. simpl.
  destruct (buyer_by_id_Some _ _ _ Hb) as [_ Hid].
  eexists _, _. split; [reflexivity|].
  assert (Hgone : buyer_by_id
                    (mk_db (delete_buyer_row b (buyers db)) (purchases db)
                       (sales db) (sale_items db) (payments db) (expenses db))
                    buyer_id = None).
  { unfold buyer_by_id, delete_buyer_row. simpl. rewrite Hid.
    apply first_filter_out. }
  split_and!.
  - unfold get_buyer. by rewrite Hgone.
  - unfold delete_buyer. by rewrite Hgone.
  - intros k Hk. unfold get_buyer, buyer_by_id, delete_buyer_row. simpl.
    rewrite Hid, first_filter_other by done. reflexivity.
Qed.

Lemma delete_buyer_then_get_witness :
  exists msg db',
    delete_buyer tie_db 1 = Ok (msg, db')
    /\ get_buyer db' 1 = Err (HTTPException 404 "Buyer not found").
Proof.
  destruct (delete_buyer_then_get tie_db 1
              (Buyer.mk 1 "Asha" None None None 100%Q)
              eq_refl eq_refl eq_refl)
    as (msg & db' & Hd & Hg & _).
  exists msg, db'. split; [exact Hd | exact Hg].
Defined.

(** ** The receivable of the dashboard *)

(** X24. The receivable of the dashboard is what adding the outstanding
    balance of each stored buyer, in table order, to 0 gives; and the
    balances it adds are the ones [get_buyers_list] shows, and the ones
    [get_buyers] shows when its page takes in every buyer: the same
    balances, one for each buyer, in order of name there. *)
Theorem dashboard_receivable_adds_listed_balances
    (db : Session) (today : datetime.date) :
  let d := get_dashboard_summary db today in
  DashboardSummary.total_receivable d
  = fold_left (fun total_receivable buyer =>
                 (total_receivable + outstanding_balance db buyer)%Q)
              (rows (buyers db)) 0%Q
  /\ Permutation
       (map BuyerListResponse.outstanding_balance (get_buyers_list db))
       (map (outstanding_balance db) (rows (buyers db)))
  /\ Permutation
       (map BuyerResponse.outstanding_balance
            (get_buyers db 0 (length (rows (buyers db))) None))
       (map (outstanding_balance db) (rows (buyers db))).
Proof.
  intros d. unfold d. split_and!.
  - reflexivity.
  - unfold get_buyers_list, order_by_name. rewrite map_map. simpl.
    apply Permutation_map, sort_by_Permutation.
  - unfold get_buyers, order_by_name. rewrite map_map. simpl.
    rewrite drop_0, take_ge by by rewrite sort_by_length.
    apply Permutation_map, sort_by_Permutation.
Qed.

(** A sale for a buyer id that no buyer has is part of the total sales
    of the dashboard and of no buyer's balance. *)
Example dashboard_receivable_without_the_buyer :
  let db := snd (create_sale empty_db
                   (SaleCreate.mk (datetime.mkdate 2024 1 5) 1 CREDIT 0%Q None
                      [SaleItemCreate.mk 1 2%Q "kg" 50%Q])) in
  let d := get_dashboard_summary db (datetime.mkdate 2024 1 5) in
  Qeq_bool (DashboardSummary.total_sales d) 100 = true
  /\ Qeq_bool (DashboardSummary.total_receivable d) 0 = true.
Proof. vm_compute. done. Qed.

(** ** Sales by product *)

(** X27. The rows that [get_product_sales_stats] sums over are the
    triples of a stored product type, a stored sale item of that type
    and the stored sale of that item, with the sale dated within the
    range: a sale item of a product type that is not stored, or of a
    sale that is not, counts nowhere.  A product name is listed once,
    and exactly the names of the product types that have such a sale
    item are listed; the quantity and the amount listed with a name are
    the sums over the rows of that name. *)
Theorem product_sales_names (cat : Catalog)
    (start_date end_date : option datetime.date) :
  let result := get_product_sales_stats cat start_date end_date in
  let query :=
    List.filter (fun j => in_range start_date end_date (Sale.date (snd j)))
                (product_sales_join cat) in
  NoDup (map ProductSales.product_name result)
  /\ (forall pt si s,
        (pt, si, s) ∈ query <->
        pt ∈ rows (product_types cat)
        /\ si ∈ rows (sale_items (session cat))
        /\ s ∈ rows (sales (session cat))
        /\ ProductType.id pt = SaleItem.product_type_id si
        /\ SaleItem.sale_id si = Sale.id s
        /\ in_range start_date end_date (Sale.date s) = true)
  /\ (forall name,
        name ∈ map ProductSales.product_name result <->
        exists pt si,
          pt ∈ rows (product_types cat)
          /\ ProductType.name pt = name
          /\ si ∈ counted_items cat start_date end_date
          /\ SaleItem.product_type_id si = ProductType.id pt)
  /\ (forall r, r ∈ result ->
        let group :=
          List.filter
            (fun j => String.eqb (ProductType.name (fst (fst j)))
                                 (ProductSales.product_name r))
            query in
        ProductSales.total_quantity r
        = sum (map (fun j => SaleItem.quantity (snd (fst j))) group)
        /\ ProductSales.total_amount r
           = sum (map (fun j => SaleItem.total_price (snd (fst j))) group)).
Proof.
  intros result query. unfold result, get_product_sales_stats. fold query.
  assert (Hquery : forall pt si s,
    (pt, si, s) ∈ query <->
    pt ∈ rows (product_types cat)
    /\ si ∈ rows (sale_items (session cat))
    /\ s ∈ rows (sales (session cat))
    /\ ProductType.id pt = SaleItem.product_type_id si
    /\ SaleItem.sale_id si = Sale.id s
    /\ in_range start_date end_date (Sale.date s) = true).
  { intros pt si s. unfold query, product_sales_join.
    rewrite list_elem_of_In, filter_In, in_flat_map. simpl. split.
    - intros [(pt' & Hpt' & Hj) Hrange].
      apply in_flat_map in Hj as (si' & Hsi' & Hj).
      apply in_map_iff in Hj as (s' & [= -> -> ->] & Hs').
      apply filter_In in Hsi' as [Hsi' Hmatch].
      apply filter_In in Hs' as [Hs' Hsale].
      rewrite !list_elem_of_In. split_and!; try done; lia.
    - intros (Hpt & Hsi & Hs & Hid & Hsale & Hrange).
      apply list_elem_of_In in Hpt. apply list_elem_of_In in Hsi.
      apply list_elem_of_In in Hs.
      split; [|done]. exists pt. split; [done|].
      apply in_flat_map. exists si. split.
      + apply filter_In. split; [done | lia].
      + apply in_map_iff. exists s. split; [done|].
        apply filter_In. split; [done | lia]. }
  split_and!.
  - rewrite map_map. simpl. rewrite map_id. apply NoDup_remove_dups.
  - exact Hquery.
  - intros name. rewrite map_map. simpl. rewrite map_id.
    rewrite elem_of_remove_dups, list_elem_of_fmap. split.
    + intros ([[pt si] s] & -> & Hj). simpl.
      apply Hquery in Hj as (Hpt & Hsi & Hs & Hid & Hsale & Hrange).
      exists pt, si. split_and!; try done.
      apply list_elem_of_In, filter_In. rewrite <- list_elem_of_In.
      split; [done|].
      apply andb_true_iff. split; apply existsb_exists.
      * exists pt. rewrite <- list_elem_of_In. split; [done | lia].
      * exists s. rewrite <- list_elem_of_In. split; [done|].
        rewrite Hrange, andb_true_r. lia.
    + intros (pt & si & Hpt & <- & Hsi & Hid).
      apply list_elem_of_In, filter_In in Hsi as [Hsi Hcount].
      apply andb_true_iff in Hcount as [_ Hsale].
      apply existsb_exists in Hsale as (s & Hs & Hsale).
      apply andb_true_iff in Hsale as [Hsale Hrange].
      exists (pt, si, s). split; [done|].
      apply list_elem_of_In in Hsi. apply list_elem_of_In in Hs.
      apply Hquery. split_and!; try done; lia.
  - intros r Hr. apply list_elem_of_fmap in Hr as (name & -> & _). done.
Qed.

(** A sale item of a product type that is not stored is left out of the
    statistics, though it is part of the total of its sale. *)
Example product_sales_unknown_product :
  let cat := mk_catalog empty_table (snd (create_sale acme_db ravi_sale)) in
  get_product_sales_stats cat None None = []
  /\ map (fun s => Qeq_bool (Sale.total_amount s) 56)
         (rows (sales (session cat))) = [true].
Proof. vm_compute. done. Qed.
